(** * Streaming chat orchestrator (src/app/api/gen-chat/route.ts)

    A shallow embedding of the gen-chat route: the system prompt selector
    ([detectSubject], [getSystemPrompt]), the per-step persistence callback
    ([onStepFinish], [saveToolOutputs]), the stream transform, the two error
    classifiers and the [POST] handler itself.

    Conventions of the embedding.
    - JavaScript strings are [string]s; [toLowerCase] folds the ASCII letters
      A-Z and leaves every other character as it is.
    - Values the route never looks into (tool arguments, results, usage
      records, JSON payloads) are [value]s, a JSON tree with [VUndefined].
    - A call that can raise returns a [res]; code with effects runs in the
      state-and-exception monad [M], whose state holds the two tables the
      route writes to, the ordered trace of its effects and the two flags
      [streamFinished] / [streamError] of the handler's closure.
    - Everything the route gets from outside (session, request body, thread
      table, the replies of the store to inserts, the language-model SDK,
      [JSON.parse], the clock, [crypto.randomUUID]) is a field of [Env].
    - The eleven prompt constants of app/utils/systemPrompt are a
      [PromptTable] the definitions are parameterised by.
    - The errors the engine raises (a property read on null, a call of
      what is no function, a status the Response constructor refuses) carry
      the class the engine gives them; their message texts are V8's, and no
      property stated below depends on a text. *)

From Stdlib Require Import String Ascii List ZArith QArith Bool Arith Lia.
Import ListNotations.

Close Scope Q_scope.
Open Scope string_scope.
Open Scope list_scope.

(** ** Strings *)

Definition nl : string := String (ascii_of_nat 10) EmptyString.

Definition dquote : string := String (ascii_of_nat 34) EmptyString.

(** Lines joined by a line feed, as they stand in a template literal. *)
Definition unlines (ls : list string) : string := String.concat nl ls.

Definition lower_ascii (c : ascii) : ascii :=
  let n := nat_of_ascii c in
  if (65 <=? n)%nat && (n <=? 90)%nat then ascii_of_nat (n + 32) else c.

(** [String.prototype.toLowerCase] on ASCII text.  Outside ASCII,
    JavaScript lowers two letters to something that holds an ASCII letter
    (U+212A to k, U+0130 to i followed by U+0307); neither can complete one
    of the six keywords of [detectSubject], none of which has a k or ends
    in i, so the detection does not depend on them. *)
Fixpoint toLowerCase (s : string) : string :=
  match s with
  | EmptyString => EmptyString
  | String c r => String (lower_ascii c) (toLowerCase r)
  end.

(** [String.prototype.includes]: [sub] occurs somewhere in [s]. *)
Fixpoint includes (s sub : string) : bool :=
  String.prefix sub s ||
  match s with
  | EmptyString => false
  | String _ r => includes r sub
  end.

(** [a || b] on strings: the empty string is falsy. *)
Definition or_str (a b : string) : string :=
  match a with EmptyString => b | _ => a end.

(** ** JavaScript values *)

#[local] Set Warnings "-register-all".

Inductive value : Type :=
| VUndefined
| VNull
| VBool (b : bool)
| VNum (q : Q)
| VStr (s : string)
| VArr (items : list value)
| VObj (fields : list (string * value)).

Definition truthy (v : value) : bool :=
  match v with
  | VUndefined | VNull => false
  | VBool b => b
  | VNum q => negb (Qeq_bool q 0)
  | VStr s => negb (s =? "")
  | VArr _ | VObj _ => true
  end.

(** [v === 'lit'] for a string literal. *)
Definition is_str (v : value) (lit : string) : bool :=
  match v with VStr s => s =? lit | _ => false end.

(** [a || b] on values. *)
Definition or_val (a b : value) : value := if truthy a then a else b.

Fixpoint assoc (k : string) (fs : list (string * value)) : value :=
  match fs with
  | [] => VUndefined
  | (k', v) :: rest => if k' =? k then v else assoc k rest
  end.

(** ** Errors and results *)

Inductive ErrorClass := EError | ETypeError | ESyntaxError | ERangeError | EAPICallError.

(** An [Error] object: its class, its message and the optional fields the
    classifiers probe. *)
Record JsError := mkError {
  err_class : ErrorClass;
  err_message : string;
  err_statusCode : option Z;
  err_isRetryable : value;
  err_url : value;
  err_responseBody : value;
  err_messageId : value;
  err_finishReason : value;
  err_usage : value;
  err_code : value;
  err_stack : value }.

Definition new_Error (c : ErrorClass) (msg : string) : JsError :=
  mkError c msg None VUndefined VUndefined VUndefined VUndefined VUndefined
          VUndefined VUndefined VUndefined.

Inductive res (E A : Type) : Type :=
| Ret (a : A)
| Throw (e : E).
Arguments Ret {E A} a.
Arguments Throw {E A} e.

(** Property read [v.k].  Reading a property of [undefined] or [null]
    raises a TypeError; the keys the route reads are own properties of JSON
    objects only, so every other value yields [undefined]. *)
Definition get (v : value) (k : string) : res JsError value :=
  match v with
  | VUndefined =>
      Throw (new_Error ETypeError ("Cannot read properties of undefined (reading '" ++ k ++ "')")%string)
  | VNull =>
      Throw (new_Error ETypeError ("Cannot read properties of null (reading '" ++ k ++ "')")%string)
  | VObj fs => Ret (assoc k fs)
  | _ => Ret VUndefined
  end.

(** ** The prompt table *)

Inductive Subject := science | math | english_subject | generic.
Inductive Language := english | hindi.

Record PromptTable := {
  SCIENCE_TEACHER_PROMPT : string;
  MATH_TEACHER_PROMPT : string;
  ENGLISH_TEACHER_PROMPT : string;
  GENERIC_TEACHER_PROMPT : string;
  TEACHER_BUDDY_PROMPT : string;
  SCIENCE_TEACHER_PROMPT_HINDI : string;
  MATH_TEACHER_PROMPT_HINDI : string;
  ENGLISH_TEACHER_PROMPT_HINDI : string;
  GENERIC_TEACHER_PROMPT_HINDI : string;
  TEACHING_MODE_PROMPT : string;
  TEACHING_MODE_PROMPT_HINDI : string }.

(** A message of [cleanMessages]: an object with [role] and [content]
    copied from the request, and three optional fields. *)
Record Message := {
  role : value;
  content : value;
  name : option value;
  toolCalls : option value;
  toolCallId : option value }.

Definition user_says (text : string) : Message :=
  {| role := VStr "user"; content := VStr text;
     name := None; toolCalls := None; toolCallId := None |}.

Section Prompts.

Variable P : PromptTable.

Definition prompts (language : Language) (subject : Subject) : string :=
  match language, subject with
  | english, science => SCIENCE_TEACHER_PROMPT P
  | english, math => MATH_TEACHER_PROMPT P
  | english, english_subject => ENGLISH_TEACHER_PROMPT P
  | english, generic => GENERIC_TEACHER_PROMPT P
  | hindi, science => SCIENCE_TEACHER_PROMPT_HINDI P
  | hindi, math => MATH_TEACHER_PROMPT_HINDI P
  | hindi, english_subject => ENGLISH_TEACHER_PROMPT_HINDI P
  | hindi, generic => GENERIC_TEACHER_PROMPT_HINDI P
  end.

(** [messages.slice().reverse().find(m => m.role === 'user')
       ?.content.toLowerCase() || '']:
    the optional chain stops only when no user message is found; with one
    found, [toLowerCase] is called on whatever its [content] is. *)
Definition lastUserMessage (messages : list Message) : res JsError string :=
  match find (fun m => is_str (role m) "user") (rev messages) with
  | None => Ret ""
  | Some m =>
      match content m with
      | VStr s => Ret (or_str (toLowerCase s) "")
      | VUndefined =>
          Throw (new_Error ETypeError "Cannot read properties of undefined (reading 'toLowerCase')")
      | VNull =>
          Throw (new_Error ETypeError "Cannot read properties of null (reading 'toLowerCase')")
      | _ =>
          Throw (new_Error ETypeError
                   "messages.slice(...).reverse(...).find(...)?.content.toLowerCase is not a function")
      end
  end.

Definition subjectOf (lastUserMessage : string) : Subject :=
  if includes lastUserMessage "math" || includes lastUserMessage "calculation" then math
  else if includes lastUserMessage "science" || includes lastUserMessage "experiment" then science
  else if includes lastUserMessage "english" || includes lastUserMessage "writing" then english_subject
  else generic.

Definition detectSubject (messages : list Message) : res JsError Subject :=
  match lastUserMessage messages with
  | Ret s => Ret (subjectOf s)
  | Throw e => Throw e
  end.

Definition toolsEnglish : string :=
  unlines
    [ ""; "";
      "You can use various tools to enhance the learning experience:";
      "- Create quizzes";
      "- Generate educational images";
      "- Create concept visualizations";
      "- Generate mind maps";
      "";
      "Do not ever mention that you are using the tools to the user. Just start using them.";
      "";
      "Always provide clear explanations and encourage active learning. Give short responses whenever possible." ].

Definition toolsHindi : string :=
  unlines
    [ ""; "";
      "आप सीखने के अनुभव को बढ़ाने के लिए विभिन्न उपकरणों का उपयोग कर सकते हैं:";
      "- इंटरैक्टिव गणित समस्याएँ उत्पन्न करें";
      "- क्विज़ बनाएँ";
      "- शैक्षिक छवियाँ उत्पन्न करें";
      "- अवधारणा विज़ुअलाइज़ेशन बनाएँ";
      "- माइंड मैप उत्पन्न करें";
      "";
      "कभी भी उपयोगकर्ता को यह न बताएं कि आप उपकरण का उपयोग कर रहे हैं। बस उनका उपयोग करना शुरू कर दें।";
      "";
      "हमेशा स्पष्ट व्याख्या प्रदान करें और सक्रिय सीखने को प्रोत्साहित करें। संभव हो तो छोटे उत्तर दें।" ].

Definition withTools (language : Language) (basePrompt : string) : string :=
  match language with
  | english => (basePrompt ++ toolsEnglish)%string
  | hindi => (basePrompt ++ toolsHindi)%string
  end.

Definition teachingPrompt (language : Language) : string :=
  match language with
  | english => TEACHING_MODE_PROMPT P
  | hindi => TEACHING_MODE_PROMPT_HINDI P
  end.

Definition getSystemPrompt (messages : list Message) (userRole : value)
    (language : Language) (teachingMode : bool) : res JsError string :=
  if is_str userRole "Teacher" then Ret (TEACHER_BUDDY_PROMPT P)
  else if teachingMode then Ret (teachingPrompt language)
  else
    match detectSubject messages with
    | Ret subject => Ret (withTools language (prompts language subject))
    | Throw e => Throw e
    end.

End Prompts.

(** ** The store, the trace and the monad of the handler *)

Record ChatMessageRow := {
  cm_id : string;
  cm_thread_id : option string;
  cm_role : string;
  cm_content : string }.

Record ToolOutputRow := {
  to_message_id : string;
  to_tool_name : string;
  to_tool_call_id : string;
  to_parameters : value;
  to_result : value;
  to_state : string }.

(** What the store answers to an insert: the rows are written, or the
    reply carries an [error] object, or the call itself raises. *)
Inductive InsertReply :=
| ReplyOk
| ReplyError (error : value)
| ReplyThrows (e : JsError).

(** What a [throw] inside the callbacks carries: an [Error], or the
    [error] object of a store reply. *)
Inductive thrown :=
| ThrownError (e : JsError)
| ThrownObject (v : value).

Inductive Level := LLog | LWarn | LError.

Record StreamTextOptions := {
  opt_system : string;
  opt_messages : list Message;
  opt_maxSteps : Z;
  opt_temperature : Q;
  opt_maxTokens : Z }.

Inductive Event :=
| Console (level : Level) (label : string)
| SelectThread (id : string)
| InsertMessage (row : ChatMessageRow) (reply : InsertReply)
| InsertToolOutputs (rows : list ToolOutputRow) (reply : InsertReply)
| ModelCall (opts : StreamTextOptions)
| TokenUsage (promptTokens completionTokens : value) (email : option string)
| Abort.

Record State := mkState {
  chat_messages : list ChatMessageRow;
  tool_outputs : list ToolOutputRow;
  trace : list Event;
  db_calls : nat;
  uuids : nat;
  streamFinished : bool;
  streamError : option JsError }.

Definition M (E A : Type) : Type := State -> res E A * State.

Definition ret {E A} (a : A) : M E A := fun s => (Ret a, s).

Definition throw {E A} (e : E) : M E A := fun s => (Throw e, s).

Definition bind {E A B} (m : M E A) (k : A -> M E B) : M E B :=
  fun s =>
    match m s with
    | (Ret a, s') => k a s'
    | (Throw e, s') => (Throw e, s')
    end.

(** [try { body } catch (err) { handler }]. *)
Definition try_catch {E E' A} (body : M E A) (handler : E -> M E' A) : M E' A :=
  fun s =>
    match body s with
    | (Ret a, s') => (Ret a, s')
    | (Throw e, s') => handler e s'
    end.

(** A raising pure call run inside the monad. *)
Definition lift {E A} (r : res E A) : M E A := fun s => (r, s).

Declare Scope js_scope.
Delimit Scope js_scope with js.
Notation "x <- m ;; k" := (bind m (fun x => k))
  (at level 61, m at next level, right associativity) : js_scope.
Notation "m ;;; k" := (bind m (fun _ => k))
  (at level 61, right associativity) : js_scope.
Open Scope js_scope.

Definition emit {E} (ev : Event) : M E unit :=
  fun s =>
    (Ret tt,
     mkState (chat_messages s) (tool_outputs s) (trace s ++ [ev]) (db_calls s)
             (uuids s) (streamFinished s) (streamError s)).

Definition console {E} (level : Level) (label : string) : M E unit :=
  emit (Console level label).

(** ** The outside world *)

Record User := {
  user_id : string;
  user_email : option string;
  user_role : value }.

(** [supabase.auth.getUser()]: [{ data: { user }, error }], the error
    given by its message. *)
Record AuthReply := {
  auth_user : option User;
  auth_error : option string }.

Record ThreadRow := {
  thread_id : string;
  thread_user_id : string }.

(** The parsed request body.  [messages] is the one field the route
    validates at run time, so it stays an untyped [value]; the others have
    the types of the route's inbound interface, [None] for an absent field. *)
Record RequestBody := {
  body_messages : value;
  body_id : option string;
  body_language : option Language;
  body_teachingMode : option bool }.

Record ToolCall := {
  tc_toolCallId : string;
  tc_toolName : string;
  tc_args : value }.

Record ToolResult := {
  tr_toolCallId : string;
  tr_result : value }.

(** The argument of [onStepFinish]. *)
Record Step := {
  step_text : string;
  step_toolCalls : option (list ToolCall);
  step_toolResults : option (list ToolResult) }.

(** The argument of [onFinish]. *)
Record Finish := {
  fin_usage : value;
  fin_finishReason : string }.

(** The Response the SDK builds: the route reads its [status], its
    [statusText] (the reason phrase of a Response object, which the
    constructor accepts when it is given back to it) and its [body]. *)
Record SdkResponse := {
  sdk_status : Z;
  sdk_statusText : string;
  sdk_body : option (list value) }.

(** What [streamText] hands back: the response it builds on demand, and the
    steps and the finish record its stream will report to the callbacks. *)
Record StreamHandler := {
  toDataStreamResponse : res JsError SdkResponse;
  handler_steps : list Step;
  handler_finish : Finish }.

Record Env := {
  getUser : AuthReply;
  request_json : res JsError RequestBody;
  chat_threads : list ThreadRow;
  insert_reply : nat -> InsertReply;
  randomUUID : nat -> string;
  now_iso : string;
  JSON_parse : string -> option value;
  JSON_stringify : value -> string;
  streamText : StreamTextOptions -> res JsError StreamHandler;
  logTokenUsage_ok : bool;
  development : bool }.

Definition initial : State := mkState [] [] [] 0 0 false None.

Section Route.

Variable P : PromptTable.
Variable env : Env.

(** *** The store *)

(** [supabase.from('chat_messages').insert(row)], giving the [error] of
    the reply. *)
Definition insert_chat_message (row : ChatMessageRow) : M thrown (option value) :=
  fun s =>
    let reply := insert_reply env (db_calls s) in
    (match reply with
     | ReplyOk => Ret None
     | ReplyError error => Ret (Some error)
     | ReplyThrows e => Throw (ThrownError e)
     end,
     mkState
       (match reply with ReplyOk => chat_messages s ++ [row] | _ => chat_messages s end)
       (tool_outputs s)
       (trace s ++ [InsertMessage row reply])
       (S (db_calls s)) (uuids s) (streamFinished s) (streamError s)).

(** [supabase.from('tool_outputs').insert(outputs)]. *)
Definition insert_tool_outputs (outputs : list ToolOutputRow) : M thrown (option value) :=
  fun s =>
    let reply := insert_reply env (db_calls s) in
    (match reply with
     | ReplyOk => Ret None
     | ReplyError error => Ret (Some error)
     | ReplyThrows e => Throw (ThrownError e)
     end,
     mkState
       (chat_messages s)
       (match reply with ReplyOk => tool_outputs s ++ outputs | _ => tool_outputs s end)
       (trace s ++ [InsertToolOutputs outputs reply])
       (S (db_calls s)) (uuids s) (streamFinished s) (streamError s)).

(** [crypto.randomUUID()]. *)
Definition crypto_randomUUID {E} : M E string :=
  fun s =>
    (Ret (randomUUID env (uuids s)),
     mkState (chat_messages s) (tool_outputs s) (trace s) (db_calls s)
             (S (uuids s)) (streamFinished s) (streamError s)).

(** *** saveToolOutputs *)

Record ToolCallWithResult := {
  twr_id : string;
  twr_tool : string;
  twr_parameters : value;
  twr_result : value;
  twr_state : option string }.

Definition outputRow (messageId : string) (call : ToolCallWithResult) : ToolOutputRow :=
  {| to_message_id := messageId;
     to_tool_name := twr_tool call;
     to_tool_call_id := twr_id call;
     to_parameters := twr_parameters call;
     to_result := twr_result call;
     to_state := or_str (match twr_state call with Some st => st | None => "" end) "pending" |}.

Definition saveToolOutputs {E} (messageId : string)
    (toolCalls : list ToolCallWithResult) : M E unit :=
  try_catch
    (let outputs := map (outputRow messageId) toolCalls in
     error <- insert_tool_outputs outputs ;;
     match error with
     | Some e => console LError "Error saving tool outputs:" ;;; throw (ThrownObject e)
     | None => ret tt
     end)
    (fun err => console LError "Failed to save tool outputs:").

(** *** onStepFinish *)

(** [toolResults?.find(r => r.toolCallId === call.toolCallId)]. *)
Definition findResult (toolResults : option (list ToolResult)) (call : ToolCall)
    : option ToolResult :=
  match toolResults with
  | None => None
  | Some rs => find (fun r => tr_toolCallId r =? tc_toolCallId call) rs
  end.

Definition withResult (toolResults : option (list ToolResult)) (call : ToolCall)
    : ToolCallWithResult :=
  let result := findResult toolResults call in
  {| twr_id := tc_toolCallId call;
     twr_tool := tc_toolName call;
     twr_parameters := tc_args call;
     twr_result := or_val (match result with Some r => tr_result r | None => VUndefined end)
                          VUndefined;
     twr_state := Some (match result with Some _ => "result" | None => "pending" end) |}.

Definition onStepFinish {E} (threadId : option string) (step : Step) : M E unit :=
  match step_toolCalls step with
  | None | Some [] => ret tt
  | Some toolCalls =>
      try_catch
        (messageId <- crypto_randomUUID ;;
         messageError <- insert_chat_message
                           {| cm_id := messageId;
                              cm_thread_id := threadId;
                              cm_role := "assistant";
                              cm_content := step_text step |} ;;
         match messageError with
         | Some _ => console LError "Error saving message:"
         | None =>
             let toolCallsWithResults := map (withResult (step_toolResults step)) toolCalls in
             saveToolOutputs messageId toolCallsWithResults
         end)
        (fun err : thrown => console LError "Error in onStepFinish:")
  end.

(** *** onFinish *)

Definition set_streamFinished {E} (b : bool) : M E unit :=
  fun s =>
    (Ret tt,
     mkState (chat_messages s) (tool_outputs s) (trace s) (db_calls s)
             (uuids s) b (streamError s)).

Definition set_streamError {E} (e : option JsError) : M E unit :=
  fun s =>
    (Ret tt,
     mkState (chat_messages s) (tool_outputs s) (trace s) (db_calls s)
             (uuids s) (streamFinished s) e).

Definition zeroUsage : value :=
  VObj [("promptTokens", VNum 0); ("completionTokens", VNum 0)].

Definition field (v : value) (k : string) : value :=
  match v with VObj fs => assoc k fs | _ => VUndefined end.

Definition onFinish {E} (user : User) (fin : Finish) : M E unit :=
  set_streamFinished true ;;;
  try_catch (E := thrown)
    ((if fin_finishReason fin =? "error" then
        console LError "Stream finished with error:" ;;;
        set_streamError
          (Some (new_Error EError
             ("STREAM_FINISH_ERROR: " ++
              JSON_stringify env
                (VObj [("type", VStr "STREAM_FINISH_ERROR");
                       ("finishReason", VStr (fin_finishReason fin));
                       ("usage", or_val (fin_usage fin) zeroUsage);
                       ("timestamp", VStr (now_iso env))]))%string))
      else ret tt) ;;;
     if truthy (fin_usage fin) then
       emit (TokenUsage (or_val (field (fin_usage fin) "promptTokens") (VNum 0))
                        (or_val (field (fin_usage fin) "completionTokens") (VNum 0))
                        (match user_email user with
                         | Some "" | None => None
                         | Some e => Some e
                         end)) ;;;
       if logTokenUsage_ok env then ret tt
       else console LWarn "Token logging failed:"
     else ret tt)
    (fun err => console LError "Error in onFinish:").

(** *** The callbacks as the stream runs

    The SDK calls [onStepFinish] at the end of every step and [onFinish]
    at the end of the stream; an exception that escapes a callback breaks
    the run, and the callbacks after it are not reached. *)
Fixpoint run_steps {E} (threadId : option string) (steps : list Step) : M E unit :=
  match steps with
  | [] => ret tt
  | step :: rest => onStepFinish threadId step ;;; run_steps threadId rest
  end.

Definition run_callbacks {E} (user : User) (threadId : option string)
    (h : StreamHandler) : M E unit :=
  run_steps threadId (handler_steps h) ;;; onFinish user (handler_finish h).

(** *** The transform stream *)

Inductive ReadableState := Readable | Closed | Errored (e : JsError).

(** The controller of the TransformStream: what has been enqueued on the
    readable side so far, and the state of that side. *)
Record Controller := {
  queue : list value;
  readable : ReadableState }.

Definition fresh : Controller := {| queue := []; readable := Readable |}.

(** [controller.enqueue(chunk)] raises a TypeError once the readable side
    is closed or errored. *)
Definition enqueue (chunk : value) (c : Controller) : res JsError Controller :=
  match readable c with
  | Readable => Ret {| queue := queue c ++ [chunk]; readable := Readable |}
  | _ => Throw (new_Error ETypeError "Invalid state: Unable to enqueue")
  end.

(** [controller.terminate()] closes the readable side. *)
Definition terminate (c : Controller) : res JsError Controller :=
  match readable c with
  | Readable => Ret {| queue := queue c; readable := Closed |}
  | _ => Ret c
  end.

Definition textChunk (text : string) : value :=
  VObj [("type", VStr "text"); ("text", VStr text)].

Definition apologyChunk : value :=
  textChunk (nl ++ nl ++ "I apologize, but I encountered an issue while processing your request. Please try again or rephrase your question." ++ nl ++ nl)%string.

Definition sorryChunk : value :=
  textChunk (nl ++ nl ++ "Sorry, there was an error processing part of this response." ++ nl ++ nl)%string.

Definition transform (chunk : value) (c : Controller) : M JsError Controller :=
  try_catch
    (type <- lift (get chunk "type") ;;
     if is_str type "error" then
       console LError "Stream chunk error:" ;;;
       lift (enqueue apologyChunk c)
     else lift (enqueue chunk c))
    (fun err =>
       console LError "Transform error:" ;;;
       lift (enqueue sorryChunk c)).

Definition flush (c : Controller) : M JsError Controller :=
  try_catch (lift (terminate c))
    (fun err => console LError "Error terminating controller:" ;;; ret c).

(** [response.body.pipeThrough(transformStream)] read to its end: each
    chunk goes through [transform] in order, then [flush] runs; an
    exception leaving [transform] errors the stream and stops it. *)
Fixpoint pipe (chunks : list value) (c : Controller) : M JsError Controller :=
  match chunks with
  | [] => flush c
  | chunk :: rest =>
      fun s =>
        match transform chunk c s with
        | (Ret c', s') => pipe rest c' s'
        | (Throw e, s') => (Ret {| queue := queue c; readable := Errored e |}, s')
        end
  end.

Definition pipeThrough (chunks : list value) : M JsError Controller :=
  pipe chunks fresh.

(** *** Responses *)

Inductive Body :=
| BodyJson (fields : list (string * value))
| BodyStream (source : list value).

Record Response := {
  status : Z;
  statusText : string;
  headers : list (string * string);
  body : Body }.

(** The response [Response.json(fields, { status })] builds, once the
    constructor has accepted the status. *)
Definition Response_json (fields : list (string * value)) (status : Z) : Response :=
  {| status := status;
     statusText := "";
     headers := [("content-type", "application/json")];
     body := BodyJson fields |}.

Definition num (z : Z) : value := VNum (inject_Z z).

Definition opt_num (o : option Z) : value :=
  match o with Some z => num z | None => VUndefined end.

(** [statusCode || dflt]. *)
Definition status_or (o : option Z) (dflt : Z) : Z :=
  match o with
  | Some z => if (z =? 0)%Z then dflt else z
  | None => dflt
  end.

(** [init.status] as the Response constructor reads it: converted to an
    unsigned short, that is taken modulo 2^16. *)
Definition to_unsigned_short (z : Z) : Z := (z mod 65536)%Z.

(** The statuses of the range 200..599 that a response with a body may
    not carry. *)
Definition null_body_status (status : Z) : bool :=
  ((status =? 204) || (status =? 205) || (status =? 304))%Z.

(** What the Response constructor does with [init.status] when the
    response has a body: a RangeError outside 200..599, a TypeError for a
    null-body status, the status otherwise.  (The texts of the two errors
    are the engine's.) *)
Definition check_status (status : Z) : res JsError Z :=
  let status := to_unsigned_short status in
  if negb ((200 <=? status) && (status <=? 599))%Z then
    Throw (new_Error ERangeError "init.status must be in the range of 200 to 599, inclusive.")
  else if null_body_status status then
    Throw (new_Error ETypeError "Response with null body status cannot have body")
  else Ret status.

(** [Response.json(fields, { status })] for a status computed at run time
    ([statusCode || 500]).  Where the route writes a literal 400, 401, 403,
    404 or 500 the check passes, and [Response_json] stands for the
    call. *)
Definition Response_json_checked (fields : list (string * value)) (status : Z)
    : res JsError Response :=
  match check_status status with
  | Ret status => Ret (Response_json fields status)
  | Throw e => Throw e
  end.

(** *** The classifier of the streaming boundary *)

Definition isStreamFinishError (error : JsError) : bool :=
  includes (err_message error) "STREAM_FINISH_ERROR".

Definition isTypeError (error : JsError) : bool :=
  match err_class error with ETypeError => true | _ => false end.

Definition isAPICallError (error : JsError) : bool :=
  match err_class error with EAPICallError => true | _ => false end.

(** [s.substring(i)]. *)
Definition substring_from (i : nat) (s : string) : string :=
  substring i (String.length s - i) s.

(** Reads of the two variables of the handler's closure. *)
Definition read_streamFinished {E} : M E bool :=
  fun s => (Ret (streamFinished s), s).

Definition read_streamError {E} : M E (option JsError) :=
  fun s => (Ret (streamError s), s).

(** [if (controller && !streamFinished) controller.abort()]. *)
Definition abort_unless_finished {E} : M E unit :=
  finished <- read_streamFinished ;;
  if finished then ret tt else emit Abort.

(** The branch taken when [isStreamFinishError] holds: [Some] response
    when the branch returns one, [None] when control falls out of it. *)
Definition finishErrorResponse (streamErr : JsError) : M JsError (option Response) :=
  try_catch
    (let errorMessage := err_message streamErr in
     match index 0 "{" errorMessage with
     | Some jsonStartIndex =>
         match JSON_parse env (substring_from jsonStartIndex errorMessage) with
         | None => throw (new_Error ESyntaxError "Unexpected token in JSON")
         | Some errorData =>
             usage <- lift (get errorData "usage") ;;
             timestamp <- lift (get errorData "timestamp") ;;
             finishReason <- lift (get errorData "finishReason") ;;
             ret (Some (Response_json
                    [("error", VStr "AI Stream Error");
                     ("details", VStr "The AI stream ended unexpectedly");
                     ("code", VStr "STREAM_FINISH_ERROR");
                     ("usage", or_val usage zeroUsage);
                     ("timestamp", or_val timestamp (VStr (now_iso env)));
                     ("finishReason", or_val finishReason (VStr "error"));
                     ("recoverable", VBool true)]
                    500))
         end
     | None => ret None
     end)
    (fun parseErr =>
       console LError "Error parsing stream finish error:" ;;;
       ret (Some (Response_json
              [("error", VStr "AI Stream Error");
               ("details", VStr "The AI stream ended unexpectedly (parsing error)");
               ("code", VStr "STREAM_FINISH_ERROR");
               ("message", VStr (err_message streamErr));
               ("recoverable", VBool true)]
              500))).

Definition classifyStreamError (streamErr : JsError) : M JsError Response :=
  console LError "Detailed stream error:" ;;;
  abort_unless_finished ;;;
  handled <- (if isStreamFinishError streamErr then finishErrorResponse streamErr
              else ret None) ;;
  match handled with
  | Some response => ret response
  | None =>
      if isTypeError streamErr then
        ret (Response_json
               [("error", VStr "Stream processing error");
                ("details", VStr (err_message streamErr));
                ("code", VStr "STREAM_TYPE_ERROR");
                ("recoverable", VBool false)]
               500)
      else if isAPICallError streamErr then
        lift (Response_json_checked
                [("error", VStr "AI API error during streaming");
                 ("details", VStr (err_message streamErr));
                 ("code", VStr "STREAM_AI_ERROR");
                 ("statusCode", opt_num (err_statusCode streamErr));
                 ("recoverable", err_isRetryable streamErr)]
                (status_or (err_statusCode streamErr) 500))
      else
        reported <- read_streamError ;;
        match reported with
        | Some _ =>
            ret (Response_json
                   [("error", VStr "AI Stream Error");
                    ("details", VStr "The AI stream reported an error during processing");
                    ("code", VStr "STREAM_REPORTED_ERROR");
                    ("message", VObj []);
                    ("recoverable", VBool true)]
                   500)
        | None =>
            ret (Response_json
                   [("error", VStr "Stream error");
                    ("details", VStr (err_message streamErr));
                    ("code", VStr "STREAM_ERROR");
                    ("recoverable", VBool true);
                    ("message", VStr "Please try your request again.")]
                   500)
        end
  end.

(** *** The classifier of the outer boundary *)

Definition classifyError (err : JsError) : M JsError Response :=
  console LError "General error in POST /api/gen-chat:" ;;;
  emit Abort ;;;
  if isTypeError err then
    ret (Response_json
           [("error", VStr "Invalid request or parameters");
            ("details", VStr (err_message err));
            ("code", VStr "TYPE_ERROR")]
           400)
  else if isAPICallError err then
    lift (Response_json_checked
            [("error", VStr "AI API Call Error");
             ("details", VStr (err_message err));
             ("code", VStr "AI_API_ERROR");
             ("statusCode", opt_num (err_statusCode err));
             ("url", err_url err);
             ("isRetryable", err_isRetryable err);
             ("responseBody", err_responseBody err)]
            (status_or (err_statusCode err) 500))
  else if match err_messageId err with VStr id => negb (id =? "") | _ => false end then
    ret (Response_json
           [("error", VStr "Message processing error");
            ("messageId", err_messageId err);
            ("details", VStr (or_str (err_message err) "Error processing message"));
            ("code", VStr "MESSAGE_ERROR")]
           400)
  else if is_str (err_finishReason err) "error" then
    ret (Response_json
           [("error", VStr "AI model error");
            ("details", VStr "The AI model encountered an error during processing");
            ("usage", or_val (err_usage err)
                        (VObj [("promptTokens", VNum 0); ("completionTokens", VNum 0);
                               ("totalTokens", VNum 0)]));
            ("code", VStr "MODEL_ERROR");
            ("finishReason", err_finishReason err);
            ("recoverable", VBool true)]
           500)
  else if is_str (err_code err) "ECONNRESET" then
    ret (Response_json
           [("error", VStr "Connection reset");
            ("details", VStr "The connection was reset while streaming the response");
            ("code", VStr "ECONNRESET");
            ("recoverable", VBool true)]
           500)
  else
    ret (Response_json
           [("error", VStr "Server error");
            ("details", VStr (or_str (err_message err) "An unknown error occurred"));
            ("code", VStr "SERVER_ERROR");
            ("stack", if development env then err_stack err else VUndefined)]
           500).

(** *** POST *)

(** What a started stream keeps of the handler's closure for the
    callbacks. *)
Record Started := {
  started_handler : StreamHandler;
  started_threadId : option string;
  started_user : User }.

(** The response [POST] resolves to and, when it is the streaming one, the
    stream that goes on behind it. *)
Record Reply := {
  reply_response : Response;
  reply_stream : option Started }.

Definition respond {E} (r : Response) : M E Reply :=
  ret {| reply_response := r; reply_stream := None |}.

(** [.single()]: the row when exactly one matches, an error otherwise. *)
Definition single (rows : list ThreadRow) : option ThreadRow :=
  match rows with
  | [row] => Some row
  | _ => None
  end.

(** [supabase.from('chat_threads').select('user_id').eq('id', threadId).single()]. *)
Definition selectThread {E} (threadId : string) : M E (option ThreadRow) :=
  emit (SelectThread threadId) ;;;
  ret (single (filter (fun row => thread_id row =? threadId) (chat_threads env))).

(** The ownership check: [Some] response when it answers the request,
    [None] when the request goes on. *)
Definition verifyThread {E} (user : User) (threadId : option string)
    : M E (option Response) :=
  match threadId with
  | None | Some "" => ret None
  | Some id =>
      found <- selectThread id ;;
      console LLog "Thread data:" ;;;
      console LLog "Thread error:" ;;;
      match found with
      | None =>
          ret (Some (Response_json [("error", VStr "Thread not found")] 404))
      | Some thread =>
          if negb (thread_user_id thread =? user_id user) then
            ret (Some (Response_json
                   [("error", VStr "Unauthorized thread access");
                    ("details",
                     VObj [("threadUserId", VStr (thread_user_id thread));
                           ("currentUserId", VStr (user_id user))])]
                   403))
          else ret None
      end
  end.

(** [cond ? { key: value } : {}] spread into an object literal. *)
Definition optional (v : value) : option value :=
  if truthy v then Some v else None.

Definition cleanMessage (m : value) : res JsError Message :=
  match get m "role" with
  | Throw e => Throw e
  | Ret r =>
      Ret {| role := r;
             content := field m "content";
             name := optional (field m "name");
             toolCalls := optional (field m "toolCalls");
             toolCallId := optional (field m "toolCallId") |}
  end.

(** [xs.map(f)] for an [f] that can raise. *)
Fixpoint map_res {E A B} (f : A -> res E B) (xs : list A) : res E (list B) :=
  match xs with
  | [] => Ret []
  | x :: rest =>
      match f x with
      | Throw e => Throw e
      | Ret y =>
          match map_res f rest with
          | Throw e => Throw e
          | Ret ys => Ret (y :: ys)
          end
      end
  end.

(** The options [POST] passes to [streamText]. *)
Definition streamTextOptions (cleanMessages : list Message) (userRole : value)
    (language : Language) (teachingMode : bool) : res JsError StreamTextOptions :=
  match (if teachingMode then Ret (teachingPrompt P language)
         else getSystemPrompt P cleanMessages userRole language false) with
  | Throw e => Throw e
  | Ret system =>
      Ret {| opt_system := system;
             opt_messages := cleanMessages;
             opt_maxSteps := 5;
             opt_temperature := if teachingMode then (3 # 10)%Q else (5 # 10)%Q;
             opt_maxTokens := if teachingMode then 1500 else 500 |}
  end.

Definition streamHeaders : list (string * string) :=
  [("Connection", "keep-alive");
   ("Cache-Control", "no-cache");
   ("Content-Type", "text/event-stream")].

(** The inner [try]: the SDK response, its body piped through the
    transform, wrapped in a new response, whose status the constructor
    checks.  The spread of [response.headers] adds nothing: a Headers
    object has no own enumerable property. *)
Definition sendStream (user : User) (threadId : option string)
    (streamHandler : StreamHandler) : M JsError Reply :=
  try_catch
    (response <- lift (toDataStreamResponse streamHandler) ;;
     match sdk_body response with
     | None => throw (new_Error EError "No response stream available")
     | Some source =>
         status <- lift (check_status (sdk_status response)) ;;
         ret {| reply_response :=
                  {| status := status;
                     statusText := sdk_statusText response;
                     headers := streamHeaders;
                     body := BodyStream source |};
                reply_stream :=
                  Some {| started_handler := streamHandler;
                          started_threadId := threadId;
                          started_user := user |} |}
     end)
    (fun streamErr => r <- classifyStreamError streamErr ;; respond r).

(** From the copy of the messages to the streaming response. *)
Definition startStream (user : User) (threadId : option string)
    (language : Language) (teachingMode : bool) (messages : list value)
    : M JsError Reply :=
  cleanMessages <- lift (map_res cleanMessage messages) ;;
  set_streamFinished false ;;;
  set_streamError None ;;;
  options <- lift (streamTextOptions cleanMessages (user_role user) language teachingMode) ;;
  emit (ModelCall options) ;;;
  streamHandler <- lift (streamText env options) ;;
  sendStream user threadId streamHandler.

(** The outer [catch]. *)
Definition outerCatch (err : JsError) : M JsError Reply :=
  r <- classifyError err ;; respond r.

Definition POST : M JsError Reply :=
  try_catch
    (match auth_error (getUser env), auth_user (getUser env) with
     | None, Some user =>
         request <- lift (request_json env) ;;
         let messages := body_messages request in
         let threadId := body_id request in
         let language := match body_language request with Some l => l | None => english end in
         let teachingMode := match body_teachingMode request with Some b => b | None => false end in
         console LLog "Thread ID:" ;;;
         console LLog "User ID:" ;;;
         console LLog "Language selected:" ;;;
         refused <- verifyThread user threadId ;;
         match refused with
         | Some response => respond response
         | None =>
             match messages with
             | VArr (m :: ms) => startStream user threadId language teachingMode (m :: ms)
             | _ =>
                 respond (Response_json [("error", VStr "Invalid messages array")] 400)
             end
         end
     | error, _ =>
         respond (Response_json
                    [("error", VStr (or_str (match error with Some msg => msg | None => "" end)
                                            "User not found"))]
                    401)
     end)
    outerCatch.

(** *** A request from its arrival to the end of its stream

    [POST] answers; when the answer is the streaming response, the stream
    behind it runs: the callbacks fire as the steps finish, and the body is
    read through the transform.  The callbacks write to the store and the
    closure, the transform to its controller, and both to the log only, so
    the two are run one after the other.  The result is the response and,
    for a streaming one, the controller of the transform after the last
    chunk. *)
Definition serve : M JsError (Response * option Controller) :=
  reply <- POST ;;
  match reply_stream reply, body (reply_response reply) with
  | Some st, BodyStream source =>
      run_callbacks (started_user st) (started_threadId st) (started_handler st) ;;;
      delivered <- pipeThrough source ;;
      ret (reply_response reply, Some delivered)
  | _, _ => ret (reply_response reply, None)
  end.

End Route.

(** ** Notions the statements are phrased with *)

(** [kw] occurs in [text] when the case of letters is ignored: some
    substring of [text] is [kw] once lowered. *)
Definition contains_ci (text kw : string) : Prop :=
  exists pre mid post,
    text = (pre ++ mid ++ post)%string /\ toLowerCase mid = kw.

(** [m] is the most recent message of the history written by the user. *)
Definition most_recent_user (messages : list Message) (m : Message) : Prop :=
  exists earlier later,
    messages = earlier ++ m :: later /\
    role m = VStr "user" /\
    Forall (fun m' => role m' <> VStr "user") later.

Definition math_keyword (text : string) : Prop :=
  contains_ci text "math" \/ contains_ci text "calculation".

Definition science_keyword (text : string) : Prop :=
  contains_ci text "science" \/ contains_ci text "experiment".

Definition english_keyword (text : string) : Prop :=
  contains_ci text "english" \/ contains_ci text "writing".

(** The text a student's prompt ends with in English: what follows the
    table's prompt in the template literal of the route, written out line by line. *)
Definition englishToolsParagraph : string :=
  (nl
   ++ nl ++ "You can use various tools to enhance the learning experience:"
   ++ nl ++ "- Create quizzes"
   ++ nl ++ "- Generate educational images"
   ++ nl ++ "- Create concept visualizations"
   ++ nl ++ "- Generate mind maps"
   ++ nl
   ++ nl ++ "Do not ever mention that you are using the tools to the user. Just start using them."
   ++ nl
   ++ nl ++ "Always provide clear explanations and encourage active learning. Give short responses whenever possible.")%string.

(** The same in Hindi. *)
Definition hindiToolsParagraph : string :=
  (nl
   ++ nl ++ "आप सीखने के अनुभव को बढ़ाने के लिए विभिन्न उपकरणों का उपयोग कर सकते हैं:"
   ++ nl ++ "- इंटरैक्टिव गणित समस्याएँ उत्पन्न करें"
   ++ nl ++ "- क्विज़ बनाएँ"
   ++ nl ++ "- शैक्षिक छवियाँ उत्पन्न करें"
   ++ nl ++ "- अवधारणा विज़ुअलाइज़ेशन बनाएँ"
   ++ nl ++ "- माइंड मैप उत्पन्न करें"
   ++ nl
   ++ nl ++ "कभी भी उपयोगकर्ता को यह न बताएं कि आप उपकरण का उपयोग कर रहे हैं। बस उनका उपयोग करना शुरू कर दें।"
   ++ nl
   ++ nl ++ "हमेशा स्पष्ट व्याख्या प्रदान करें और सक्रिय सीखने को प्रोत्साहित करें। संभव हो तो छोटे उत्तर दें।")%string.

(** ** Sample data *)

Definition samplePrompts : PromptTable :=
  {| SCIENCE_TEACHER_PROMPT := "You are a science teacher.";
     MATH_TEACHER_PROMPT := "You are a math teacher.";
     ENGLISH_TEACHER_PROMPT := "You are an English teacher.";
     GENERIC_TEACHER_PROMPT := "You are a teacher.";
     TEACHER_BUDDY_PROMPT := "You are a teacher buddy.";
     SCIENCE_TEACHER_PROMPT_HINDI := "science (hindi)";
     MATH_TEACHER_PROMPT_HINDI := "math (hindi)";
     ENGLISH_TEACHER_PROMPT_HINDI := "english (hindi)";
     GENERIC_TEACHER_PROMPT_HINDI := "generic (hindi)";
     TEACHING_MODE_PROMPT := "You are in teaching mode.";
     TEACHING_MODE_PROMPT_HINDI := "teaching mode (hindi)" |}.

(** The history selects the prompt of [subject], which is [english_prompt]
    in English and [hindi_prompt] in Hindi: detection yields the subject,
    and a request outside teaching mode from anyone but a Teacher gets that
    prompt followed by the tools paragraph of the language. *)
Definition selects (P : PromptTable) (messages : list Message) (subject : Subject)
    (english_prompt hindi_prompt : string) : Prop :=
  detectSubject messages = Ret subject /\
  forall userRole,
    is_str userRole "Teacher" = false ->
    getSystemPrompt P messages userRole english false
    = Ret (english_prompt ++ englishToolsParagraph)%string /\
    getSystemPrompt P messages userRole hindi false
    = Ret (hindi_prompt ++ hindiToolsParagraph)%string.

Definition assistant_says (text : string) : Message :=
  {| role := VStr "assistant"; content := VStr text;
     name := None; toolCalls := None; toolCallId := None |}.

Definition sampleHistory : list Message :=
  [ user_says "What is photosynthesis?";
    assistant_says "It is how plants make food.";
    user_says "Is MATH harder than Science?";
    assistant_says "Let us see." ].

(** The options of the model calls recorded in a trace, in order. *)
Definition model_calls (tr : list Event) : list StreamTextOptions :=
  flat_map (fun ev => match ev with ModelCall o => [o] | _ => [] end) tr.

Definition sampleUser (userRole : value) : User :=
  {| user_id := "user-1"; user_email := Some "pat@example.org"; user_role := userRole |}.

Definition jsonMessage (r : string) (c : value) : value :=
  VObj [("role", VStr r); ("content", c)].

Definition sampleUsage : value :=
  VObj [("promptTokens", num 12); ("completionTokens", num 34)].

(** A stream of plain text: one step without tool calls. *)
Definition textHandler : StreamHandler :=
  {| toDataStreamResponse :=
       Ret {| sdk_status := 200; sdk_statusText := "OK";
              sdk_body := Some [VStr "0:A fraction is a part of a whole."] |};
     handler_steps :=
       [ {| step_text := "A fraction is a part of a whole.";
            step_toolCalls := Some [];
            step_toolResults := Some [] |} ];
     handler_finish := {| fin_usage := sampleUsage; fin_finishReason := "stop" |} |}.

(** A world with one signed-in user, a request body and a stream. *)
Definition sampleEnv (auth : AuthReply) (request : RequestBody)
    (threads : list ThreadRow) (replies : nat -> InsertReply)
    (h : StreamHandler) : Env :=
  {| getUser := auth;
     request_json := Ret request;
     chat_threads := threads;
     insert_reply := replies;
     randomUUID := fun n => ("uuid-" ++ String (ascii_of_nat (48 + n)) "")%string;
     now_iso := "2025-03-01T00:00:00.000Z";
     JSON_parse := fun _ => None;
     JSON_stringify := fun _ => "{}";
     streamText := fun _ => Ret h;
     logTokenUsage_ok := true;
     development := false |}.

Definition signedIn (userRole : value) : AuthReply :=
  {| auth_user := Some (sampleUser userRole); auth_error := None |}.

(** A teacher asks in teaching mode. *)
Definition teacherTeachingEnv : Env :=
  sampleEnv (signedIn (VStr "Teacher"))
    {| body_messages := VArr [jsonMessage "user" (VStr "explain fractions")];
       body_id := None;
       body_language := Some english;
       body_teachingMode := Some true |}
    [] (fun _ => ReplyOk) textHandler.

(** A student sends a message that has no [content]. *)
Definition noContentEnv : Env :=
  sampleEnv (signedIn (VStr "Student"))
    {| body_messages := VArr [VObj [("role", VStr "user")]];
       body_id := None;
       body_language := None;
       body_teachingMode := None |}
    [] (fun _ => ReplyOk) textHandler.

(** ** Observations on states and traces *)

(** A computation keeps an observation [obs] of the state when running it
    never changes what [obs] sees. *)
Definition keeps {O E A} (obs : State -> O) (m : M E A) : Prop :=
  forall s, obs (snd (m s)) = obs s.

Definition is_insert (ev : Event) : bool :=
  match ev with
  | InsertMessage _ _ | InsertToolOutputs _ _ => true
  | _ => false
  end.

(** The inserts a trace records, whatever the store answered. *)
Definition db_events (tr : list Event) : list Event := filter is_insert tr.

(** What a request has persisted or tried to: the two tables and the
    inserts attempted. *)
Definition persisted (s : State)
    : list ChatMessageRow * list ToolOutputRow * list Event :=
  (chat_messages s, tool_outputs s, db_events (trace s)).

Definition calls_made (s : State) : list StreamTextOptions :=
  model_calls (trace s).

Definition attempted_messages (tr : list Event) : list ChatMessageRow :=
  flat_map (fun ev => match ev with InsertMessage row _ => [row] | _ => [] end) tr.

Definition failed (reply : InsertReply) : bool :=
  match reply with ReplyOk => false | _ => true end.

Definition failed_inserts (tr : list Event) : nat :=
  length (filter (fun ev => match ev with
                            | InsertMessage _ reply | InsertToolOutputs _ reply => failed reply
                            | _ => false
                            end) tr).

Definition error_logs (tr : list Event) : nat :=
  length (filter (fun ev => match ev with Console LError _ => true | _ => false end) tr).

Definition has_toolCalls (step : Step) : bool :=
  match step_toolCalls step with
  | Some (_ :: _) => true
  | _ => false
  end.

Definition is_call (ev : Event) : bool :=
  match ev with ModelCall _ => true | _ => false end.

(** What the transform puts on the readable side for a chunk while that
    side is open. *)
Definition outbound (chunk : value) : value :=
  match get chunk "type" with
  | Ret type => if is_str type "error" then apologyChunk else chunk
  | Throw _ => sorryChunk
  end.

(** A chunk of the body of a Response: the body is a stream of bytes, each
    chunk a Uint8Array, here given by the text it encodes.  A Uint8Array
    has no property [type]. *)
Definition byteChunk (text : string) : value := VStr text.

(** The body of a stream in which the model fails after its first words,
    as the SDK encodes it: a text part, the error part, the finish part. *)
Definition sampleByteStream : list value :=
  map byteChunk
    [ ("0:" ++ dquote ++ "A fraction is" ++ dquote ++ nl)%string;
      ("3:" ++ dquote ++ "An error occurred." ++ dquote ++ nl)%string;
      ("d:{" ++ dquote ++ "finishReason" ++ dquote ++ ":" ++ dquote ++ "error" ++ dquote ++ "}"
         ++ nl)%string ].

(** The row [onStepFinish] builds for the assistant message of a step
    entered in state [s], and the rows it builds for its tool calls. *)
Definition stepMessage (env : Env) (threadId : option string) (step : Step) (s : State)
    : ChatMessageRow :=
  {| cm_id := randomUUID env (uuids s);
     cm_thread_id := threadId;
     cm_role := "assistant";
     cm_content := step_text step |}.

Definition stepOutputs (env : Env) (step : Step) (s : State) (calls : list ToolCall)
    : list ToolOutputRow :=
  map (outputRow (randomUUID env (uuids s)))
      (map (withResult (step_toolResults step)) calls).

Definition is_error_log (ev : Event) : Prop :=
  exists label, ev = Console LError label.

(** A tool result of the step answers the call with this id. *)
Definition has_result (step : Step) (callId : string) : Prop :=
  exists results r,
    step_toolResults step = Some results /\ In r results /\ tr_toolCallId r = callId.

(** ** Requests *)

Definition authenticated (env : Env) (user : User) : Prop :=
  auth_error (getUser env) = None /\ auth_user (getUser env) = Some user.

Definition unauthenticated (env : Env) : Prop :=
  auth_error (getUser env) <> None \/ auth_user (getUser env) = None.

(** The request names the thread [id]. *)
Definition thread_supplied (request : RequestBody) (id : string) : Prop :=
  body_id request = Some id /\ id <> "".

Definition no_such_thread (env : Env) (id : string) : Prop :=
  forall row, In row (chat_threads env) -> thread_id row <> id.

(** [row] is the thread [id] of the table, whose ids are its key. *)
Definition thread_of (env : Env) (id : string) (row : ThreadRow) : Prop :=
  NoDup (map thread_id (chat_threads env)) /\
  In row (chat_threads env) /\
  thread_id row = id.

(** Nothing stands in the way of the request at the ownership check: it
    names no thread, or a thread of the caller's. *)
Definition thread_check_passes (env : Env) (user : User) (request : RequestBody) : Prop :=
  body_id request = None \/
  body_id request = Some "" \/
  exists id row,
    thread_supplied request id /\ thread_of env id row /\
    thread_user_id row = user_id user.

Definition nonempty_array (v : value) : Prop :=
  exists m ms, v = VArr (m :: ms).

(** [POST], run from [s], refuses the request with status [code]: a JSON
    body whose [error] field is a non-empty string, no stream behind it, and
    no call to the model. *)
Definition refuses (out : res JsError Reply * State) (s : State) (code : Z) : Prop :=
  exists fields message s',
    out = (Ret {| reply_response := Response_json fields code; reply_stream := None |}, s') /\
    assoc "error" fields = VStr message /\
    message <> "" /\
    calls_made s' = calls_made s.

(** ** The request of C2 *)

(** A non-empty array of objects whose [content] is text. *)
Definition well_formed_messages (v : value) : Prop :=
  exists m ms,
    v = VArr (m :: ms) /\
    Forall (fun item => exists fields text,
                item = VObj fields /\ assoc "content" fields = VStr text)
           (m :: ms).

(** The SDK sets the stream up: [streamText] hands back [h], whose
    response has status 200 and the body [source]. *)
Definition stream_set_up (env : Env) (h : StreamHandler) (response : SdkResponse)
    (source : list value) : Prop :=
  (forall options, streamText env options = Ret h) /\
  toDataStreamResponse h = Ret response /\
  sdk_status response = 200%Z /\
  sdk_body response = Some source.

Fixpoint header (key : string) (hs : list (string * string)) : option string :=
  match hs with
  | [] => None
  | (k, v) :: rest => if k =? key then Some v else header key rest
  end.

(** A 200 streaming response with Content-Type text/event-stream. *)
Definition streaming_response (r : Response) : Prop :=
  status r = 200%Z /\
  header "Content-Type" (headers r) = Some "text/event-stream" /\
  exists source, body r = BodyStream source.

(** The number of assistant-message inserts tried so far. *)
Definition attempts (s : State) : nat := length (attempted_messages (trace s)).

(** C2 as the specification states it, for the world [env]: whatever the
    stream does, the request is served with the streaming response and
    nothing is persisted nor tried. *)
Definition C2_as_stated (P : PromptTable) (env : Env) : Prop :=
  forall user request h response source,
    authenticated env user ->
    request_json env = Ret request ->
    body_id request = None ->
    well_formed_messages (body_messages request) ->
    stream_set_up env h response source ->
    exists r delivered s',
      serve P env initial = (Ret (r, delivered), s') /\
      streaming_response r /\
      persisted s' = persisted initial.

Definition sampleBody : RequestBody :=
  {| body_messages := VArr [jsonMessage "user" (VStr "explain fractions")];
     body_id := None;
     body_language := Some english;
     body_teachingMode := Some false |}.

(** A step that calls two tools and holds the result of the first. *)
Definition toolStep : Step :=
  {| step_text := "Here is a quiz.";
     step_toolCalls :=
       Some [ {| tc_toolCallId := "call-1"; tc_toolName := "generateQuiz";
                 tc_args := VObj [("topic", VStr "fractions")] |};
              {| tc_toolCallId := "call-2"; tc_toolName := "generateImage";
                 tc_args := VObj [("prompt", VStr "a pie cut in four")] |} ];
     step_toolResults :=
       Some [ {| tr_toolCallId := "call-1"; tr_result := VObj [("questions", VArr [])] |} ] |}.

(** A stream whose only step is [toolStep]. *)
Definition toolHandler : StreamHandler :=
  {| toDataStreamResponse :=
       Ret {| sdk_status := 200; sdk_statusText := "OK";
              sdk_body := Some [VStr "9:{toolCallId:call-1}"; VStr "0:Here is a quiz."] |};
     handler_steps := [toolStep];
     handler_finish := {| fin_usage := sampleUsage; fin_finishReason := "stop" |} |}.

(** The request of the specification's example, answered by a stream that
    calls a tool, with a store that accepts what it is given. *)
Definition toolCallEnv : Env :=
  sampleEnv (signedIn (VStr "Student")) sampleBody [] (fun _ => ReplyOk) toolHandler.

(** The same request answered by a stream of plain text. *)
Definition plainTextEnv : Env :=
  sampleEnv (signedIn (VStr "Student")) sampleBody [] (fun _ => ReplyOk) textHandler.

(** ** Sample requests for the validator and for teaching mode *)

Definition anonEnv : Env :=
  sampleEnv {| auth_user := None; auth_error := Some "Auth session missing!" |}
    sampleBody [] (fun _ => ReplyOk) textHandler.

Definition threadBody (messages : value) : RequestBody :=
  {| body_messages := messages;
     body_id := Some "thread-9";
     body_language := None;
     body_teachingMode := None |}.

Definition missingThreadEnv : Env :=
  sampleEnv (signedIn (VStr "Student"))
    (threadBody (VArr [jsonMessage "user" (VStr "hello")]))
    [] (fun _ => ReplyOk) textHandler.

Definition foreignThreadEnv : Env :=
  sampleEnv (signedIn (VStr "Student"))
    (threadBody (VArr [jsonMessage "user" (VStr "hello")]))
    [ {| thread_id := "thread-9"; thread_user_id := "user-2" |} ]
    (fun _ => ReplyOk) textHandler.

Definition emptyMessagesEnv : Env :=
  sampleEnv (signedIn (VStr "Student"))
    (threadBody (VArr []))
    [ {| thread_id := "thread-9"; thread_user_id := "user-1" |} ]
    (fun _ => ReplyOk) textHandler.

Definition hindiTeachingBody : RequestBody :=
  {| body_messages := VArr [jsonMessage "user" (VStr "explain fractions")];
     body_id := None;
     body_language := Some hindi;
     body_teachingMode := Some true |}.

Definition hindiTeachingEnv : Env :=
  sampleEnv (signedIn (VStr "Student")) hindiTeachingBody [] (fun _ => ReplyOk) textHandler.



(** A store that rejects every insert. *)
Definition rejectingEnv : Env :=
  sampleEnv (signedIn (VStr "Student")) sampleBody []
    (fun _ => ReplyError (VObj [("message", VStr "null value in column thread_id")]))
    toolHandler.

(** A user message whose [content] is absent. *)
Definition noContentMessage : Message :=
  {| role := VStr "user"; content := VUndefined;
     name := None; toolCalls := None; toolCallId := None |}.

(** C9 as the specification states it, for the prompt table [P]. *)
Definition C9_as_stated (P : PromptTable) : Prop :=
  forall messages userRole language teachingMode,
    exists prompt,
      getSystemPrompt P messages userRole language teachingMode = Ret prompt /\
      prompt <> "".






(** ** Postconditions *)

(** Whenever [m] returns, what it returns satisfies [Q]. *)
Definition returning {E A} (Q : A -> Prop) (m : M E A) : Prop :=
  forall s a s', m s = (Ret a, s') -> Q a.

(** Whenever [m] raises, what it raises satisfies [R]. *)
Definition raising {E A} (R : E -> Prop) (m : M E A) : Prop :=
  forall s e s', m s = (Throw e, s') -> R e.

(** A status the Response constructor accepts for a response with a
    body. *)
Definition valid_status (status : Z) : bool :=
  ((200 <=? status) && (status <=? 599))%Z && negb (null_body_status status).

(** The status an API call error asks for, as the constructor reads it:
    its status code, or 500 when it has none or zero. *)
Definition requested_status (err : JsError) : Z :=
  to_unsigned_short (status_or (err_statusCode err) 500).

(** An API call error that asks for a status the constructor refuses. *)
Definition refused_status (err : JsError) : Prop :=
  isAPICallError err = true /\ valid_status (requested_status err) = false.

(** The message of the error carries the finish-error marker and a
    brace: the branch of the streaming classifier that answers
    STREAM_FINISH_ERROR takes it. *)
Definition finish_payload_found (err : JsError) : bool :=
  isStreamFinishError err &&
  match index 0 "{" (err_message err) with Some _ => true | None => false end.



(** A chunk the transform forwards as it is: its [type] can be read and
    is not 'error'. *)
Definition plain_chunk (chunk : value) : Prop :=
  exists type, get chunk "type" = Ret type /\ is_str type "error" = false.

(** The codes of the outer classifier and those of the streaming one. *)
Definition outer_codes : list string :=
  ["TYPE_ERROR"; "AI_API_ERROR"; "MESSAGE_ERROR"; "MODEL_ERROR"; "ECONNRESET"; "SERVER_ERROR"].

Definition stream_codes : list string :=
  ["STREAM_FINISH_ERROR"; "STREAM_TYPE_ERROR"; "STREAM_AI_ERROR"; "STREAM_REPORTED_ERROR";
   "STREAM_ERROR"].

Definition count_event (p : Event -> bool) (tr : list Event) : nat :=
  length (filter p tr).

Definition is_abort (ev : Event) : bool :=
  match ev with Abort => true | _ => false end.

(** An element of the request's message list that can be copied: anything
    but [null] (and [undefined], which JSON does not produce). *)
Definition copyable (m : value) : Prop := m <> VNull /\ m <> VUndefined.

(** [clean] is the copy of the item [m]: its [role] and [content], and
    each of [name], [toolCalls], [toolCallId] when truthy. *)
Definition copy_of (m : value) (clean : Message) : Prop :=
  role clean = field m "role" /\
  content clean = field m "content" /\
  name clean = optional (field m "name") /\
  toolCalls clean = optional (field m "toolCalls") /\
  toolCallId clean = optional (field m "toolCallId").

(** A request whose second message is [null]. *)
Definition nullMessageEnv : Env :=
  sampleEnv (signedIn (VStr "Student"))
    {| body_messages := VArr [jsonMessage "user" (VStr "hello"); VNull];
       body_id := None;
       body_language := None;
       body_teachingMode := Some true |}
    [] (fun _ => ReplyOk) textHandler.

(** Every tool output refers to a message that is in the store. *)
Definition references_ok (s : State) : Prop :=
  forall row,
    In row (tool_outputs s) ->
    exists m, In m (chat_messages s) /\ cm_id m = to_message_id row.


(** ** What a run of the callbacks writes *)

(** [m] is the assistant message of one of the [steps] that call tools,
    filed under the thread of the request. *)
Definition message_of_step (threadId : option string) (steps : list Step)
    (m : ChatMessageRow) : Prop :=
  cm_role m = "assistant" /\
  cm_thread_id m = threadId /\
  exists step,
    In step steps /\ has_toolCalls step = true /\ cm_content m = step_text step.

(** [row] records a tool call of one of the [steps]: its id, tool name
    and arguments and, for result, either [undefined] or a truthy value the
    step reports for that call. *)
Definition row_of_call (steps : list Step) (row : ToolOutputRow) : Prop :=
  exists step calls call,
    In step steps /\ step_toolCalls step = Some calls /\ In call calls /\
    to_tool_call_id row = tc_toolCallId call /\
    to_tool_name row = tc_toolName call /\
    to_parameters row = tc_args call /\
    (to_result row = VUndefined \/
     truthy (to_result row) = true /\
     exists results r,
       step_toolResults step = Some results /\ In r results /\
       tr_toolCallId r = tc_toolCallId call /\ tr_result r = to_result row).

(** The tool calls of a step, none when the field is absent. *)
Definition step_calls (step : Step) : list ToolCall :=
  match step_toolCalls step with Some calls => calls | None => [] end.

Definition accepted (reply : InsertReply) : bool := negb (failed reply).

(** A store that already holds a message and a tool output of it. *)
Definition earlierState : State :=
  mkState
    [ {| cm_id := "m-0"; cm_thread_id := None; cm_role := "assistant"; cm_content := "Earlier." |} ]
    [ {| to_message_id := "m-0"; to_tool_name := "generateQuiz"; to_tool_call_id := "call-0";
         to_parameters := VObj []; to_result := VUndefined; to_state := "pending" |} ]
    [] 0 0 false None.


(** ** Ownership of the thread *)

(** The thread named by [threadId], when it names one, is a row of
    chat_threads that belongs to [user]. *)
Definition owns (env : Env) (user : User) (threadId : option string) : Prop :=
  forall id,
    threadId = Some id -> id <> "" ->
    exists row,
      In row (chat_threads env) /\ thread_id row = id /\
      thread_user_id row = user_id user.

(** The errors the body of [POST] can raise into the outer catch: a
    TypeError or a RangeError of the route's own making, or whatever
    [request.json()] or [streamText] raises. *)
Definition raised_in_POST (env : Env) (err : JsError) : Prop :=
  err_class err = ETypeError \/ err_class err = ERangeError \/
  request_json env = Throw err \/
  exists options, streamText env options = Throw err.

(** * Properties *)

(** ** Strings: [includes] and [toLowerCase] *)

Lemma prefix_app (sub s : string) :
  String.prefix sub s = true <-> exists post, s = (sub ++ post)%string.
Proof.
  revert s; induction sub as [|c sub IH]; intros s; simpl.
  - split; [intros _; exists s; reflexivity | intros _; now destruct s].
  - destruct s as [|d s]; simpl.
    + split; [discriminate | intros [post H]; discriminate].
    + destruct (Ascii.ascii_dec c d) as [->|Hne].
      * rewrite IH. split; intros [post H]; exists post.
        -- now rewrite H.
        -- now injection H.
      * split; [discriminate | intros [post H]; injection H; congruence].
Qed.

Lemma includes_app (s sub : string) :
  includes s sub = true <-> exists pre post, s = (pre ++ sub ++ post)%string.
Proof.
  induction s as [|c s IH]; cbn [includes].
  - rewrite orb_false_r, prefix_app. split.
    + intros [post H]. exists "", post. exact H.
    + intros [pre [post H]]. destruct pre; simpl in H; [now exists post | discriminate].
  - rewrite orb_true_iff, prefix_app, IH. split.
    + intros [[post H] | [pre [post H]]].
      * exists "", post. exact H.
      * exists (String c pre), post. simpl. now rewrite H.
    + intros [pre [post H]]. destruct pre as [|d pre]; simpl in H.
      * left. now exists post.
      * right. injection H as _ H. now exists pre, post.
Qed.

Lemma toLowerCase_app (a b : string) :
  toLowerCase (a ++ b) = (toLowerCase a ++ toLowerCase b)%string.
Proof. induction a as [|c a IH]; simpl; [reflexivity | now rewrite IH]. Qed.

Lemma toLowerCase_split (s a b : string) :
  toLowerCase s = (a ++ b)%string ->
  exists a0 b0, s = (a0 ++ b0)%string /\ toLowerCase a0 = a /\ toLowerCase b0 = b.
Proof.
  revert s; induction a as [|c a IH]; intros s H; simpl in H.
  - exists "", s. auto.
  - destruct s as [|d s]; simpl in H; [discriminate|].
    injection H as Hc H. destruct (IH _ H) as [a0 [b0 [-> [Ha Hb]]]].
    exists (String d a0), b0. simpl. now rewrite Hc, Ha.
Qed.

(** The test the route makes, [text.toLowerCase().includes(kw)], is
    occurrence up to case. *)
Lemma includes_lower (text kw : string) :
  includes (toLowerCase text) kw = true <-> contains_ci text kw.
Proof.
  rewrite includes_app. unfold contains_ci. split.
  - intros [pre [post H]].
    apply toLowerCase_split in H as [pre0 [rest [-> [_ H]]]].
    apply toLowerCase_split in H as [mid [post0 [-> [Hm _]]]].
    now exists pre0, mid, post0.
  - intros [pre [mid [post [-> <-]]]].
    exists (toLowerCase pre), (toLowerCase post).
    now rewrite !toLowerCase_app.
Qed.

Lemma includes_lower_false (text kw : string) :
  includes (toLowerCase text) kw = false <-> ~ contains_ci text kw.
Proof.
  rewrite <- includes_lower. destruct (includes (toLowerCase text) kw); split; congruence.
Qed.

Lemma or_str_empty (s : string) : or_str s "" = s.
Proof. now destruct s. Qed.

(** ** The prompt selector *)

Lemma find_last_user (earlier later : list Message) (m : Message) :
  role m = VStr "user" ->
  Forall (fun m' => role m' <> VStr "user") later ->
  find (fun m => is_str (role m) "user") (rev (earlier ++ m :: later)) = Some m.
Proof.
  intros Hm Hlater.
  rewrite rev_app_distr. simpl. rewrite <- app_assoc. simpl.
  assert (Hskip : forall rest,
            find (fun m => is_str (role m) "user") (rev later ++ rest)
            = find (fun m => is_str (role m) "user") rest).
  { intros rest. apply Forall_rev in Hlater.
    induction Hlater as [|m' l Hm' _ IH]; simpl; [reflexivity|].
    destruct (role m') as [| | | |r| |] eqn:Hr; simpl; try exact IH.
    destruct (String.eqb_spec r "user") as [->|_]; [congruence | exact IH]. }
  rewrite Hskip. simpl. now rewrite Hm.
Qed.

Lemma lastUserMessage_recent (messages : list Message) (m : Message) :
  most_recent_user messages m ->
  lastUserMessage messages = lastUserMessage [m].
Proof.
  intros [earlier [later [-> [Hm Hlater]]]].
  unfold lastUserMessage. rewrite find_last_user by assumption.
  simpl. now rewrite Hm.
Qed.

Lemma detectSubject_text (messages : list Message) (m : Message) (text : string) :
  most_recent_user messages m ->
  content m = VStr text ->
  detectSubject messages = Ret (subjectOf (toLowerCase text)).
Proof.
  intros Hrecent Hcontent. unfold detectSubject.
  rewrite (lastUserMessage_recent _ _ Hrecent).
  destruct Hrecent as [_ [_ [_ [Hm _]]]].
  unfold lastUserMessage. simpl. rewrite Hm. simpl.
  now rewrite Hcontent, or_str_empty.
Qed.

Lemma subjectOf_math (text : string) :
  math_keyword text -> subjectOf (toLowerCase text) = math.
Proof.
  intros H. unfold subjectOf.
  destruct H as [H|H]; apply includes_lower in H; rewrite H;
    now rewrite ?orb_true_r.
Qed.

Lemma subjectOf_not_math (text : string) :
  ~ math_keyword text ->
  includes (toLowerCase text) "math" || includes (toLowerCase text) "calculation" = false.
Proof.
  intros H. apply orb_false_iff. split; apply includes_lower_false; intros C; apply H;
    [left | right]; exact C.
Qed.

Lemma subjectOf_not_science (text : string) :
  ~ science_keyword text ->
  includes (toLowerCase text) "science" || includes (toLowerCase text) "experiment" = false.
Proof.
  intros H. apply orb_false_iff. split; apply includes_lower_false; intros C; apply H;
    [left | right]; exact C.
Qed.

Lemma subjectOf_not_english (text : string) :
  ~ english_keyword text ->
  includes (toLowerCase text) "english" || includes (toLowerCase text) "writing" = false.
Proof.
  intros H. apply orb_false_iff. split; apply includes_lower_false; intros C; apply H;
    [left | right]; exact C.
Qed.

Lemma subjectOf_science (text : string) :
  ~ math_keyword text -> science_keyword text -> subjectOf (toLowerCase text) = science.
Proof.
  intros Hm H. unfold subjectOf. rewrite (subjectOf_not_math _ Hm).
  destruct H as [H|H]; apply includes_lower in H; rewrite H;
    now rewrite ?orb_true_r.
Qed.

Lemma subjectOf_english (text : string) :
  ~ math_keyword text -> ~ science_keyword text -> english_keyword text ->
  subjectOf (toLowerCase text) = english_subject.
Proof.
  intros Hm Hs H. unfold subjectOf.
  rewrite (subjectOf_not_math _ Hm), (subjectOf_not_science _ Hs).
  destruct H as [H|H]; apply includes_lower in H; rewrite H;
    now rewrite ?orb_true_r.
Qed.

Lemma subjectOf_generic (text : string) :
  ~ math_keyword text -> ~ science_keyword text -> ~ english_keyword text ->
  subjectOf (toLowerCase text) = generic.
Proof.
  intros Hm Hs He. unfold subjectOf.
  now rewrite (subjectOf_not_math _ Hm), (subjectOf_not_science _ Hs),
    (subjectOf_not_english _ He).
Qed.

(** For a student outside teaching mode the prompt is the one of the
    detected subject. *)
Lemma getSystemPrompt_student (P : PromptTable) (messages : list Message)
    (userRole : value) (language : Language) (subject : Subject) :
  is_str userRole "Teacher" = false ->
  detectSubject messages = Ret subject ->
  getSystemPrompt P messages userRole language false
  = Ret (withTools language (prompts P language subject)).
Proof.
  intros Hrole Hsub. unfold getSystemPrompt. now rewrite Hrole, Hsub.
Qed.

(** What the route appends to the table's prompt is the tools paragraph
    of the language. *)
Lemma withTools_paragraph (basePrompt : string) :
  withTools english basePrompt = (basePrompt ++ englishToolsParagraph)%string /\
  withTools hindi basePrompt = (basePrompt ++ hindiToolsParagraph)%string.
Proof.
  unfold withTools. split; f_equal; vm_compute; reflexivity.
Qed.

(** A detected subject selects the two entries of the table that bear
    its name. *)
Lemma detected_selects (P : PromptTable) (messages : list Message) (subject : Subject) :
  detectSubject messages = Ret subject ->
  match subject with
  | math =>
      selects P messages math (MATH_TEACHER_PROMPT P) (MATH_TEACHER_PROMPT_HINDI P)
  | science =>
      selects P messages science (SCIENCE_TEACHER_PROMPT P) (SCIENCE_TEACHER_PROMPT_HINDI P)
  | english_subject =>
      selects P messages english_subject
        (ENGLISH_TEACHER_PROMPT P) (ENGLISH_TEACHER_PROMPT_HINDI P)
  | generic =>
      selects P messages generic (GENERIC_TEACHER_PROMPT P) (GENERIC_TEACHER_PROMPT_HINDI P)
  end.
Proof.
  intros Hd.
  assert (H : forall userRole language,
            is_str userRole "Teacher" = false ->
            getSystemPrompt P messages userRole language false
            = Ret (withTools language (prompts P language subject)))
    by (intros; now apply getSystemPrompt_student).
  destruct subject; (split; [exact Hd|]); intros userRole Hrole;
    rewrite !(H userRole _ Hrole); cbn [prompts];
    (split; [now rewrite (proj1 (withTools_paragraph _))
            | now rewrite (proj2 (withTools_paragraph _))]).
Qed.

(** C6. Subject detection looks at the most recent message written by the
    user and at nothing else, without regard to case: when that message
    contains "math" or "calculation" the math prompt is selected
    (MATH_TEACHER_PROMPT, in Hindi MATH_TEACHER_PROMPT_HINDI), also when
    "science" appears in it; when it contains "science" or "experiment" and
    no math keyword, the science prompt; when it contains "english" or
    "writing" and no keyword of the two earlier sets, the english prompt;
    when it contains none of the keywords, the generic prompt.  The prompt
    selected reaches a student followed by the tools paragraph of the
    language. *)
Theorem C6_subject_detection (P : PromptTable) (messages : list Message)
    (m : Message) (text : string) :
  most_recent_user messages m ->
  content m = VStr text ->
  detectSubject messages = detectSubject [m] /\
  (math_keyword text ->
   selects P messages math (MATH_TEACHER_PROMPT P) (MATH_TEACHER_PROMPT_HINDI P)) /\
  (math_keyword text -> science_keyword text ->
   selects P messages math (MATH_TEACHER_PROMPT P) (MATH_TEACHER_PROMPT_HINDI P)) /\
  (~ math_keyword text -> science_keyword text ->
   selects P messages science (SCIENCE_TEACHER_PROMPT P) (SCIENCE_TEACHER_PROMPT_HINDI P)) /\
  (~ math_keyword text -> ~ science_keyword text -> english_keyword text ->
   selects P messages english_subject
     (ENGLISH_TEACHER_PROMPT P) (ENGLISH_TEACHER_PROMPT_HINDI P)) /\
  (~ math_keyword text -> ~ science_keyword text -> ~ english_keyword text ->
   selects P messages generic (GENERIC_TEACHER_PROMPT P) (GENERIC_TEACHER_PROMPT_HINDI P)).
Proof.
  intros Hrecent Hcontent.
  pose proof (detectSubject_text _ _ _ Hrecent Hcontent) as Hdetect.
  split; [|split; [|split; [|split; [|split]]]].
  - unfold detectSubject. now rewrite (lastUserMessage_recent _ _ Hrecent).
  - intros Hm. rewrite (subjectOf_math text Hm) in Hdetect.
    exact (detected_selects P messages math Hdetect).
  - intros Hm _. rewrite (subjectOf_math text Hm) in Hdetect.
    exact (detected_selects P messages math Hdetect).
  - intros Hm Hs. rewrite (subjectOf_science text Hm Hs) in Hdetect.
    exact (detected_selects P messages science Hdetect).
  - intros Hm Hs He. rewrite (subjectOf_english text Hm Hs He) in Hdetect.
    exact (detected_selects P messages english_subject Hdetect).
  - intros Hm Hs He. rewrite (subjectOf_generic text Hm Hs He) in Hdetect.
    exact (detected_selects P messages generic Hdetect).
Qed.

Lemma C6_subject_detection_witness :
  most_recent_user sampleHistory (user_says "Is MATH harder than Science?") /\
  math_keyword "Is MATH harder than Science?" /\
  science_keyword "Is MATH harder than Science?" /\
  selects samplePrompts sampleHistory math "You are a math teacher." "math (hindi)".
Proof.
  assert (Hrecent : most_recent_user sampleHistory (user_says "Is MATH harder than Science?")).
  { exists [user_says "What is photosynthesis?"; assistant_says "It is how plants make food."],
           [assistant_says "Let us see."].
    split; [reflexivity|]. split; [reflexivity|].
    constructor; [discriminate | constructor]. }
  assert (Hmath : math_keyword "Is MATH harder than Science?").
  { left. exists "Is ", "MATH", " harder than Science?". split; reflexivity. }
  assert (Hscience : science_keyword "Is MATH harder than Science?").
  { left. exists "Is MATH harder than ", "Science", "?". split; reflexivity. }
  split; [exact Hrecent|]. split; [exact Hmath|]. split; [exact Hscience|].
  exact (proj1 (proj2 (proj2
           (C6_subject_detection samplePrompts sampleHistory _ _ Hrecent eq_refl)))
           Hmath Hscience).
Defined.

Lemma withTools_nonempty (language : Language) (basePrompt : string) :
  withTools language basePrompt <> "".
Proof.
  destruct language, basePrompt as [|c rest]; unfold withTools;
    try (simpl; discriminate); vm_compute; discriminate.
Qed.

(** The message [find] picks in the reversed history is the most recent
    one written by the user. *)
Lemma find_most_recent (messages : list Message) (m : Message) :
  find (fun m => is_str (role m) "user") (rev messages) = Some m ->
  most_recent_user messages m.
Proof.
  intros Hfind.
  assert (Hr : role m = VStr "user").
  { apply find_some in Hfind as [_ Hrole].
    destruct (role m) as [| | | |r| |]; try discriminate.
    apply String.eqb_eq in Hrole. now subst r. }
  revert Hfind. rewrite <- (rev_involutive messages) at 2.
  generalize (rev messages) as l.
  induction l as [|x l IH]; simpl; [discriminate|].
  destruct (is_str (role x) "user") eqn:Hx.
  - intros [= ->]. exists (rev l), []. split; [reflexivity|]. split; [exact Hr | constructor].
  - intros Hf. destruct (IH Hf) as [earlier [later [Heq [_ Hlater]]]].
    exists earlier, (later ++ [x]). split; [|split; [exact Hr|]].
    + rewrite Heq, <- app_assoc. reflexivity.
    + apply Forall_app. split; [exact Hlater|]. constructor; [|constructor].
      intros C. rewrite C in Hx. discriminate.
Qed.

(** C9, amended. With non-empty teacher-buddy and teaching-mode constants,
    [getSystemPrompt] returns a non-empty string without raising for a
    Teacher, in teaching mode, and for every history whose most recent user
    message, if there is one, has text for content (histories with no user
    message included).  For any other role outside teaching mode, a history
    whose most recent user message has a content that is absent or not a
    string makes it raise a TypeError. *)
Theorem C9_getSystemPrompt_returns (P : PromptTable) (messages : list Message)
    (userRole : value) (language : Language) (teachingMode : bool) :
  TEACHER_BUDDY_PROMPT P <> "" ->
  TEACHING_MODE_PROMPT P <> "" ->
  TEACHING_MODE_PROMPT_HINDI P <> "" ->
  (is_str userRole "Teacher" = true \/ teachingMode = true \/
   (forall m, most_recent_user messages m -> exists text, content m = VStr text) ->
   exists prompt,
     getSystemPrompt P messages userRole language teachingMode = Ret prompt /\
     prompt <> "") /\
  (forall m,
     is_str userRole "Teacher" = false -> teachingMode = false ->
     most_recent_user messages m ->
     (forall text, content m <> VStr text) ->
     exists e,
       getSystemPrompt P messages userRole language teachingMode = Throw e /\
       err_class e = ETypeError).
Proof.
  intros Hbuddy Hteach Hteach'. split.
  - intros Hcase. unfold getSystemPrompt.
    destruct (is_str userRole "Teacher"); [eauto|].
    destruct teachingMode; [destruct language; simpl; eauto|].
    destruct Hcase as [C|[C|Htext]]; try discriminate.
    assert (Hd : exists subject, detectSubject messages = Ret subject).
    { unfold detectSubject, lastUserMessage.
      destruct (find _ (rev messages)) as [m|] eqn:Hfind; [|eauto].
      destruct (Htext m (find_most_recent _ _ Hfind)) as [text ->]. eauto. }
    destruct Hd as [subject ->]. eexists. split; [reflexivity | apply withTools_nonempty].
  - intros m Hrole Hmode [earlier [later [-> [Hm Hlater]]]] Hcontent.
    unfold getSystemPrompt, detectSubject, lastUserMessage.
    rewrite Hrole, Hmode, (find_last_user _ _ _ Hm Hlater).
    destruct (content m) as [| | | |text| |] eqn:Hc;
      try (eexists; split; reflexivity).
    exfalso. now apply (Hcontent text).
Qed.

Lemma C9_getSystemPrompt_returns_witness :
  (exists prompt,
     getSystemPrompt samplePrompts sampleHistory (VStr "Student") hindi false = Ret prompt /\
     prompt <> "") /\
  (exists e,
     getSystemPrompt samplePrompts (sampleHistory ++ [noContentMessage])
       (VStr "Student") hindi false = Throw e /\
     err_class e = ETypeError).
Proof.
  pose proof (C9_getSystemPrompt_returns samplePrompts) as H.
  split.
  - refine (proj1 (H sampleHistory (VStr "Student") hindi false _ _ _) _);
      try discriminate.
    right; right. intros m [earlier [later [Heq [Hm Hlater]]]].
    assert (Hin : In m sampleHistory) by (rewrite Heq; apply in_or_app; right; now left).
    repeat (destruct Hin as [<-|Hin]; [eexists; reflexivity|]). destruct Hin.
  - refine (proj2 (H (sampleHistory ++ [noContentMessage]) (VStr "Student") hindi false
                     _ _ _) noContentMessage eq_refl eq_refl _ _);
      try discriminate.
    exists sampleHistory, []. split; [reflexivity|]. split; [reflexivity | constructor].
Defined.

(** C9 as stated fails: a student's message without [content] makes
    [getSystemPrompt] raise, and [POST] answers the request 400 TYPE_ERROR
    without calling the model. *)
Lemma C9_counterexample :
  getSystemPrompt samplePrompts [noContentMessage] (VStr "Student") english false
  = Throw (new_Error ETypeError "Cannot read properties of undefined (reading 'toLowerCase')") /\
  (exists s fields,
     POST samplePrompts noContentEnv initial
     = (Ret {| reply_response := Response_json fields 400; reply_stream := None |}, s) /\
     assoc "code" fields = VStr "TYPE_ERROR" /\
     model_calls (trace s) = []) /\
  ~ C9_as_stated samplePrompts.
Proof.
  split; [reflexivity|]. split.
  - eexists _, _. split; [vm_compute; reflexivity|]. split; vm_compute; reflexivity.
  - intros Hclaim.
    destruct (Hclaim [noContentMessage] (VStr "Student") english false) as [prompt [C _]].
    discriminate C.
Qed.

(** C1. A teacher's request in teaching mode does not get the
    teacher-buddy prompt: [POST] passes the teaching-mode prompt of the
    language to the model, while [getSystemPrompt] on the same inputs
    returns the teacher-buddy prompt. *)
Theorem C1_teacher_in_teaching_mode (P : PromptTable) :
  map opt_system (model_calls (trace (snd (POST P teacherTeachingEnv initial))))
  = [TEACHING_MODE_PROMPT P] /\
  (forall messages language teachingMode,
     getSystemPrompt P messages (VStr "Teacher") language teachingMode
     = Ret (TEACHER_BUDDY_PROMPT P)) /\
  (forall messages language,
     exists options,
       streamTextOptions P messages (VStr "Teacher") language true = Ret options /\
       opt_system options = teachingPrompt P language) /\
  TEACHING_MODE_PROMPT samplePrompts <> TEACHER_BUDDY_PROMPT samplePrompts.
Proof.
  split; [vm_compute; reflexivity|]. split; [reflexivity|]. split; [|discriminate].
  intros messages language. eexists. split; reflexivity.
Qed.

(** ** Frame rules *)

Section Frames.

Context {O : Type} (obs : State -> O).

Lemma keeps_ret {E A} (a : A) : keeps obs (ret (E := E) a).
Proof. intros s. reflexivity. Qed.

Lemma keeps_throw {E A} (e : E) : keeps obs (throw (A := A) e).
Proof. intros s. reflexivity. Qed.

Lemma keeps_lift {E A} (r : res E A) : keeps obs (lift r).
Proof. intros s. reflexivity. Qed.

Lemma keeps_bind {E A B} (m : M E A) (k : A -> M E B) :
  keeps obs m -> (forall a, keeps obs (k a)) -> keeps obs (bind m k).
Proof.
  intros Hm Hk s. unfold bind. specialize (Hm s).
  destruct (m s) as [[a|e] s']; simpl in *; [|exact Hm].
  now rewrite Hk.
Qed.

Lemma keeps_try_catch {E E' A} (m : M E A) (h : E -> M E' A) :
  keeps obs m -> (forall e, keeps obs (h e)) -> keeps obs (try_catch m h).
Proof.
  intros Hm Hh s. unfold try_catch. specialize (Hm s).
  destruct (m s) as [[a|e] s']; simpl in *; [exact Hm|].
  now rewrite Hh.
Qed.

End Frames.

Lemma db_events_app (a b : list Event) : db_events (a ++ b) = db_events a ++ db_events b.
Proof. apply filter_app. Qed.

Lemma model_calls_app (a b : list Event) : model_calls (a ++ b) = model_calls a ++ model_calls b.
Proof. apply flat_map_app. Qed.

Lemma emit_persisted {E} (ev : Event) :
  is_insert ev = false -> keeps persisted (emit (E := E) ev).
Proof.
  intros H s. unfold persisted, emit. simpl.
  rewrite db_events_app. simpl. unfold db_events at 2. simpl. rewrite H.
  now rewrite app_nil_r.
Qed.

Lemma emit_calls_made {E} (ev : Event) :
  is_call ev = false -> keeps calls_made (emit (E := E) ev).
Proof.
  intros H s. unfold calls_made, emit. simpl.
  rewrite model_calls_app. destruct ev; try discriminate; simpl; now rewrite app_nil_r.
Qed.

Lemma set_streamFinished_keeps {O E} (obs : State -> O) (b : bool) :
  (forall s, obs (mkState (chat_messages s) (tool_outputs s) (trace s) (db_calls s)
                          (uuids s) b (streamError s)) = obs s) ->
  keeps obs (set_streamFinished (E := E) b).
Proof. intros H s. apply H. Qed.

Lemma set_streamError_keeps {O E} (obs : State -> O) (e : option JsError) :
  (forall s, obs (mkState (chat_messages s) (tool_outputs s) (trace s) (db_calls s)
                          (uuids s) (streamFinished s) e) = obs s) ->
  keeps obs (set_streamError (E := E) e).
Proof. intros H s. apply H. Qed.

(** One pass of the frame rules over a computation. *)
Ltac frame_step :=
  first
    [ apply keeps_ret
    | apply keeps_throw
    | apply keeps_lift
    | apply emit_persisted; reflexivity
    | apply emit_calls_made; reflexivity
    | apply set_streamFinished_keeps; reflexivity
    | apply set_streamError_keeps; reflexivity
    | apply keeps_bind; [|intros ?]
    | apply keeps_try_catch; [|intros ?]
    | match goal with
      | |- keeps _ (match ?x with _ => _ end) => destruct x
      end ].

Ltac frame := unfold console; repeat frame_step.

(** ** The transform stream *)

Lemma transform_readable (chunk : value) (c : Controller) (s : State) :
  readable c = Readable ->
  exists s',
    transform chunk c s
    = (Ret {| queue := queue c ++ [outbound chunk]; readable := Readable |}, s') /\
    (forall ev, In ev (trace s) -> In ev (trace s')) /\
    (get chunk "type" = Ret (VStr "error") ->
     In (Console LError "Stream chunk error:") (trace s')).
Proof.
  intros Hc. unfold transform, try_catch, bind, lift, outbound, enqueue, console, emit.
  rewrite Hc.
  destruct (get chunk "type") as [type|e] eqn:Hget; simpl.
  - destruct (is_str type "error") eqn:Herr; simpl.
    + eexists. split; [reflexivity|]. split.
      * intros ev Hin. apply in_or_app. now left.
      * intros _. apply in_or_app. right. now left.
    + eexists. split; [reflexivity|]. split; [auto|].
      intros [= ->]. discriminate.
  - eexists. split; [reflexivity|]. split.
    + intros ev Hin. simpl. apply in_or_app. now left.
    + discriminate.
Qed.

Lemma pipe_readable (chunks : list value) (c : Controller) (s : State) :
  readable c = Readable ->
  exists s',
    pipe chunks c s
    = (Ret {| queue := queue c ++ map outbound chunks; readable := Closed |}, s') /\
    (forall ev, In ev (trace s) -> In ev (trace s')) /\
    (forall chunk, In chunk chunks -> get chunk "type" = Ret (VStr "error") ->
     In (Console LError "Stream chunk error:") (trace s')).
Proof.
  revert c s; induction chunks as [|chunk rest IH]; intros c s Hc.
  - simpl. unfold flush, try_catch, lift, terminate. rewrite Hc. simpl.
    rewrite app_nil_r. eexists. split; [reflexivity|]. split; [auto|]. intros ? [].
  - simpl. destruct (transform_readable chunk c s Hc) as [s1 [-> [Hmono Hlog]]].
    destruct (IH {| queue := queue c ++ [outbound chunk]; readable := Readable |} s1 eq_refl)
      as [s' [-> [Hmono' Hlog']]].
    simpl. rewrite <- app_assoc. simpl.
    eexists. split; [reflexivity|]. split; [auto|].
    intros ch [<-|Hin] Hty; [apply Hmono', Hlog, Hty | eapply Hlog'; eauto].
Qed.

Lemma transform_plain (chunk : value) (c : Controller) (s : State) :
  readable c = Readable -> plain_chunk chunk ->
  transform chunk c s = (Ret {| queue := queue c ++ [chunk]; readable := Readable |}, s).
Proof.
  intros Hc [type [Hget Hne]].
  unfold transform, try_catch, bind, lift, enqueue.
  now rewrite Hget, Hne, Hc.
Qed.

Lemma pipe_plain (chunks : list value) (c : Controller) (s : State) :
  readable c = Readable -> Forall plain_chunk chunks ->
  pipe chunks c s = (Ret {| queue := queue c ++ chunks; readable := Closed |}, s).
Proof.
  intros Hc Hplain. revert c Hc.
  induction Hplain as [|chunk rest Hchunk _ IH]; intros c Hc; simpl.
  - unfold flush, try_catch, lift, terminate. rewrite Hc, app_nil_r. reflexivity.
  - rewrite (transform_plain chunk c s Hc Hchunk).
    rewrite (IH {| queue := queue c ++ [chunk]; readable := Readable |} eq_refl).
    simpl. now rewrite <- app_assoc.
Qed.

Lemma byteChunk_plain (text : string) : plain_chunk (byteChunk text).
Proof. exists VUndefined. split; reflexivity. Qed.

(** C3. The claim fails on the code.  The transform is piped on the body
    of the SDK's response, a stream of bytes: an event of the model's
    stream that marks an error reaches it as encoded text, whose [type] is
    undefined, and is forwarded as it is.  For every byte stream, the chunk
    that holds the error event included, the chunks come out unchanged and
    in order, no apology text is substituted and nothing is logged.  The
    branch written for error events (apology in place of the event, a log
    entry, the stream carried on) is taken only by a chunk that is an object
    with [type] 'error', which no chunk of a byte stream is. *)
Theorem C3_error_event_not_substituted (before after : list string) (errorPart : string)
    (s : State) :
  let source := map byteChunk (before ++ errorPart :: after) in
  pipeThrough source s = (Ret {| queue := source; readable := Closed |}, s) /\
  ~ In apologyChunk source /\
  (forall text, get (byteChunk text) "type" = Ret VUndefined) /\
  (forall (errorEvent : value) (earlier later : list value) (s0 : State),
     get errorEvent "type" = Ret (VStr "error") ->
     (exists fields, errorEvent = VObj fields) /\
     exists s',
       pipeThrough (earlier ++ errorEvent :: later) s0
       = (Ret {| queue := map outbound earlier ++ apologyChunk :: map outbound later;
                 readable := Closed |}, s') /\
       In (Console LError "Stream chunk error:") (trace s')) /\
  pipeThrough sampleByteStream initial
  = (Ret {| queue := sampleByteStream; readable := Closed |}, initial).
Proof.
  intros source.
  assert (Hbytes : forall texts s0,
            pipeThrough (map byteChunk texts) s0
            = (Ret {| queue := map byteChunk texts; readable := Closed |}, s0)).
  { intros texts s0. unfold pipeThrough.
    rewrite (pipe_plain (map byteChunk texts) fresh s0 eq_refl); [reflexivity|].
    apply Forall_forall. intros chunk Hin. apply in_map_iff in Hin as [text [<- _]].
    apply byteChunk_plain. }
  split; [apply Hbytes|]. split; [|split; [reflexivity|split]].
  - intros Hin. apply in_map_iff in Hin as [text [C _]]. discriminate.
  - intros errorEvent earlier later s0 Herr. split.
    + destruct errorEvent as [| | | | | |fields]; try discriminate. now exists fields.
    + unfold pipeThrough.
      destruct (pipe_readable (earlier ++ errorEvent :: later) fresh s0 eq_refl)
        as [s' [Hrun [_ Hlog]]].
      exists s'. split.
      * rewrite Hrun. simpl. rewrite map_app. simpl.
        unfold outbound at 2. now rewrite Herr.
      * apply (Hlog errorEvent); [|exact Herr]. apply in_or_app. right. now left.
  - apply (Hbytes [_; _; _]).
Qed.

(** ** The step callback *)

Lemma onStepFinish_no_calls {E} (env : Env) (threadId : option string) (step : Step)
    (s : State) :
  has_toolCalls step = false ->
  onStepFinish (E := E) env threadId step s = (Ret tt, s).
Proof.
  unfold has_toolCalls, onStepFinish.
  destruct (step_toolCalls step) as [[|call calls]|]; intros H;
    [reflexivity | discriminate | reflexivity].
Qed.

(** A step with tool calls, case by case on what the store answers to the
    message insert and, when that one is accepted, to the tool-output
    insert. *)
Lemma onStepFinish_calls {E} (env : Env) (threadId : option string) (step : Step)
    (s : State) (call : ToolCall) (calls : list ToolCall) :
  step_toolCalls step = Some (call :: calls) ->
  let message := stepMessage env threadId step s in
  let outputs := stepOutputs env step s (call :: calls) in
  let reply := insert_reply env (db_calls s) in
  let reply' := insert_reply env (S (db_calls s)) in
  exists s' logs,
    onStepFinish (E := E) env threadId step s = (Ret tt, s') /\
    Forall is_error_log logs /\
    streamFinished s' = streamFinished s /\
    streamError s' = streamError s /\
    match reply with
    | ReplyOk =>
        chat_messages s' = chat_messages s ++ [message] /\
        trace s' = trace s ++ InsertMessage message ReplyOk
                              :: InsertToolOutputs outputs reply' :: logs /\
        match reply' with
        | ReplyOk => tool_outputs s' = tool_outputs s ++ outputs /\ logs = []
        | _ => tool_outputs s' = tool_outputs s /\ logs <> []
        end
    | _ =>
        chat_messages s' = chat_messages s /\
        tool_outputs s' = tool_outputs s /\
        trace s' = trace s ++ InsertMessage message reply :: logs /\
        logs <> []
    end.
Proof.
  intros Hcalls message outputs reply reply'.
  unfold onStepFinish. rewrite Hcalls.
  unfold try_catch, bind, crypto_randomUUID, insert_chat_message, saveToolOutputs,
    try_catch, bind, insert_tool_outputs, console, emit, throw, ret.
  cbn [db_calls uuids chat_messages tool_outputs trace streamFinished streamError fst snd].
  fold reply. fold message.
  destruct reply eqn:Hreply; cbn -[map].
  - fold reply'. fold outputs.
    assert (Hout : map (outputRow (randomUUID env (uuids s)))
                     (map (withResult (step_toolResults step)) (call :: calls)) = outputs)
      by reflexivity.
    destruct reply' eqn:Hreply'; cbn -[map]; rewrite ?Hout.
    + exists (mkState (chat_messages s ++ [message]) (tool_outputs s ++ outputs)
               ((trace s ++ [InsertMessage message ReplyOk])
                  ++ [InsertToolOutputs outputs ReplyOk])
               (S (S (db_calls s))) (S (uuids s)) (streamFinished s) (streamError s)), [].
      repeat split; try constructor. cbn. now rewrite <- app_assoc.
    + eexists _, [Console LError "Error saving tool outputs:";
                  Console LError "Failed to save tool outputs:"].
      split; [reflexivity|]. cbn.
      repeat split; try (repeat constructor; eexists; reflexivity); try discriminate.
      now rewrite <- !app_assoc.
    + eexists _, [Console LError "Failed to save tool outputs:"].
      split; [reflexivity|]. cbn.
      repeat split; try (repeat constructor; eexists; reflexivity); try discriminate.
      now rewrite <- !app_assoc.
  - eexists _, [Console LError "Error saving message:"].
    split; [reflexivity|]. cbn.
    repeat split; try (repeat constructor; eexists; reflexivity); try discriminate.
    now rewrite <- !app_assoc.
  - eexists _, [Console LError "Error in onStepFinish:"].
    split; [reflexivity|]. cbn.
    repeat split; try (repeat constructor; eexists; reflexivity); try discriminate.
    now rewrite <- !app_assoc.
Qed.

Lemma error_logs_only (logs : list Event) :
  Forall is_error_log logs ->
  error_logs logs = length logs /\
  failed_inserts logs = 0 /\
  attempted_messages logs = [] /\
  forall rows reply, ~ In (InsertToolOutputs rows reply) logs.
Proof.
  induction 1 as [|ev logs [label ->] _ [IH1 [IH2 [IH3 IH4]]]].
  - repeat split; intros ? ? [].
  - unfold error_logs, failed_inserts in *. simpl. rewrite IH1, IH3.
    repeat split; [exact IH2|]. intros rows reply [C|C]; [discriminate | eapply IH4; eauto].
Qed.

Lemma attempted_messages_app (a b : list Event) :
  attempted_messages (a ++ b) = attempted_messages a ++ attempted_messages b.
Proof. apply flat_map_app. Qed.

Lemma failed_inserts_app (a b : list Event) :
  failed_inserts (a ++ b) = failed_inserts a + failed_inserts b.
Proof. unfold failed_inserts. now rewrite filter_app, length_app. Qed.

Lemma error_logs_app (a b : list Event) :
  error_logs (a ++ b) = error_logs a + error_logs b.
Proof. unfold error_logs. now rewrite filter_app, length_app. Qed.

(** Whatever the store answers, the callback returns; it tries the message
    insert exactly when the step has tool calls, and every insert that
    fails leaves an error in the log. *)
Lemma onStepFinish_returns {E} (env : Env) (threadId : option string) (step : Step)
    (s : State) :
  exists s' d,
    onStepFinish (E := E) env threadId step s = (Ret tt, s') /\
    trace s' = trace s ++ d /\
    length (attempted_messages d) = (if has_toolCalls step then 1 else 0) /\
    failed_inserts d <= error_logs d.
Proof.
  destruct (has_toolCalls step) eqn:Hcalls.
  - unfold has_toolCalls in Hcalls.
    destruct (step_toolCalls step) as [[|call calls]|] eqn:Hstep; try discriminate.
    destruct (onStepFinish_calls (E := E) env threadId step s call calls Hstep)
      as [s' [logs [Hrun [Hlogs [_ [_ Hcase]]]]]].
    destruct (error_logs_only logs Hlogs) as [Hel [Hfi [Ham _]]].
    destruct (insert_reply env (db_calls s)) eqn:Hreply.
    + destruct Hcase as [_ [Htrace Htools]].
      eexists _, _. split; [exact Hrun|]. split; [exact Htrace|].
      change (?a :: ?b :: logs) with ([a; b] ++ logs).
      rewrite attempted_messages_app, failed_inserts_app, error_logs_app, Ham, Hfi, Hel.
      split; [reflexivity|].
      destruct (insert_reply env (S (db_calls s))); destruct Htools as [_ Hl];
        unfold failed_inserts, error_logs; simpl; try lia;
        destruct logs; simpl; try congruence; lia.
    + destruct Hcase as [_ [_ [Htrace Hl]]].
      eexists _, _. split; [exact Hrun|]. split; [exact Htrace|].
      change (?a :: logs) with ([a] ++ logs).
      rewrite attempted_messages_app, failed_inserts_app, error_logs_app, Ham, Hfi, Hel.
      split; [reflexivity|].
      unfold failed_inserts, error_logs; simpl. destruct logs; simpl; try congruence; lia.
    + destruct Hcase as [_ [_ [Htrace Hl]]].
      eexists _, _. split; [exact Hrun|]. split; [exact Htrace|].
      change (?a :: logs) with ([a] ++ logs).
      rewrite attempted_messages_app, failed_inserts_app, error_logs_app, Ham, Hfi, Hel.
      split; [reflexivity|].
      unfold failed_inserts, error_logs; simpl. destruct logs; simpl; try congruence; lia.
  - exists s, []. rewrite onStepFinish_no_calls by exact Hcalls.
    rewrite app_nil_r. repeat split. unfold failed_inserts, error_logs. simpl. lia.
Qed.

Lemma run_steps_returns {E} (env : Env) (threadId : option string) (steps : list Step)
    (s : State) :
  exists s' d,
    run_steps (E := E) env threadId steps s = (Ret tt, s') /\
    trace s' = trace s ++ d /\
    length (attempted_messages d) = length (filter has_toolCalls steps) /\
    failed_inserts d <= error_logs d.
Proof.
  revert s; induction steps as [|step rest IH]; intros s.
  - exists s, []. rewrite app_nil_r. repeat split.
    unfold failed_inserts, error_logs. simpl. lia.
  - destruct (onStepFinish_returns (E := E) env threadId step s)
      as [s1 [d1 [Hrun1 [Htr1 [Hatt1 Hlog1]]]]].
    destruct (IH s1) as [s2 [d2 [Hrun2 [Htr2 [Hatt2 Hlog2]]]]].
    exists s2, (d1 ++ d2). simpl. unfold bind. rewrite Hrun1, Hrun2.
    split; [reflexivity|]. split; [now rewrite Htr2, Htr1, app_assoc|].
    rewrite attempted_messages_app, failed_inserts_app, error_logs_app, length_app,
      Hatt1, Hatt2.
    split; [|lia]. destruct (has_toolCalls step); reflexivity.
Qed.

Lemma onFinish_returns {E} (env : Env) (user : User) (fin : Finish) (s : State) :
  exists s',
    onFinish (E := E) env user fin s = (Ret tt, s') /\
    streamFinished s' = true /\
    persisted s' = persisted s.
Proof.
  unfold onFinish, bind, try_catch, set_streamFinished, set_streamError, console, emit, ret.
  cbn [fst snd].
  destruct (fin_finishReason fin =? "error"); destruct (truthy (fin_usage fin));
    destruct (logTokenUsage_ok env); cbn;
    (eexists; split; [reflexivity|]; split; [reflexivity|]);
    unfold persisted; cbn; rewrite ?db_events_app; cbn; now rewrite ?app_nil_r.
Qed.

(** C7. A persistence call that fails inside the step callback is logged
    and swallowed: whatever the store answers to the inserts, every
    invocation of the callback returns normally, the run goes through all
    the steps (each step with tool calls gets its message insert tried,
    also after earlier failures), every failed insert leaves an error in
    the log, and the finish callback is reached, so the stream completes. *)
Theorem C7_persistence_failures_swallowed (E : Type) (env : Env) (user : User)
    (threadId : option string) (h : StreamHandler) (s : State) :
  (forall step s0, fst (onStepFinish (E := E) env threadId step s0) = Ret tt) /\
  (exists s1 d,
     run_steps (E := E) env threadId (handler_steps h) s = (Ret tt, s1) /\
     trace s1 = trace s ++ d /\
     length (attempted_messages d) = length (filter has_toolCalls (handler_steps h)) /\
     failed_inserts d <= error_logs d) /\
  (exists s2,
     run_callbacks (E := E) env user threadId h s = (Ret tt, s2) /\
     streamFinished s2 = true).
Proof.
  split; [|split].
  - intros step s0.
    destruct (onStepFinish_returns (E := E) env threadId step s0) as [s' [d [-> _]]].
    reflexivity.
  - apply run_steps_returns.
  - destruct (run_steps_returns (E := E) env threadId (handler_steps h) s)
      as [s1 [d [Hrun _]]].
    destruct (onFinish_returns (E := E) env user (handler_finish h) s1)
      as [s2 [Hfin [Hflag _]]].
    exists s2. unfold run_callbacks, bind. now rewrite Hrun, Hfin.
Qed.

Lemma classic_has_result (step : Step) (callId : string) :
  has_result step callId \/ ~ has_result step callId.
Proof.
  unfold has_result. destruct (step_toolResults step) as [results|].
  - destruct (find (fun r => tr_toolCallId r =? callId) results) as [r|] eqn:Hfind.
    + left. apply find_some in Hfind as [Hin Heq]. apply String.eqb_eq in Heq.
      now exists results, r.
    + right. intros [results' [r [[= <-] [Hin Heq]]]].
      pose proof (find_none _ _ Hfind r Hin) as Hne. cbn in Hne.
      rewrite Heq, String.eqb_refl in Hne. discriminate.
  - right. intros [results [r [C _]]]. discriminate.
Qed.

(** The state a tool call is saved with. *)
Lemma outputRow_state (step : Step) (messageId : string) (call : ToolCall) :
  let row := outputRow messageId (withResult (step_toolResults step) call) in
  to_tool_call_id row = tc_toolCallId call /\
  to_message_id row = messageId /\
  (has_result step (tc_toolCallId call) -> to_state row = "result") /\
  (~ has_result step (tc_toolCallId call) -> to_state row = "pending").
Proof.
  unfold outputRow, withResult, findResult, has_result. cbn.
  split; [reflexivity|]. split; [reflexivity|].
  destruct (step_toolResults step) as [results|].
  - destruct (find _ results) as [r|] eqn:Hfind; cbn.
    + split; [reflexivity|]. intros Hno. exfalso. apply Hno.
      apply find_some in Hfind as [Hin Heq]. apply String.eqb_eq in Heq.
      now exists results, r.
    + split; [|reflexivity]. intros [results' [r [[= <-] [Hin Heq]]]].
      pose proof (find_none _ _ Hfind r Hin) as Hne. cbn in Hne.
      rewrite Heq, String.eqb_refl in Hne. discriminate.
  - cbn. split; [|reflexivity]. intros [results [r [C _]]]. discriminate.
Qed.

(** C10. Persistence of a step is ordered and gated.  In one invocation of
    the step callback: a tool_outputs insert is issued only after the
    message insert of the same step, only when the store accepted that
    message row, and with rows that carry its id; when the message insert
    fails, no tool_outputs insert is issued and no tool invocation is
    persisted; and every tool invocation persisted is one of the step's
    calls, in state 'result' exactly when the step holds a tool result
    with its call id and in state 'pending' otherwise. *)
Theorem C10_persistence_ordered_and_gated (E : Type) (env : Env)
    (threadId : option string) (step : Step) (s : State) :
  let s' := snd (onStepFinish (E := E) env threadId step s) in
  exists d new_rows,
    trace s' = trace s ++ d /\
    tool_outputs s' = tool_outputs s ++ new_rows /\
    (forall rows reply,
       In (InsertToolOutputs rows reply) d ->
       exists message rest,
         d = InsertMessage message ReplyOk :: rest /\
         In (InsertToolOutputs rows reply) rest /\
         chat_messages s' = chat_messages s ++ [message] /\
         Forall (fun row => to_message_id row = cm_id message) rows) /\
    (failed (insert_reply env (db_calls s)) = true ->
     new_rows = [] /\
     chat_messages s' = chat_messages s /\
     forall rows reply, ~ In (InsertToolOutputs rows reply) d) /\
    Forall (fun row =>
              (exists calls call,
                 step_toolCalls step = Some calls /\ In call calls /\
                 to_tool_call_id row = tc_toolCallId call) /\
              (to_state row = "result" <-> has_result step (to_tool_call_id row)) /\
              (to_state row = "pending" <-> ~ has_result step (to_tool_call_id row)))
           new_rows.
Proof.
  intros s'. subst s'.
  destruct (has_toolCalls step) eqn:Hcalls.
  2:{ rewrite onStepFinish_no_calls by exact Hcalls. exists [], []. cbn.
      rewrite !app_nil_r. repeat split; try constructor; intros ? ? []. }
  unfold has_toolCalls in Hcalls.
  destruct (step_toolCalls step) as [[|call calls]|] eqn:Hstep; try discriminate.
  destruct (onStepFinish_calls (E := E) env threadId step s call calls Hstep)
    as [s' [logs [Hrun [Hlogs [_ [_ Hcase]]]]]].
  rewrite Hrun. cbn [snd].
  destruct (error_logs_only logs Hlogs) as [_ [_ [_ Hnone]]].
  assert (Hrows : Forall (fun row =>
              (exists calls0 call0,
                 Some (call :: calls) = Some calls0 /\ In call0 calls0 /\
                 to_tool_call_id row = tc_toolCallId call0) /\
              (to_state row = "result" <-> has_result step (to_tool_call_id row)) /\
              (to_state row = "pending" <-> ~ has_result step (to_tool_call_id row)))
            (stepOutputs env step s (call :: calls))).
  { unfold stepOutputs. rewrite map_map. apply Forall_forall. intros row Hin.
    apply in_map_iff in Hin as [c [<- Hc]].
    destruct (outputRow_state step (randomUUID env (uuids s)) c) as [Hid [_ [Hres Hpen]]].
    split; [exists (call :: calls), c; auto |]. rewrite Hid.
    split; split.
    - intros Hst. destruct (classic_has_result step (tc_toolCallId c)) as [H|H]; [exact H|].
      rewrite (Hpen H) in Hst. discriminate.
    - exact Hres.
    - intros Hst H. rewrite (Hres H) in Hst. discriminate.
    - exact Hpen. }
  destruct (insert_reply env (db_calls s)) eqn:Hreply.
  - destruct Hcase as [Hmsgs [Htrace Htools]].
    assert (Hord : forall rows reply,
              In (InsertToolOutputs rows reply)
                 (InsertMessage (stepMessage env threadId step s) ReplyOk
                  :: InsertToolOutputs (stepOutputs env step s (call :: calls))
                       (insert_reply env (S (db_calls s))) :: logs) ->
              exists message rest,
                InsertMessage (stepMessage env threadId step s) ReplyOk
                  :: InsertToolOutputs (stepOutputs env step s (call :: calls))
                       (insert_reply env (S (db_calls s))) :: logs
                = InsertMessage message ReplyOk :: rest /\
                In (InsertToolOutputs rows reply) rest /\
                chat_messages s' = chat_messages s ++ [message] /\
                Forall (fun row => to_message_id row = cm_id message) rows).
    { intros rows reply [C|[C|C]]; [discriminate | | exfalso; eapply Hnone; eauto].
      injection C as <- <-. eexists _, _. split; [reflexivity|].
      split; [now left|]. split; [exact Hmsgs|].
      unfold stepOutputs. rewrite map_map. apply Forall_forall. intros row Hin.
      apply in_map_iff in Hin as [c [<- _]]. reflexivity. }
    destruct (insert_reply env (S (db_calls s))) eqn:Hreply';
      destruct Htools as [Htools Hl].
    + exists (InsertMessage (stepMessage env threadId step s) ReplyOk
              :: InsertToolOutputs (stepOutputs env step s (call :: calls)) ReplyOk :: logs),
             (stepOutputs env step s (call :: calls)).
      split; [exact Htrace|]. split; [exact Htools|]. split; [exact Hord|].
      split; [discriminate | exact Hrows].
    + match type of Htrace with _ = _ ++ ?d => exists d, (@nil ToolOutputRow) end.
      rewrite app_nil_r.
      split; [exact Htrace|]. split; [exact Htools|]. split; [exact Hord|].
      split; [discriminate | constructor].
    + match type of Htrace with _ = _ ++ ?d => exists d, (@nil ToolOutputRow) end.
      rewrite app_nil_r.
      split; [exact Htrace|]. split; [exact Htools|]. split; [exact Hord|].
      split; [discriminate | constructor].
  - destruct Hcase as [Hmsgs [Htools [Htrace _]]].
    match type of Htrace with _ = _ ++ ?d => exists d, (@nil ToolOutputRow) end.
    rewrite app_nil_r.
    split; [exact Htrace|]. split; [exact Htools|].
    assert (Hno : forall rows reply,
              ~ In (InsertToolOutputs rows reply)
                  (InsertMessage (stepMessage env threadId step s) (ReplyError error) :: logs)).
    { intros rows reply [C|C]; [discriminate | eapply Hnone; eauto]. }
    split; [intros rows reply Hin; exfalso; eapply Hno; eauto|].
    split; [intros _; repeat split; auto | constructor].
  - destruct Hcase as [Hmsgs [Htools [Htrace _]]].
    match type of Htrace with _ = _ ++ ?d => exists d, (@nil ToolOutputRow) end.
    rewrite app_nil_r.
    split; [exact Htrace|]. split; [exact Htools|].
    assert (Hno : forall rows reply,
              ~ In (InsertToolOutputs rows reply)
                  (InsertMessage (stepMessage env threadId step s) (ReplyThrows e) :: logs)).
    { intros rows reply [C|C]; [discriminate | eapply Hnone; eauto]. }
    split; [intros rows reply Hin; exfalso; eapply Hno; eauto|].
    split; [intros _; repeat split; auto | constructor].
Qed.

(** ** The validator *)

Lemma filter_no_key (rows : list ThreadRow) (id : string) :
  (forall row, In row rows -> thread_id row <> id) ->
  filter (fun row => thread_id row =? id) rows = [].
Proof.
  induction rows as [|row rows IH]; intros H; simpl.
  - reflexivity.
  - destruct (String.eqb_spec (thread_id row) id) as [Heq|_].
    + exfalso. apply (H row); [now left | exact Heq].
    + apply IH. intros r Hr. apply H. now right.
Qed.

Lemma filter_key (rows : list ThreadRow) (id : string) (row : ThreadRow) :
  NoDup (map thread_id rows) -> In row rows -> thread_id row = id ->
  filter (fun row => thread_id row =? id) rows = [row].
Proof.
  induction rows as [|r rows IH]; intros Hnodup Hin Hid; simpl in *.
  - contradiction.
  - inversion Hnodup as [|k ks Hnotin Hrest]; subst k ks.
    destruct Hin as [->|Hin].
    + rewrite Hid, String.eqb_refl. f_equal.
      apply filter_no_key. intros r' Hr' Heq. apply Hnotin.
      rewrite Hid, <- Heq. now apply in_map.
    + destruct (String.eqb_spec (thread_id r) id) as [Heq|_].
      * exfalso. apply Hnotin. rewrite Heq, <- Hid. now apply in_map.
      * now apply IH.
Qed.

Lemma no_thread_filter (env : Env) (id : string) :
  no_such_thread env id ->
  filter (fun row => thread_id row =? id) (chat_threads env) = [].
Proof. apply filter_no_key. Qed.

Lemma thread_filter (env : Env) (id : string) (row : ThreadRow) :
  thread_of env id row ->
  filter (fun row => thread_id row =? id) (chat_threads env) = [row].
Proof. intros [Hnodup [Hin Hid]]. now apply filter_key. Qed.

Lemma verifyThread_calls {E} (env : Env) (user : User) (threadId : option string) :
  keeps calls_made (verifyThread (E := E) env user threadId).
Proof. unfold verifyThread, selectThread. frame. Qed.

Lemma verifyThread_persisted {E} (env : Env) (user : User) (threadId : option string) :
  keeps persisted (verifyThread (E := E) env user threadId).
Proof. unfold verifyThread, selectThread. frame. Qed.

Lemma verifyThread_missing {E} (env : Env) (user : User) (id : string) (s : State) :
  id <> "" -> no_such_thread env id ->
  fst (verifyThread (E := E) env user (Some id) s)
  = Ret (Some (Response_json [("error", VStr "Thread not found")] 404)).
Proof.
  intros Hne Hno. destruct id as [|c id]; [congruence|].
  unfold verifyThread, selectThread, bind, console, emit, ret. cbn [fst snd].
  now rewrite (no_thread_filter env _ Hno).
Qed.

Lemma verifyThread_foreign {E} (env : Env) (user : User) (id : string) (row : ThreadRow)
    (s : State) :
  id <> "" -> thread_of env id row -> thread_user_id row <> user_id user ->
  fst (verifyThread (E := E) env user (Some id) s)
  = Ret (Some (Response_json
                 [("error", VStr "Unauthorized thread access");
                  ("details",
                   VObj [("threadUserId", VStr (thread_user_id row));
                         ("currentUserId", VStr (user_id user))])]
                 403)).
Proof.
  intros Hne Hrow Hown. destruct id as [|c id]; [congruence|].
  unfold verifyThread, selectThread, bind, console, emit, ret. cbn [fst snd].
  rewrite (thread_filter env _ _ Hrow). cbn.
  destruct (String.eqb_spec (thread_user_id row) (user_id user)); [contradiction|].
  reflexivity.
Qed.

Lemma verifyThread_passes {E} (env : Env) (user : User) (request : RequestBody) (s : State) :
  thread_check_passes env user request ->
  fst (verifyThread (E := E) env user (body_id request) s) = Ret None.
Proof.
  intros [->|[->|[id [row [[-> Hne] [Hrow Hown]]]]]]; [reflexivity | reflexivity |].
  destruct id as [|c id]; [congruence|].
  unfold verifyThread, selectThread, bind, console, emit, ret. cbn [fst snd].
  rewrite (thread_filter env _ _ Hrow). cbn.
  now rewrite Hown, String.eqb_refl.
Qed.

(** ** What the classifiers and the stream set-up leave untouched *)

Lemma read_streamFinished_keeps {O E} (obs : State -> O) :
  keeps obs (read_streamFinished (E := E)).
Proof. intros s. reflexivity. Qed.

Lemma read_streamError_keeps {O E} (obs : State -> O) :
  keeps obs (read_streamError (E := E)).
Proof. intros s. reflexivity. Qed.

Ltac frame_all :=
  unfold console, abort_unless_finished, respond;
  repeat first [ apply read_streamFinished_keeps
               | apply read_streamError_keeps
               | frame_step ].

Lemma classifyStreamError_calls (env : Env) (streamErr : JsError) :
  keeps calls_made (classifyStreamError env streamErr).
Proof. unfold classifyStreamError, finishErrorResponse. frame_all. Qed.

Lemma classifyStreamError_persisted (env : Env) (streamErr : JsError) :
  keeps persisted (classifyStreamError env streamErr).
Proof. unfold classifyStreamError, finishErrorResponse. frame_all. Qed.

Lemma outerCatch_calls (env : Env) (err : JsError) :
  keeps calls_made (outerCatch env err).
Proof. unfold outerCatch, classifyError. frame_all. Qed.

Lemma outerCatch_persisted (env : Env) (err : JsError) :
  keeps persisted (outerCatch env err).
Proof. unfold outerCatch, classifyError. frame_all. Qed.

Lemma sendStream_calls (env : Env) (user : User) (threadId : option string)
    (h : StreamHandler) :
  keeps calls_made (sendStream env user threadId h).
Proof.
  unfold sendStream. apply keeps_try_catch.
  - frame_all.
  - intros e. apply keeps_bind; [apply classifyStreamError_calls | intros r; frame_all].
Qed.

Lemma sendStream_persisted (env : Env) (user : User) (threadId : option string)
    (h : StreamHandler) :
  keeps persisted (sendStream env user threadId h).
Proof.
  unfold sendStream. apply keeps_try_catch.
  - frame_all.
  - intros e. apply keeps_bind; [apply classifyStreamError_persisted | intros r; frame_all].
Qed.

Lemma startStream_persisted (P : PromptTable) (env : Env) (user : User)
    (threadId : option string) (language : Language) (teachingMode : bool)
    (messages : list value) :
  keeps persisted (startStream P env user threadId language teachingMode messages).
Proof.
  unfold startStream.
  repeat first [ apply sendStream_persisted | frame_step ].
Qed.

Lemma POST_persisted (P : PromptTable) (env : Env) : keeps persisted (POST P env).
Proof.
  unfold POST. apply keeps_try_catch; [|apply outerCatch_persisted].
  unfold respond.
  repeat first [ apply startStream_persisted | apply verifyThread_persisted
               | unfold console; frame_step ].
Qed.

(** ** POST *)

Ltac calls_made_tac :=
  unfold calls_made in *; cbn [trace] in *;
  rewrite ?model_calls_app in *; cbn [model_calls flat_map app] in *;
  rewrite ?app_nil_r in *; try congruence.

Lemma POST_unauthenticated (P : PromptTable) (env : Env) (s : State) :
  unauthenticated env -> refuses (POST P env s) s 401.
Proof.
  intros Hun. unfold refuses, POST, try_catch.
  destruct (auth_error (getUser env)) as [msg|] eqn:Herr.
  - cbn. eexists _, _, _. split; [reflexivity|]. cbn. split; [reflexivity|].
    split; [|reflexivity]. destruct msg; cbn; discriminate.
  - destruct (auth_user (getUser env)) as [user|] eqn:Huser.
    + exfalso. destruct Hun as [H|H]; [now apply H | congruence].
    + cbn. eexists _, _, _. split; [reflexivity|]. cbn. split; [reflexivity|].
      split; [cbn; discriminate | reflexivity].
Qed.

(** An authenticated request whose body parses reaches the ownership
    check with three lines logged. *)
Lemma POST_enters (P : PromptTable) (env : Env) (s : State) (user : User)
    (request : RequestBody) :
  authenticated env user -> request_json env = Ret request ->
  exists s0,
    calls_made s0 = calls_made s /\
    persisted s0 = persisted s /\
    POST P env s
    = try_catch
        (refused <- verifyThread env user (body_id request) ;;
         match refused with
         | Some response => respond response
         | None =>
             match body_messages request with
             | VArr (m :: ms) =>
                 startStream P env user (body_id request)
                   (match body_language request with Some l => l | None => english end)
                   (match body_teachingMode request with Some b => b | None => false end)
                   (m :: ms)
             | _ => respond (Response_json [("error", VStr "Invalid messages array")] 400)
             end
         end)
        (outerCatch env) s0.
Proof.
  intros [Herr Huser] Hreq.
  eexists (mkState (chat_messages s) (tool_outputs s)
             (((trace s ++ [Console LLog "Thread ID:"]) ++ [Console LLog "User ID:"])
                ++ [Console LLog "Language selected:"])
             (db_calls s) (uuids s) (streamFinished s) (streamError s)).
  split; [calls_made_tac|]. split.
  - unfold persisted. cbn. now rewrite !db_events_app, !app_nil_r.
  - unfold POST, try_catch. rewrite Herr, Huser, Hreq. reflexivity.
Qed.

Lemma POST_verifyThread_refuses (P : PromptTable) (env : Env) (s : State) (user : User)
    (request : RequestBody) (fields : list (string * value)) (message : string) (code : Z) :
  authenticated env user -> request_json env = Ret request ->
  (forall s0, fst (verifyThread (E := JsError) env user (body_id request) s0)
              = Ret (Some (Response_json fields code))) ->
  assoc "error" fields = VStr message -> message <> "" ->
  refuses (POST P env s) s code.
Proof.
  intros Hauth Hreq Hcheck Hfield Hmsg.
  destruct (POST_enters P env s user request Hauth Hreq) as [s0 [Hc [_ ->]]].
  unfold refuses, try_catch, bind.
  pose proof (Hcheck s0) as Hf.
  pose proof (verifyThread_calls (E := JsError) env user (body_id request) s0) as Hk.
  destruct (verifyThread env user (body_id request) s0) as [r s1].
  cbn in Hf, Hk. subst r. cbn.
  exists fields, message, s1. repeat split; auto. congruence.
Qed.

Lemma POST_invalid_messages (P : PromptTable) (env : Env) (s : State) (user : User)
    (request : RequestBody) :
  authenticated env user -> request_json env = Ret request ->
  thread_check_passes env user request ->
  ~ nonempty_array (body_messages request) ->
  refuses (POST P env s) s 400.
Proof.
  intros Hauth Hreq Hpass Hmsgs.
  destruct (POST_enters P env s user request Hauth Hreq) as [s0 [Hc [_ ->]]].
  unfold refuses, try_catch, bind.
  pose proof (verifyThread_passes (E := JsError) env user request s0 Hpass) as Hf.
  pose proof (verifyThread_calls (E := JsError) env user (body_id request) s0) as Hk.
  destruct (verifyThread env user (body_id request) s0) as [r s1].
  cbn in Hf, Hk. subst r.
  assert (Hout : forall (k : value -> list value -> M JsError Reply),
            match body_messages request with
            | VArr (m :: ms) => k m ms
            | _ => respond (Response_json [("error", VStr "Invalid messages array")] 400)
            end = respond (Response_json [("error", VStr "Invalid messages array")] 400)).
  { intros k. destruct (body_messages request) as [| | | | |[|m ms]|] eqn:Hm; try reflexivity.
    exfalso. apply Hmsgs. now exists m, ms. }
  match goal with
  | |- context [match body_messages request with _ => _ end] =>
      rewrite (Hout (fun m ms =>
        startStream P env user (body_id request)
          (match body_language request with Some l => l | None => english end)
          (match body_teachingMode request with Some b => b | None => false end)
          (m :: ms)))
  end.
  cbn. eexists _, _, s1. split; [reflexivity|]. split; [reflexivity|].
  split; [discriminate | congruence].
Qed.

(** C4. The validator, check by check and in this order, each before any
    call to the model: a request without an authenticated identity is
    answered 401 with an [error] field; an authenticated request that names
    a thread that does not exist, 404; one that names a thread owned by
    another user, 403; one that passes the ownership check but whose message
    list is not a non-empty array, 400. *)
Theorem C4_validation (P : PromptTable) (env : Env) (s : State) :
  (unauthenticated env -> refuses (POST P env s) s 401) /\
  (forall user request id,
     authenticated env user -> request_json env = Ret request ->
     thread_supplied request id -> no_such_thread env id ->
     refuses (POST P env s) s 404) /\
  (forall user request id row,
     authenticated env user -> request_json env = Ret request ->
     thread_supplied request id -> thread_of env id row ->
     thread_user_id row <> user_id user ->
     refuses (POST P env s) s 403) /\
  (forall user request,
     authenticated env user -> request_json env = Ret request ->
     thread_check_passes env user request ->
     ~ nonempty_array (body_messages request) ->
     refuses (POST P env s) s 400).
Proof.
  split; [apply POST_unauthenticated|]. split; [|split].
  - intros user request id Hauth Hreq [Hid Hne] Hno.
    apply (POST_verifyThread_refuses P env s user request
             [("error", VStr "Thread not found")] "Thread not found" 404);
      auto; [|discriminate].
    intros s0. rewrite Hid. now apply verifyThread_missing.
  - intros user request id row Hauth Hreq [Hid Hne] Hrow Hown.
    apply (POST_verifyThread_refuses P env s user request
             [("error", VStr "Unauthorized thread access");
              ("details",
               VObj [("threadUserId", VStr (thread_user_id row));
                     ("currentUserId", VStr (user_id user))])]
             "Unauthorized thread access" 403);
      auto; [|discriminate].
    intros s0. rewrite Hid. now apply verifyThread_foreign.
  - apply POST_invalid_messages.
Qed.

Lemma startStream_calls_model (P : PromptTable) (env : Env) (user : User)
    (threadId : option string) (language : Language) (teachingMode : bool)
    (messages : list value) (cleanMessages : list Message)
    (options : StreamTextOptions) (s : State) :
  map_res cleanMessage messages = Ret cleanMessages ->
  streamTextOptions P cleanMessages (user_role user) language teachingMode = Ret options ->
  calls_made
    (snd (try_catch (startStream P env user threadId language teachingMode messages)
            (outerCatch env) s))
  = calls_made s ++ [options].
Proof.
  intros Hclean Hoptions.
  unfold startStream, try_catch.
  unfold bind at 1. unfold lift at 1. rewrite Hclean.
  unfold bind at 1. unfold set_streamFinished at 1.
  unfold bind at 1. unfold set_streamError at 1.
  cbn [chat_messages tool_outputs trace db_calls uuids streamFinished streamError].
  unfold bind at 1. unfold lift at 1. rewrite Hoptions.
  unfold bind at 1. unfold emit at 1.
  cbn [chat_messages tool_outputs trace db_calls uuids streamFinished streamError].
  match goal with
  | |- context [bind ?m ?k ?s0] =>
      assert (Hk : keeps calls_made (bind m k))
        by (apply keeps_bind; [apply keeps_lift | intros h; apply sendStream_calls]);
      pose proof (Hk s0) as Hs; destruct (bind m k s0) as [[reply|err] s1]
  end; cbn [snd] in *.
  - rewrite Hs. calls_made_tac.
  - rewrite outerCatch_calls, Hs. calls_made_tac.
Qed.

(** A request that passes every check goes on to the stream set-up. *)
Lemma POST_starts (P : PromptTable) (env : Env) (s : State) (user : User)
    (request : RequestBody) (m : value) (ms : list value) :
  authenticated env user -> request_json env = Ret request ->
  thread_check_passes env user request ->
  body_messages request = VArr (m :: ms) ->
  exists s1,
    calls_made s1 = calls_made s /\
    persisted s1 = persisted s /\
    POST P env s
    = try_catch
        (startStream P env user (body_id request)
           (match body_language request with Some l => l | None => english end)
           (match body_teachingMode request with Some b => b | None => false end)
           (m :: ms))
        (outerCatch env) s1.
Proof.
  intros Hauth Hreq Hpass Hmsgs.
  destruct (POST_enters P env s user request Hauth Hreq) as [s0 [Hc [Hp ->]]].
  pose proof (verifyThread_passes (E := JsError) env user request s0 Hpass) as Hf.
  pose proof (verifyThread_calls (E := JsError) env user (body_id request) s0) as Hk.
  pose proof (verifyThread_persisted (E := JsError) env user (body_id request) s0) as Hk'.
  unfold try_catch at 1. unfold bind at 1.
  destruct (verifyThread env user (body_id request) s0) as [r s1].
  cbn in Hf, Hk, Hk'. subst r. rewrite Hmsgs.
  exists s1. split; [congruence|]. split; [congruence|]. reflexivity.
Qed.

(** C5. A request in teaching mode that passes the checks makes one call
    to the model, with the teaching-mode template of the requested language
    for system prompt, the lower temperature 0.3 and the higher budget of
    1500 tokens; outside teaching mode the call is made with the selected
    prompt, the temperature 0.5 and the budget of 500 tokens. *)
Theorem C5_teaching_mode_parameters (P : PromptTable) (env : Env) (s : State)
    (user : User) (request : RequestBody) (m : value) (ms : list value)
    (cleanMessages : list Message) :
  authenticated env user -> request_json env = Ret request ->
  thread_check_passes env user request ->
  body_messages request = VArr (m :: ms) ->
  map_res cleanMessage (m :: ms) = Ret cleanMessages ->
  let language := match body_language request with Some l => l | None => english end in
  let made := calls_made (snd (POST P env s)) in
  (body_teachingMode request = Some true ->
   exists options,
     made = calls_made s ++ [options] /\
     opt_system options
     = match language with
       | english => TEACHING_MODE_PROMPT P
       | hindi => TEACHING_MODE_PROMPT_HINDI P
       end /\
     opt_temperature options = (3 # 10)%Q /\
     opt_maxTokens options = 1500%Z) /\
  (body_teachingMode request = Some false \/ body_teachingMode request = None ->
   forall system,
     getSystemPrompt P cleanMessages (user_role user) language false = Ret system ->
     exists options,
       made = calls_made s ++ [options] /\
       opt_system options = system /\
       opt_temperature options = (5 # 10)%Q /\
       opt_maxTokens options = 500%Z) /\
  (3 # 10 < 5 # 10)%Q /\ (500 < 1500)%Z.
Proof.
  intros Hauth Hreq Hpass Hmsgs Hclean language made.
  destruct (POST_starts P env s user request m ms Hauth Hreq Hpass Hmsgs)
    as [s1 [Hc [_ HPOST]]].
  subst made. rewrite HPOST. fold language.
  split; [|split; [|split; reflexivity]].
  - intros Hmode. rewrite Hmode.
    eexists. split.
    + rewrite <- Hc. eapply startStream_calls_model; [exact Hclean | reflexivity].
    + repeat split.
  - intros Hmode system Hsystem.
    assert (Hfalse : match body_teachingMode request with Some b => b | None => false end
                     = false) by (destruct Hmode as [-> | ->]; reflexivity).
    rewrite Hfalse. eexists. split.
    + rewrite <- Hc. eapply startStream_calls_model; [exact Hclean|].
      unfold streamTextOptions. rewrite Hsystem. reflexivity.
    + repeat split.
Qed.

(** ** A request served to the end of its stream *)

Lemma attempted_messages_db_events (tr : list Event) :
  attempted_messages (db_events tr) = attempted_messages tr.
Proof.
  induction tr as [|ev tr IH]; [reflexivity|].
  destruct ev; simpl; try exact IH. now rewrite IH.
Qed.

Lemma persisted_attempts (s s' : State) :
  persisted s' = persisted s -> attempts s' = attempts s.
Proof.
  unfold persisted, attempts. intros [= _ _ H].
  now rewrite <- (attempted_messages_db_events (trace s')), H, attempted_messages_db_events.
Qed.

Lemma transform_persisted (chunk : value) (c : Controller) :
  keeps persisted (transform chunk c).
Proof. unfold transform. frame_all. Qed.

Lemma pipe_persisted (chunks : list value) (c : Controller) :
  keeps persisted (pipe chunks c).
Proof.
  revert c; induction chunks as [|chunk rest IH]; intros c.
  - simpl. unfold flush. frame_all.
  - intros s. simpl. pose proof (transform_persisted chunk c s) as Ht.
    destruct (transform chunk c s) as [[c'|e] s1]; cbn [snd] in *.
    + now rewrite IH.
    + exact Ht.
Qed.

Lemma run_steps_quiet {E} (env : Env) (threadId : option string) (steps : list Step)
    (s : State) :
  filter has_toolCalls steps = [] ->
  run_steps (E := E) env threadId steps s = (Ret tt, s).
Proof.
  induction steps as [|step rest IH]; intros H; simpl in *; [reflexivity|].
  destruct (has_toolCalls step) eqn:Hstep; [discriminate|].
  unfold bind. rewrite onStepFinish_no_calls by exact Hstep. now apply IH.
Qed.

(** Copying well-formed messages goes through, and every copy has text
    for content. *)
Lemma cleanMessages_well_formed (items : list value) :
  Forall (fun item => exists fields text,
              item = VObj fields /\ assoc "content" fields = VStr text) items ->
  exists cleanMessages,
    map_res cleanMessage items = Ret cleanMessages /\
    Forall (fun m => exists text, content m = VStr text) cleanMessages.
Proof.
  induction 1 as [|item items [fields [text [-> Hc]]] _ [clean [IH1 IH2]]]; simpl.
  - exists []. split; [reflexivity | constructor].
  - rewrite IH1. eexists. split; [reflexivity|].
    constructor; [|exact IH2]. cbn. now exists text.
Qed.

Lemma streamTextOptions_text (P : PromptTable) (cleanMessages : list Message)
    (userRole : value) (language : Language) (teachingMode : bool) :
  Forall (fun m => exists text, content m = VStr text) cleanMessages ->
  exists options,
    streamTextOptions P cleanMessages userRole language teachingMode = Ret options.
Proof.
  intros Htext. unfold streamTextOptions.
  destruct teachingMode; [eexists; reflexivity|].
  unfold getSystemPrompt. destruct (is_str userRole "Teacher"); [eexists; reflexivity|].
  unfold detectSubject, lastUserMessage.
  destruct (find _ (rev cleanMessages)) as [m|] eqn:Hfind; [|eexists; reflexivity].
  apply find_some in Hfind as [Hin _]. apply in_rev in Hin.
  rewrite Forall_forall in Htext. destruct (Htext m Hin) as [text ->].
  eexists; reflexivity.
Qed.

(** With the stream set up, the set-up stage answers with the SDK's
    status, the three streaming headers and the SDK's body. *)
Lemma startStream_streams (P : PromptTable) (env : Env) (user : User)
    (threadId : option string) (language : Language) (teachingMode : bool)
    (messages : list value) (h : StreamHandler) (response : SdkResponse)
    (source : list value) (s : State) :
  Forall (fun item => exists fields text,
              item = VObj fields /\ assoc "content" fields = VStr text) messages ->
  stream_set_up env h response source ->
  exists s',
    try_catch (startStream P env user threadId language teachingMode messages)
      (outerCatch env) s
    = (Ret {| reply_response :=
                {| status := 200; statusText := sdk_statusText response;
                   headers := streamHeaders; body := BodyStream source |};
              reply_stream :=
                Some {| started_handler := h; started_threadId := threadId;
                        started_user := user |} |}, s') /\
    persisted s' = persisted s.
Proof.
  intros Hwf [Hstream [Hresponse [Hstatus Hbody]]].
  destruct (cleanMessages_well_formed messages Hwf) as [clean [Hclean Htext]].
  destruct (streamTextOptions_text P clean (user_role user) language teachingMode Htext)
    as [options Hoptions].
  pose proof (startStream_persisted P env user threadId language teachingMode messages s)
    as Hkeep.
  unfold startStream, try_catch, bind, lift, set_streamFinished, set_streamError, emit,
    sendStream, try_catch, bind, lift, ret in *.
  rewrite Hclean, Hoptions, Hstream, Hresponse, Hbody, Hstatus in *.
  cbn in *. eexists. split; [reflexivity | exact Hkeep].
Qed.

Lemma run_callbacks_returns {E} (env : Env) (user : User) (threadId : option string)
    (h : StreamHandler) (s : State) :
  exists s',
    run_callbacks (E := E) env user threadId h s = (Ret tt, s') /\
    attempts s' = attempts s + length (filter has_toolCalls (handler_steps h)) /\
    (filter has_toolCalls (handler_steps h) = [] -> persisted s' = persisted s).
Proof.
  destruct (run_steps_returns (E := E) env threadId (handler_steps h) s)
    as [s1 [d [Hrun [Htrace [Hatt _]]]]].
  destruct (onFinish_returns (E := E) env user (handler_finish h) s1)
    as [s2 [Hfin [_ Hkeep]]].
  exists s2. unfold run_callbacks, bind. rewrite Hrun, Hfin.
  split; [reflexivity|]. split.
  - rewrite (persisted_attempts _ _ Hkeep). unfold attempts.
    now rewrite Htrace, attempted_messages_app, length_app, Hatt.
  - intros Hquiet. rewrite Hkeep.
    rewrite (run_steps_quiet (E := E) env threadId _ s Hquiet) in Hrun.
    now injection Hrun as <-.
Qed.

(** C2, amended. An authenticated request without thread id and with
    well-formed messages, whose stream the SDK sets up, is answered with the
    200 streaming response of Content-Type text/event-stream, and its stream
    is delivered to the end.  Persistence does not depend on the thread id:
    one assistant-message insert is tried for every step of the stream that
    carries tool calls, so nothing is tried nor written exactly when no step
    carries one. *)
Theorem C2_stream_without_thread (P : PromptTable) (env : Env) (s : State)
    (user : User) (request : RequestBody) (h : StreamHandler)
    (response : SdkResponse) (source : list value) :
  authenticated env user ->
  request_json env = Ret request ->
  body_id request = None ->
  well_formed_messages (body_messages request) ->
  stream_set_up env h response source ->
  exists r delivered s',
    serve P env s = (Ret (r, Some delivered), s') /\
    streaming_response r /\
    readable delivered = Closed /\
    attempts s' = attempts s + length (filter has_toolCalls (handler_steps h)) /\
    (filter has_toolCalls (handler_steps h) = [] -> persisted s' = persisted s).
Proof.
  intros Hauth Hreq Hid [m [ms [Hmsgs Hitems]]] Hsdk.
  destruct (POST_starts P env s user request m ms Hauth Hreq (or_introl Hid) Hmsgs)
    as [s1 [_ [Hp1 HPOST]]].
  destruct (startStream_streams P env user (body_id request)
              (match body_language request with Some l => l | None => english end)
              (match body_teachingMode request with Some b => b | None => false end)
              (m :: ms) h response source s1 Hitems Hsdk) as [s2 [Hstart Hp2]].
  destruct (run_callbacks_returns (E := JsError) env user (body_id request) h s2)
    as [s3 [Hcb [Hatt Hquiet]]].
  destruct (pipe_readable source fresh s3 eq_refl) as [s4 [Hpipe _]].
  pose proof (pipe_persisted source fresh s3) as Hp4. rewrite Hpipe in Hp4. cbn in Hp4.
  eexists _, _, s4. split; [|split; [|split; [|split]]].
  - unfold serve. unfold bind at 1. rewrite HPOST, Hstart.
    cbn [reply_stream reply_response body started_user started_threadId started_handler].
    unfold bind, pipeThrough. rewrite Hcb, Hpipe. reflexivity.
  - repeat split. eexists; reflexivity.
  - reflexivity.
  - rewrite (persisted_attempts _ _ Hp4), Hatt.
    now rewrite (persisted_attempts _ _ Hp2), (persisted_attempts _ _ Hp1).
  - intros Hq. rewrite Hp4, (Hquiet Hq). congruence.
Qed.

Lemma C2_stream_without_thread_witness :
  authenticated plainTextEnv (sampleUser (VStr "Student")) /\
  body_id sampleBody = None /\
  well_formed_messages (body_messages sampleBody) /\
  exists r delivered s',
    serve samplePrompts plainTextEnv initial = (Ret (r, Some delivered), s') /\
    streaming_response r /\
    readable delivered = Closed /\
    attempts s' = attempts initial + length (filter has_toolCalls (handler_steps textHandler)) /\
    (filter has_toolCalls (handler_steps textHandler) = [] -> persisted s' = persisted initial).
Proof.
  assert (Hauth : authenticated plainTextEnv (sampleUser (VStr "Student")))
    by (split; reflexivity).
  assert (Hwf : well_formed_messages (body_messages sampleBody)).
  { eexists _, _. split; [reflexivity|]. repeat constructor.
    eexists _, _. split; reflexivity. }
  split; [exact Hauth|]. split; [reflexivity|]. split; [exact Hwf|].
  refine (C2_stream_without_thread samplePrompts plainTextEnv initial _ sampleBody
            textHandler _ _ Hauth eq_refl eq_refl Hwf _).
  repeat split.
Defined.

(** C2 as stated fails: the example request of the specification, answered
    by a stream whose step calls a tool, gets its 200 streaming response, and
    an assistant message and a tool output are written on the way, the
    message without a thread. *)
Lemma C2_counterexample :
  (exists r delivered s',
     serve samplePrompts toolCallEnv initial = (Ret (r, delivered), s') /\
     streaming_response r /\
     chat_messages s'
     = [ {| cm_id := "uuid-0"; cm_thread_id := None;
            cm_role := "assistant"; cm_content := "Here is a quiz." |} ] /\
     map to_tool_call_id (tool_outputs s') = ["call-1"; "call-2"] /\
     map to_state (tool_outputs s') = ["result"; "pending"]) /\
  ~ C2_as_stated samplePrompts toolCallEnv.
Proof.
  split.
  - eexists _, _, _. split; [vm_compute; reflexivity|].
    split; [|split; [|split]]; try reflexivity.
    repeat split. eexists; reflexivity.
  - intros Hclaim.
    destruct (Hclaim (sampleUser (VStr "Student")) sampleBody toolHandler
                {| sdk_status := 200; sdk_statusText := "OK";
                   sdk_body := Some [VStr "9:{toolCallId:call-1}"; VStr "0:Here is a quiz."] |}
                [VStr "9:{toolCallId:call-1}"; VStr "0:Here is a quiz."])
      as [r [delivered [s' [Hserve [_ Hpersisted]]]]].
    + split; reflexivity.
    + reflexivity.
    + reflexivity.
    + eexists _, _. split; [reflexivity|]. repeat constructor.
      eexists _, _. split; reflexivity.
    + repeat split.
    + vm_compute in Hserve. injection Hserve as _ _ <-.
      vm_compute in Hpersisted. discriminate Hpersisted.
Qed.

Lemma C4_validation_witness :
  (unauthenticated anonEnv /\ refuses (POST samplePrompts anonEnv initial) initial 401) /\
  (no_such_thread missingThreadEnv "thread-9" /\
   refuses (POST samplePrompts missingThreadEnv initial) initial 404) /\
  (thread_of foreignThreadEnv "thread-9" {| thread_id := "thread-9"; thread_user_id := "user-2" |} /\
   refuses (POST samplePrompts foreignThreadEnv initial) initial 403) /\
  (~ nonempty_array (VArr []) /\
   refuses (POST samplePrompts emptyMessagesEnv initial) initial 400).
Proof.
  assert (Hanon : unauthenticated anonEnv) by (left; discriminate).
  assert (Hauth : forall request threads h,
            authenticated
              (sampleEnv (signedIn (VStr "Student")) request threads (fun _ => ReplyOk) h)
              (sampleUser (VStr "Student"))) by (intros; split; reflexivity).
  assert (Hsupplied : forall messages, thread_supplied (threadBody messages) "thread-9")
    by (intros; split; [reflexivity | discriminate]).
  assert (Hmissing : no_such_thread missingThreadEnv "thread-9") by (intros row []).
  assert (Hforeign : thread_of foreignThreadEnv "thread-9"
                       {| thread_id := "thread-9"; thread_user_id := "user-2" |}).
  { split; [|split; [now left | reflexivity]].
    constructor; [intros [] | constructor]. }
  assert (Hown : thread_of emptyMessagesEnv "thread-9"
                   {| thread_id := "thread-9"; thread_user_id := "user-1" |}).
  { split; [|split; [now left | reflexivity]].
    constructor; [intros [] | constructor]. }
  assert (Hempty : ~ nonempty_array (VArr [])) by (intros [m [ms C]]; discriminate).
  split; [|split; [|split]].
  - split; [exact Hanon|].
    exact (proj1 (C4_validation samplePrompts anonEnv initial) Hanon).
  - split; [exact Hmissing|].
    exact (proj1 (proj2 (C4_validation samplePrompts missingThreadEnv initial))
             _ _ _ (Hauth _ _ _) eq_refl (Hsupplied _) Hmissing).
  - split; [exact Hforeign|].
    refine (proj1 (proj2 (proj2 (C4_validation samplePrompts foreignThreadEnv initial)))
              _ _ _ _ (Hauth _ _ _) eq_refl (Hsupplied _) Hforeign _).
    discriminate.
  - split; [exact Hempty|].
    refine (proj2 (proj2 (proj2 (C4_validation samplePrompts emptyMessagesEnv initial)))
              _ _ (Hauth _ _ _) eq_refl _ Hempty).
    right; right. eexists _, _. split; [apply Hsupplied|]. split; [exact Hown | reflexivity].
Defined.

Lemma C5_teaching_mode_parameters_witness :
  authenticated hindiTeachingEnv (sampleUser (VStr "Student")) /\
  body_teachingMode hindiTeachingBody = Some true /\
  exists options,
    calls_made (snd (POST samplePrompts hindiTeachingEnv initial)) = calls_made initial ++ [options] /\
    opt_system options = TEACHING_MODE_PROMPT_HINDI samplePrompts /\
    opt_temperature options = (3 # 10)%Q /\
    opt_maxTokens options = 1500%Z.
Proof.
  assert (Hauth : authenticated hindiTeachingEnv (sampleUser (VStr "Student")))
    by (split; reflexivity).
  split; [exact Hauth|]. split; [reflexivity|].
  exact (proj1 (C5_teaching_mode_parameters samplePrompts hindiTeachingEnv initial
                  (sampleUser (VStr "Student")) hindiTeachingBody _ _ _
                  Hauth eq_refl (or_introl eq_refl) eq_refl eq_refl)
           eq_refl).
Defined.

(** ** The classifier of the streaming boundary *)




Lemma C7_persistence_failures_swallowed_witness :
  failed (insert_reply rejectingEnv 0) = true /\
  (exists s1 d,
     run_steps (E := JsError) rejectingEnv None (handler_steps toolHandler) initial
     = (Ret tt, s1) /\
     trace s1 = trace initial ++ d /\
     length (attempted_messages d) = 1 /\
     failed_inserts d <= error_logs d) /\
  (exists s2,
     run_callbacks (E := JsError) rejectingEnv (sampleUser (VStr "Student")) None
       toolHandler initial = (Ret tt, s2) /\
     streamFinished s2 = true).
Proof.
  split; [reflexivity|].
  exact (proj2 (C7_persistence_failures_swallowed JsError rejectingEnv
                  (sampleUser (VStr "Student")) None toolHandler initial)).
Defined.

Lemma C10_persistence_ordered_and_gated_witness :
  (failed (insert_reply rejectingEnv 0) = true /\
   tool_outputs (snd (onStepFinish (E := JsError) rejectingEnv None toolStep initial)) = [] /\
   chat_messages (snd (onStepFinish (E := JsError) rejectingEnv None toolStep initial)) = []) /\
  (failed (insert_reply toolCallEnv 0) = false /\
   has_result toolStep "call-1" /\ ~ has_result toolStep "call-2" /\
   Forall (fun row =>
             (to_state row = "result" <-> has_result toolStep (to_tool_call_id row)) /\
             (to_state row = "pending" <-> ~ has_result toolStep (to_tool_call_id row)))
          (tool_outputs (snd (onStepFinish (E := JsError) toolCallEnv None toolStep initial)))).
Proof.
  split.
  - split; [reflexivity|].
    destruct (C10_persistence_ordered_and_gated JsError rejectingEnv None toolStep initial)
      as [d [new_rows [_ [Htools [_ [Hgate _]]]]]].
    destruct (Hgate eq_refl) as [-> [Hmsgs _]].
    split; [exact Htools | exact Hmsgs].
  - split; [reflexivity|].
    split; [eexists _, _; split; [reflexivity|]; split; [now left | reflexivity]|].
    split.
    { intros [results [r [[= <-] [[<-|[]] C]]]]. discriminate C. }
    destruct (C10_persistence_ordered_and_gated JsError toolCallEnv None toolStep initial)
      as [d [new_rows [_ [Htools [_ [_ Hrows]]]]]].
    rewrite Htools. cbn [tool_outputs initial app].
    eapply Forall_impl; [|exact Hrows]. intros row [_ H]. exact H.
Defined.

(** ** A store that rejects every insert *)

(** The stream of a request whose step calls a tool, against a store that
    rejects every insert: the request is served to the end, the message
    insert is tried once and logged as failed, no tool output is tried, and
    nothing is written. *)
Lemma rejecting_store_served :
  exists r delivered s,
    serve samplePrompts rejectingEnv initial = (Ret (r, Some delivered), s) /\
    status r = 200%Z /\
    readable delivered = Closed /\
    streamFinished s = true /\
    chat_messages s = [] /\
    tool_outputs s = [] /\
    attempts s = 1 /\
    In (Console LError "Error saving message:") (trace s) /\
    (forall rows reply, ~ In (InsertToolOutputs rows reply) (trace s)).
Proof.
  eexists _, _, _. split; [vm_compute; reflexivity|].
  repeat split.
  - cbn. tauto.
  - intros rows reply H. cbn in H.
    repeat (destruct H as [H|H]; [discriminate H|]). exact H.
Qed.

(** * Further properties of the route *)

(** ** The transform stream, on any input *)

(** X1. A stream that holds no error event and no chunk without a
    readable [type] goes through the transform unchanged: the same chunks
    in the same order, the stream closed at the end, nothing logged and no
    state touched. *)
Theorem X1_plain_stream_unchanged (chunks : list value) (s : State) :
  Forall plain_chunk chunks ->
  pipeThrough chunks s = (Ret {| queue := chunks; readable := Closed |}, s).
Proof.
  intros Hplain. unfold pipeThrough.
  now rewrite (pipe_plain chunks fresh s eq_refl Hplain).
Qed.

Lemma X1_plain_stream_unchanged_witness :
  Forall plain_chunk [VStr "0:one"; textChunk "two"; VArr [VNum 1]] /\
  pipeThrough [VStr "0:one"; textChunk "two"; VArr [VNum 1]] initial
  = (Ret {| queue := [VStr "0:one"; textChunk "two"; VArr [VNum 1]]; readable := Closed |},
     initial).
Proof.
  assert (H : Forall plain_chunk [VStr "0:one"; textChunk "two"; VArr [VNum 1]]).
  { repeat constructor; eexists; split; reflexivity. }
  split; [exact H|].
  exact (X1_plain_stream_unchanged _ initial H).
Defined.



(** ** The two classifiers, on any error *)


(** The check of the constructor: it accepts exactly the statuses that
    are valid once taken modulo 2^16, and raises a RangeError or a
    TypeError on the others. *)
Lemma check_status_cases (status : Z) :
  (valid_status (to_unsigned_short status) = true /\
   check_status status = Ret (to_unsigned_short status)) \/
  (valid_status (to_unsigned_short status) = false /\
   exists e, check_status status = Throw e /\
             (err_class e = ERangeError \/ err_class e = ETypeError)).
Proof.
  unfold check_status, valid_status. cbv zeta.
  destruct ((200 <=? to_unsigned_short status) && (to_unsigned_short status <=? 599))%Z;
    cbn [negb andb].
  - destruct (null_body_status (to_unsigned_short status)); cbn [negb].
    + right. split; [reflexivity|]. eexists. split; [reflexivity|]. now right.
    + left. split; reflexivity.
  - right. split; [reflexivity|]. eexists. split; [reflexivity|]. now left.
Qed.

Lemma Response_json_checked_cases (fields : list (string * value)) (status : Z) :
  (valid_status (to_unsigned_short status) = true /\
   Response_json_checked fields status
   = Ret (Response_json fields (to_unsigned_short status))) \/
  (valid_status (to_unsigned_short status) = false /\
   exists e, Response_json_checked fields status = Throw e /\
             (err_class e = ERangeError \/ err_class e = ETypeError)).
Proof.
  unfold Response_json_checked.
  destruct (check_status_cases status) as [[Hv ->]|[Hv [e [-> He]]]]; [left | right]; eauto.
Qed.

(** The literal statuses of the route pass the check. *)
Lemma Response_json_checked_literal (fields : list (string * value)) (status : Z) :
  In status [400; 401; 403; 404; 500]%Z ->
  Response_json_checked fields status = Ret (Response_json fields status).
Proof.
  intros H. repeat (destruct H as [<-|H]; [reflexivity|]). destruct H.
Qed.

Lemma api_not_type (err : JsError) : isAPICallError err = true -> isTypeError err = false.
Proof. unfold isAPICallError, isTypeError. now destruct (err_class err). Qed.

Ltac answer_with_fields :=
  left; eexists _, _, _, _; split; [reflexivity|]; cbn;
  repeat split; try reflexivity; try discriminate; try (cbn; tauto); auto.

(** The outer classifier, case by case: it answers, except for an API
    call error that asks for a status the constructor refuses. *)
Lemma classifyError_cases (env : Env) (err : JsError) (s : State) :
  let s' := mkState (chat_messages s) (tool_outputs s)
              ((trace s ++ [Console LError "General error in POST /api/gen-chat:"]) ++ [Abort])
              (db_calls s) (uuids s) (streamFinished s) (streamError s) in
  (exists fields status code message,
     classifyError env err s = (Ret (Response_json fields status), s') /\
     valid_status status = true /\
     assoc "error" fields = VStr message /\ message <> "" /\
     assoc "code" fields = VStr code /\ In code outer_codes /\
     (status = 400 \/ status = 500 \/
      (isAPICallError err = true /\ status = requested_status err))%Z /\
     (isTypeError err = true -> code = "TYPE_ERROR" /\ status = 400%Z) /\
     (development env = false -> assoc "stack" fields = VUndefined) /\
     ~ refused_status err) \/
  (exists e,
     classifyError env err s = (Throw e, s') /\
     (err_class e = ERangeError \/ err_class e = ETypeError) /\
     refused_status err).
Proof.
  intros s'. subst s'.
  unfold classifyError, bind, console, emit, lift, ret. cbn [fst snd].
  destruct (isTypeError err) eqn:Htype.
  { answer_with_fields. intros [Hapi _]. apply api_not_type in Hapi. congruence. }
  destruct (isAPICallError err) eqn:Hapi.
  { match goal with
    | |- context [Response_json_checked ?fs ?st] =>
        destruct (Response_json_checked_cases fs st) as [[Hv ->]|[Hv [e [-> He]]]]
    end.
    - left. eexists _, _, _, _. split; [reflexivity|]. split; [exact Hv|]. cbn.
      repeat split; try reflexivity; try discriminate; try (cbn; tauto); auto.
      intros [_ C]. unfold requested_status in C. congruence.
    - right. exists e. split; [reflexivity|]. split; [exact He|]. split; [exact Hapi | exact Hv]. }
  assert (Hno : ~ refused_status err) by (intros [C _]; congruence).
  destruct (match err_messageId err with VStr id => negb (id =? "") | _ => false end);
    [answer_with_fields|].
  destruct (is_str (err_finishReason err) "error"); [answer_with_fields|].
  destruct (is_str (err_code err) "ECONNRESET"); [answer_with_fields|].
  answer_with_fields. intros ->. reflexivity.
Qed.


(** The streaming classifier, case by case. *)
Lemma classifyStreamError_cases (env : Env) (streamErr : JsError) (s : State) :
  let s' := snd (classifyStreamError env streamErr s) in
  count_event is_abort (trace s')
  = count_event is_abort (trace s) + (if streamFinished s then 0 else 1) /\
  ((exists fields status code message,
      classifyStreamError env streamErr s = (Ret (Response_json fields status), s') /\
      valid_status status = true /\
      assoc "error" fields = VStr message /\ message <> "" /\
      assoc "code" fields = VStr code /\ In code stream_codes /\
      (status = 500 \/
       (isAPICallError streamErr = true /\ status = requested_status streamErr))%Z /\
      assoc "stack" fields = VUndefined /\
      (code <> "STREAM_TYPE_ERROR" -> code <> "STREAM_AI_ERROR" ->
       assoc "recoverable" fields = VBool true) /\
      ~ (finish_payload_found streamErr = false /\ refused_status streamErr)) \/
   (exists e,
      classifyStreamError env streamErr s = (Throw e, s') /\
      (err_class e = ERangeError \/ err_class e = ETypeError) /\
      finish_payload_found streamErr = false /\
      refused_status streamErr)).
Proof.
  intros s'. subst s'.
  unfold finish_payload_found, refused_status.
  unfold classifyStreamError, finishErrorResponse, abort_unless_finished,
    read_streamFinished, read_streamError, try_catch, bind, console, emit, lift, throw, ret.
  cbn [fst snd streamFinished].
  match goal with
  | |- context [Response_json_checked ?fs ?st] =>
      destruct (Response_json_checked_cases fs st) as [[Hv Hr]|[Hv [e [Hr He]]]];
      rewrite Hr; clear Hr
  end.
  all: destruct (isStreamFinishError streamErr) eqn:Hfin;
    destruct (index 0 "{" (err_message streamErr)) as [jsonStartIndex|] eqn:Hidx;
    destruct (isTypeError streamErr) eqn:Htype;
    destruct (isAPICallError streamErr) eqn:Hapi;
    try (apply api_not_type in Hapi; congruence).
  all: repeat match goal with
         | |- context [match ?x with _ => _ end] =>
             match x with
             | context [match _ with _ => _ end] => fail 1
             | _ => destruct x eqn:?
             end; cbn [fst snd streamFinished streamError trace andb]
         end.
  all: cbn [fst snd trace andb].
  all: (split; [unfold count_event; rewrite ?filter_app, ?length_app; cbn; lia|]).
  all: first
    [ right; exists e; split; [reflexivity|]; split; [exact He|];
      split; [reflexivity|]; split; [reflexivity | exact Hv]
    | left; eexists _, _, _, _; (split; [reflexivity|]);
      (split; [first [reflexivity | exact Hv]|]); cbn;
      (split; [reflexivity|]); (split; [discriminate|]);
      (split; [reflexivity|]); (split; [cbn; tauto|]);
      (split; [first [left; reflexivity | right; split; reflexivity]|]);
      (split; [reflexivity|]);
      (split; [first [reflexivity | congruence | intros; congruence]|]);
      first [ intros [C _]; discriminate C
            | intros [_ [C _]]; discriminate C
            | intros [_ [_ C]]; unfold requested_status in C; congruence ] ].
Qed.

(** ** The copy of the messages *)

Lemma cleanMessage_copyable (m : value) :
  copyable m -> exists clean, cleanMessage m = Ret clean /\ copy_of m clean.
Proof.
  intros [Hnull Hundef]. unfold cleanMessage, copy_of.
  destruct m; try congruence; cbn; eexists; (split; [reflexivity|]); repeat split.
Qed.

Lemma cleanMessage_null (m : value) :
  ~ copyable m -> exists e, cleanMessage m = Throw e /\ err_class e = ETypeError.
Proof.
  intros H. unfold copyable in H.
  destruct m; try (exfalso; apply H; split; discriminate);
    cbn; eexists; split; reflexivity.
Qed.

Lemma copyable_dec (m : value) : copyable m \/ ~ copyable m.
Proof.
  unfold copyable. destruct m; try (left; split; discriminate); right; intros [H1 H2];
    congruence.
Qed.

Lemma cleanMessages_copy (items : list value) :
  (Forall copyable items ->
   exists cleanMessages,
     map_res cleanMessage items = Ret cleanMessages /\
     Forall2 copy_of items cleanMessages) /\
  (~ Forall copyable items ->
   exists e, map_res cleanMessage items = Throw e /\ err_class e = ETypeError) /\
  (forall cleanMessages,
     map_res cleanMessage items = Ret cleanMessages ->
     Forall copyable items /\ length cleanMessages = length items).
Proof.
  induction items as [|m items [IH1 [IH2 IH3]]].
  - split; [|split].
    + intros _. exists []. split; [reflexivity | constructor].
    + intros H. exfalso. apply H. constructor.
    + intros clean [= <-]. split; [constructor | reflexivity].
  - split; [|split].
    + intros H. inversion H as [|? ? Hm Hitems]; subst.
      destruct (cleanMessage_copyable m Hm) as [c [Hc Hcopy]].
      destruct (IH1 Hitems) as [clean [Hclean Hall]].
      exists (c :: clean). simpl. rewrite Hc, Hclean. split; [reflexivity|].
      now constructor.
    + intros H. simpl. destruct (copyable_dec m) as [Hm|Hm].
      * destruct (cleanMessage_copyable m Hm) as [c [-> _]].
        destruct IH2 as [e [-> He]]; [|eauto].
        intros Hitems. apply H. now constructor.
      * destruct (cleanMessage_null m Hm) as [e [-> He]]. eauto.
    + intros clean. simpl.
      destruct (cleanMessage m) as [c|e] eqn:Hc; [|discriminate].
      destruct (map_res cleanMessage items) as [cs|e] eqn:Hcs; [|discriminate].
      intros [= <-]. destruct (IH3 cs eq_refl) as [Hitems Hlen].
      split; [|simpl; now rewrite Hlen].
      constructor; [|exact Hitems].
      destruct (copyable_dec m) as [Hm|Hm]; [exact Hm|].
      destruct (cleanMessage_null m Hm) as [e [He _]]. congruence.
Qed.


(** ** Every outcome of POST *)

Lemma returning_ret {E A} (Q : A -> Prop) (a : A) :
  Q a -> returning Q (ret (E := E) a).
Proof. intros H s a' s' [= <- _]. exact H. Qed.

Lemma returning_bind {E A B} (Q : B -> Prop) (m : M E A) (k : A -> M E B) :
  (forall a, returning Q (k a)) -> returning Q (bind m k).
Proof.
  intros Hk s b s'. unfold bind. destruct (m s) as [[a|e] s1]; [apply Hk | discriminate].
Qed.

Lemma raising_ret {E A} (R : E -> Prop) (a : A) : raising R (ret a).
Proof. intros s e s'. discriminate. Qed.

Lemma raising_emit {E} (R : E -> Prop) (ev : Event) : raising R (emit ev).
Proof. intros s e s'. discriminate. Qed.

Lemma raising_lift {E A} (R : E -> Prop) (r : res E A) :
  (forall e, r = Throw e -> R e) -> raising R (lift r).
Proof. intros H s e s'. unfold lift. intros [= -> _]. now apply H. Qed.

Lemma raising_bind {E A B} (R : E -> Prop) (m : M E A) (k : A -> M E B) :
  raising R m -> (forall a, raising R (k a)) -> raising R (bind m k).
Proof.
  intros Hm Hk s e s'. unfold bind. destruct (m s) as [[a|e0] s1] eqn:Hms.
  - apply Hk.
  - intros [= <- _]. eapply Hm; eauto.
Qed.

(** What a [try] with its [catch] comes to: what the body returns, or
    what the handler makes of what the body raises. *)
Lemma try_catch_outcome {E E' A} (Q : A -> Prop) (R : E -> Prop) (m : M E A)
    (h : E -> M E' A) (s : State) :
  returning Q m -> raising R m ->
  (exists a s', try_catch m h s = (Ret a, s') /\ Q a) \/
  (exists e s1, R e /\ try_catch m h s = h e s1).
Proof.
  intros Hret Hraise. unfold try_catch. destruct (m s) as [[a|e] s1] eqn:Hms.
  - left. exists a, s1. split; [reflexivity | eapply Hret; eauto].
  - right. exists e, s1. split; [eapply Hraise; eauto | reflexivity].
Qed.

Lemma verifyThread_returns {E} (env : Env) (user : User) (threadId : option string)
    (R : E -> Prop) :
  raising R (verifyThread env user threadId).
Proof.
  intros s e s'. unfold verifyThread.
  destruct threadId as [[|c id]|]; try discriminate.
  unfold selectThread, bind, console, emit, ret. cbn [fst snd].
  destruct (single _) as [thread|]; [|discriminate].
  destruct (negb _); discriminate.
Qed.

Lemma cleanMessages_raise (items : list value) (e : JsError) :
  map_res cleanMessage items = Throw e -> err_class e = ETypeError.
Proof.
  induction items as [|m ms IH]; simpl; [discriminate|].
  destruct (cleanMessage m) as [clean|e0] eqn:Hm.
  - destruct (map_res cleanMessage ms) as [cs|e1]; [discriminate|].
    intros [= <-]. now apply IH.
  - intros [= <-]. unfold cleanMessage in Hm.
    destruct m; cbn in Hm; try discriminate; now injection Hm as <-.
Qed.

Lemma streamTextOptions_raise (P : PromptTable) (cleanMessages : list Message)
    (userRole : value) (language : Language) (teachingMode : bool) (e : JsError) :
  streamTextOptions P cleanMessages userRole language teachingMode = Throw e ->
  err_class e = ETypeError.
Proof.
  unfold streamTextOptions, getSystemPrompt, detectSubject, lastUserMessage.
  destruct teachingMode; [discriminate|].
  destruct (is_str userRole "Teacher"); [discriminate|].
  destruct (find _ (rev cleanMessages)) as [m|]; [|discriminate].
  destruct (content m); try discriminate; now intros [= <-].
Qed.

Lemma classifyStreamError_raise (env : Env) (streamErr : JsError) (s : State)
    (e : JsError) (s' : State) :
  classifyStreamError env streamErr s = (Throw e, s') ->
  err_class e = ERangeError \/ err_class e = ETypeError.
Proof.
  intros Hrun.
  destruct (classifyStreamError_cases env streamErr s) as [_ Hcases].
  destruct Hcases as [[fields [status [code [message [Hrun' _]]]]]|[e' [Hrun' [He _]]]];
    rewrite Hrun in Hrun'; [discriminate|].
  now injection Hrun' as ->.
Qed.

(** The reply of the stream set-up, when it gives one, is the streaming
    response, with a status the constructor has accepted, or comes from the
    streaming classifier entered with no error recorded in the closure. *)
Lemma startStream_reply (P : PromptTable) (env : Env) (Q : Reply -> Prop)
    (user : User) (threadId : option string) (language : Language)
    (teachingMode : bool) (messages : list value) :
  (forall h response source status,
     check_status (sdk_status response) = Ret status ->
     Q {| reply_response :=
            {| status := status; statusText := sdk_statusText response;
               headers := streamHeaders; body := BodyStream source |};
          reply_stream :=
            Some {| started_handler := h; started_threadId := threadId;
                    started_user := user |} |}) ->
  (forall streamErr s r s',
     streamError s = None -> streamFinished s = false ->
     classifyStreamError env streamErr s = (Ret r, s') ->
     Q {| reply_response := r; reply_stream := None |}) ->
  returning Q (startStream P env user threadId language teachingMode messages).
Proof.
  intros Hstream Hclass s reply s'.
  unfold startStream, bind, lift, set_streamFinished, set_streamError, emit.
  destruct (map_res cleanMessage messages) as [clean|e]; [|discriminate].
  cbn [chat_messages tool_outputs trace db_calls uuids streamFinished streamError].
  destruct (streamTextOptions P clean (user_role user) language teachingMode)
    as [options|e]; [|discriminate].
  cbn [chat_messages tool_outputs trace db_calls uuids streamFinished streamError].
  destruct (streamText env options) as [h|e]; [|discriminate].
  unfold sendStream, try_catch, bind, lift, throw, ret, respond.
  assert (Hcatch : forall streamErr s0,
            streamError s0 = None -> streamFinished s0 = false ->
            (let (r0, s1) := classifyStreamError env streamErr s0 in
             match r0 with
             | Ret a => (Ret {| reply_response := a; reply_stream := None |}, s1)
             | Throw e => (Throw e, s1)
             end) = (Ret reply, s') -> Q reply).
  { intros streamErr s0 H1 H2.
    destruct (classifyStreamError env streamErr s0) as [[r|e'] s1] eqn:Hc; [|discriminate].
    intros [= <- _]. eapply Hclass; eauto. }
  destruct (toDataStreamResponse h) as [response|streamErr].
  - destruct (sdk_body response) as [source|].
    + destruct (check_status (sdk_status response)) as [status|e] eqn:Hstatus.
      * intros [= <- _]. now apply Hstream.
      * apply Hcatch; reflexivity.
    + apply Hcatch; reflexivity.
  - apply Hcatch; reflexivity.
Qed.

(** What the stream set-up raises into the outer catch. *)
Lemma startStream_raises (P : PromptTable) (env : Env) (user : User)
    (threadId : option string) (language : Language) (teachingMode : bool)
    (messages : list value) :
  raising (raised_in_POST env)
    (startStream P env user threadId language teachingMode messages).
Proof.
  intros s e s'.
  unfold startStream, bind, lift, set_streamFinished, set_streamError, emit.
  destruct (map_res cleanMessage messages) as [clean|e0] eqn:Hclean.
  2:{ intros [= <- _]. left. eapply cleanMessages_raise; eauto. }
  cbn [chat_messages tool_outputs trace db_calls uuids streamFinished streamError].
  destruct (streamTextOptions P clean (user_role user) language teachingMode)
    as [options|e0] eqn:Hoptions.
  2:{ intros [= <- _]. left. eapply streamTextOptions_raise; eauto. }
  cbn [chat_messages tool_outputs trace db_calls uuids streamFinished streamError].
  destruct (streamText env options) as [h|e0] eqn:Hstream.
  2:{ intros [= <- _]. right; right; right. now exists options. }
  unfold sendStream, try_catch, bind, lift, throw, ret, respond.
  assert (Hcatch : forall streamErr s0,
            (let (r0, s1) := classifyStreamError env streamErr s0 in
             match r0 with
             | Ret a => (Ret {| reply_response := a; reply_stream := None |}, s1)
             | Throw e => (Throw e, s1)
             end) = (Throw e, s') -> raised_in_POST env e).
  { intros streamErr s0.
    destruct (classifyStreamError env streamErr s0) as [[r|e'] s1] eqn:Hc; [discriminate|].
    intros [= <- _]. destruct (classifyStreamError_raise _ _ _ _ _ Hc) as [H|H].
    - right; now left.
    - now left. }
  destruct (toDataStreamResponse h) as [response|streamErr].
  - destruct (sdk_body response) as [source|].
    + destruct (check_status (sdk_status response)) as [status|e0]; [discriminate|].
      apply Hcatch.
    + apply Hcatch.
  - apply Hcatch.
Qed.

(** Every outcome of [POST].  A reply is of one of seven kinds, and a
    property that holds of each kind holds of every reply; when [POST]
    gives no reply, the outer catch has raised on an API call error, thrown
    by [request.json()] or by [streamText], whose status the Response
    constructor refuses. *)
Lemma POST_reply (P : PromptTable) (env : Env) (Q : Reply -> Prop) (s : State) :
  (forall message,
     message <> "" ->
     Q {| reply_response := Response_json [("error", VStr message)] 401;
          reply_stream := None |}) ->
  Q {| reply_response := Response_json [("error", VStr "Thread not found")] 404;
       reply_stream := None |} ->
  (forall owner caller,
     owner <> caller ->
     Q {| reply_response :=
            Response_json
              [("error", VStr "Unauthorized thread access");
               ("details",
                VObj [("threadUserId", VStr owner); ("currentUserId", VStr caller)])]
              403;
          reply_stream := None |}) ->
  Q {| reply_response := Response_json [("error", VStr "Invalid messages array")] 400;
       reply_stream := None |} ->
  (forall h response source threadId user status,
     check_status (sdk_status response) = Ret status ->
     Q {| reply_response :=
            {| status := status; statusText := sdk_statusText response;
               headers := streamHeaders; body := BodyStream source |};
          reply_stream :=
            Some {| started_handler := h; started_threadId := threadId;
                    started_user := user |} |}) ->
  (forall streamErr s r s',
     streamError s = None -> streamFinished s = false ->
     classifyStreamError env streamErr s = (Ret r, s') ->
     Q {| reply_response := r; reply_stream := None |}) ->
  (forall err s r s',
     classifyError env err s = (Ret r, s') ->
     Q {| reply_response := r; reply_stream := None |}) ->
  (exists reply s', POST P env s = (Ret reply, s') /\ Q reply) \/
  (exists e s' err,
     POST P env s = (Throw e, s') /\
     (err_class e = ERangeError \/ err_class e = ETypeError) /\
     refused_status err /\
     (request_json env = Throw err \/ exists options, streamText env options = Throw err)).
Proof.
  intros H401 H404 H403 H400 Hstream Hinner Houter.
  unfold POST.
  match goal with
  | |- context [try_catch ?m ?h s] =>
      destruct (try_catch_outcome Q (raised_in_POST env) m h s)
        as [[reply [s' [Hrun HQ]]]|[err [s1 [Hraised Hrun]]]]
  end.
  - destruct (auth_error (getUser env)) as [msg|].
    { unfold respond. apply returning_ret. apply H401. destruct msg; cbn; discriminate. }
    destruct (auth_user (getUser env)) as [user|].
    2:{ unfold respond. apply returning_ret. apply H401. cbn. discriminate. }
    apply returning_bind. intros request.
    do 3 (apply returning_bind; intros _).
    intros s0 reply s'. unfold bind.
    destruct (verifyThread env user (body_id request) s0) as [[refused|e] s1] eqn:Hv;
      [|discriminate].
    assert (Hrefused : forall r, refused = Some r ->
              Q {| reply_response := r; reply_stream := None |}).
    { intros r ->. revert Hv. unfold verifyThread.
      destruct (body_id request) as [[|c id]|]; try discriminate.
      unfold selectThread, bind, console, emit, ret. cbn [fst snd].
      destruct (single _) as [thread|].
      - destruct (thread_user_id thread =? user_id user) eqn:Heq; cbn; [discriminate|].
        intros [= <- _]. apply H403. intros C. rewrite C, String.eqb_refl in Heq.
        discriminate.
      - intros [= <- _]. exact H404. }
    destruct refused as [r|].
    + unfold respond, ret. intros [= <- _]. now apply Hrefused.
    + assert (H400' : returning Q
                (respond (E := JsError)
                   (Response_json [("error", VStr "Invalid messages array")] 400)))
        by (unfold respond; apply returning_ret, H400).
      destruct (body_messages request) as [| | | | |[|m ms]|]; try (apply H400').
      apply startStream_reply; [intros; now apply Hstream | exact Hinner].
  - destruct (auth_error (getUser env)) as [msg|]; [apply raising_ret|].
    destruct (auth_user (getUser env)) as [user|]; [|apply raising_ret].
    apply raising_bind.
    { apply raising_lift. intros e He. right; right; now left. }
    intros request.
    do 3 (apply raising_bind; [apply raising_emit | intros _]).
    apply raising_bind; [apply verifyThread_returns|].
    intros [r|]; [apply raising_ret|].
    destruct (body_messages request) as [| | | | |[|m ms]|]; try apply raising_ret.
    apply startStream_raises.
  - left. now exists reply, s'.
  - rewrite Hrun. unfold outerCatch, bind, respond, ret.
    destruct (classifyError_cases env err s1)
      as [[fields [status [code [message [Hc _]]]]]|[e [Hc [He Href]]]]; rewrite Hc.
    + left. eexists _, _. split; [reflexivity|]. eapply Houter. exact Hc.
    + right. eexists e, _, err. split; [reflexivity|]. split; [exact He|].
      split; [exact Href|].
      destruct Href as [Hapi _]. unfold isAPICallError in Hapi.
      destruct Hraised as [C|[C|[H|H]]]; try (rewrite C in Hapi; discriminate); auto.
Qed.






(** X6. The [code] of a JSON reply of [POST]: the four refusals of the
    validator (401, 403, 404, 400) carry none, and every other JSON reply
    carries one of the eleven codes of the two catch blocks. *)
Theorem X6_POST_reply_codes (P : PromptTable) (env : Env) (s : State) (reply : Reply)
    (s' : State) (fields : list (string * value)) (status : Z) :
  POST P env s = (Ret reply, s') ->
  reply_response reply = Response_json fields status ->
  (assoc "code" fields = VUndefined /\ In status [401; 403; 404; 400]%Z) \/
  (exists code,
     assoc "code" fields = VStr code /\ In code (outer_codes ++ stream_codes)).
Proof.
  intros Hrun Hjson.
  destruct (POST_reply P env
              (fun reply => forall fields status,
                 reply_response reply = Response_json fields status ->
                 (assoc "code" fields = VUndefined /\ In status [401; 403; 404; 400]%Z) \/
                 (exists code,
                    assoc "code" fields = VStr code /\
                    In code (outer_codes ++ stream_codes))) s)
    as [[reply' [s'' [Hrun' HQ]]]|[e [s'' [err [Hrun' _]]]]];
    cbn [reply_response].
  - intros message _ fs st [= <- <-]. left. cbn. tauto.
  - intros fs st [= <- <-]. left. cbn. tauto.
  - intros owner caller _ fs st [= <- <-]. left. cbn. tauto.
  - intros fs st [= <- <-]. left. cbn. tauto.
  - intros h response source threadId user st _ fs st'. discriminate.
  - intros streamErr s0 r s1 _ _ Hc fs st ->. right.
    destruct (classifyStreamError_cases env streamErr s0) as [_ Hcases].
    destruct Hcases
      as [[fields' [status' [code [message [Hc' [_ [_ [_ [Hcode [Hin _]]]]]]]]]]|[e [Hc' _]]];
      rewrite Hc in Hc'; [|discriminate].
    unfold Response_json in Hc'. inversion Hc'; subst.
    exists code. split; [exact Hcode|]. apply in_or_app. now right.
  - intros err s0 r s1 Hc fs st ->. right.
    destruct (classifyError_cases env err s0)
      as [[fields' [status' [code [message [Hc' [_ [_ [_ [Hcode [Hin _]]]]]]]]]]|[e [Hc' _]]];
      rewrite Hc in Hc'; [|discriminate].
    unfold Response_json in Hc'. inversion Hc'; subst.
    exists code. split; [exact Hcode|]. apply in_or_app. now left.
  - rewrite Hrun in Hrun'. injection Hrun' as <- _. now apply HQ.
  - rewrite Hrun in Hrun'. discriminate.
Qed.

Lemma X6_POST_reply_codes_witness :
  (assoc "code"
     [("error", VStr "Invalid request or parameters");
      ("details", VStr "Cannot read properties of undefined (reading 'toLowerCase')");
      ("code", VStr "TYPE_ERROR")] = VUndefined /\
   In 400%Z [401; 403; 404; 400]%Z) \/
  (exists code,
     assoc "code"
       [("error", VStr "Invalid request or parameters");
        ("details", VStr "Cannot read properties of undefined (reading 'toLowerCase')");
        ("code", VStr "TYPE_ERROR")] = VStr code /\
     In code (outer_codes ++ stream_codes)).
Proof.
  refine (X6_POST_reply_codes samplePrompts noContentEnv initial
            {| reply_response :=
                 Response_json
                   [("error", VStr "Invalid request or parameters");
                    ("details",
                     VStr "Cannot read properties of undefined (reading 'toLowerCase')");
                    ("code", VStr "TYPE_ERROR")] 400;
               reply_stream := None |}
            (snd (POST samplePrompts noContentEnv initial)) _ 400 _ eq_refl).
  vm_compute. reflexivity.
Defined.

Lemma POST_verifyThread_reply (P : PromptTable) (env : Env) (s : State) (user : User)
    (request : RequestBody) (r : Response) :
  authenticated env user -> request_json env = Ret request ->
  (forall s0, fst (verifyThread (E := JsError) env user (body_id request) s0)
              = Ret (Some r)) ->
  exists s',
    POST P env s = (Ret {| reply_response := r; reply_stream := None |}, s') /\
    calls_made s' = calls_made s /\
    persisted s' = persisted s.
Proof.
  intros Hauth Hreq Hcheck.
  destruct (POST_enters P env s user request Hauth Hreq) as [s0 [Hc [Hp ->]]].
  unfold try_catch, bind.
  pose proof (Hcheck s0) as Hf.
  pose proof (verifyThread_calls (E := JsError) env user (body_id request) s0) as Hk.
  pose proof (verifyThread_persisted (E := JsError) env user (body_id request) s0) as Hk'.
  destruct (verifyThread env user (body_id request) s0) as [r0 s1].
  cbn in Hf, Hk, Hk'. subst r0. cbn.
  exists s1. split; [reflexivity|]. split; congruence.
Qed.

(** X7. The 403 answer tells the caller who owns the thread: for an
    authenticated request that names a thread of another user, the body of
    the response holds, under [details], the id of the thread's owner and
    the id of the caller; no call to the model is made and nothing is
    persisted. *)
Theorem X7_forbidden_reply_names_owner (P : PromptTable) (env : Env) (s : State)
    (user : User) (request : RequestBody) (id : string) (row : ThreadRow) :
  authenticated env user -> request_json env = Ret request ->
  thread_supplied request id -> thread_of env id row ->
  thread_user_id row <> user_id user ->
  exists s',
    POST P env s
    = (Ret {| reply_response :=
                Response_json
                  [("error", VStr "Unauthorized thread access");
                   ("details",
                    VObj [("threadUserId", VStr (thread_user_id row));
                          ("currentUserId", VStr (user_id user))])]
                  403;
              reply_stream := None |}, s') /\
    calls_made s' = calls_made s /\
    persisted s' = persisted s.
Proof.
  intros Hauth Hreq [Hid Hne] Hrow Hown.
  apply (POST_verifyThread_reply P env s user request); auto.
  intros s0. rewrite Hid. now apply verifyThread_foreign.
Qed.

Lemma X7_forbidden_reply_names_owner_witness :
  exists s',
    POST samplePrompts foreignThreadEnv initial
    = (Ret {| reply_response :=
                Response_json
                  [("error", VStr "Unauthorized thread access");
                   ("details",
                    VObj [("threadUserId", VStr "user-2");
                          ("currentUserId", VStr "user-1")])]
                  403;
              reply_stream := None |}, s') /\
    calls_made s' = calls_made initial /\
    persisted s' = persisted initial.
Proof.
  refine (X7_forbidden_reply_names_owner samplePrompts foreignThreadEnv initial
            (sampleUser (VStr "Student"))
            (threadBody (VArr [jsonMessage "user" (VStr "hello")])) "thread-9"
            {| thread_id := "thread-9"; thread_user_id := "user-2" |} _ eq_refl _ _ _).
  - split; reflexivity.
  - split; [reflexivity | discriminate].
  - split; [|split; [now left | reflexivity]].
    constructor; [intros [] | constructor].
  - discriminate.
Defined.

(** X9. A message list with a null element is refused as a client error:
    for an authenticated request that passes the ownership check, [POST]
    answers 400 with code TYPE_ERROR, in teaching mode as well, without
    calling the model and without persisting anything. *)
Theorem X9_null_message_refused (P : PromptTable) (env : Env) (s : State)
    (user : User) (request : RequestBody) (items : list value) :
  authenticated env user -> request_json env = Ret request ->
  thread_check_passes env user request ->
  body_messages request = VArr items ->
  In VNull items ->
  exists fields s',
    POST P env s
    = (Ret {| reply_response := Response_json fields 400; reply_stream := None |}, s') /\
    assoc "code" fields = VStr "TYPE_ERROR" /\
    calls_made s' = calls_made s /\
    persisted s' = persisted s.
Proof.
  intros Hauth Hreq Hpass Hmsgs Hnull.
  destruct items as [|m ms]; [contradiction|].
  destruct (POST_starts P env s user request m ms Hauth Hreq Hpass Hmsgs)
    as [s1 [Hc [Hp ->]]].
  assert (Hbad : ~ Forall copyable (m :: ms)).
  { intros Hall. rewrite Forall_forall in Hall. destruct (Hall VNull Hnull) as [C _].
    congruence. }
  destruct (proj1 (proj2 (cleanMessages_copy (m :: ms))) Hbad) as [e [Hthrow Hclass]].
  unfold startStream, try_catch. unfold bind at 1. unfold lift at 1. rewrite Hthrow.
  unfold outerCatch, bind, respond, ret.
  assert (Hty : isTypeError e = true) by (unfold isTypeError; now rewrite Hclass).
  destruct (classifyError_cases env e s1)
    as [[fields [status [code [message [Hrun [_ [_ [_ [Hcode [_ [_ [Htype _]]]]]]]]]]]]
       |[e' [_ [_ [Hapi _]]]]].
  2:{ apply api_not_type in Hapi. congruence. }
  destruct (Htype Hty) as [-> ->].
  rewrite Hrun. eexists _, _. split; [reflexivity|]. split; [exact Hcode|].
  split.
  - rewrite <- Hc. unfold calls_made. cbn. now rewrite !model_calls_app, !app_nil_r.
  - rewrite <- Hp. unfold persisted. cbn. now rewrite !db_events_app, !app_nil_r.
Qed.

Lemma X9_null_message_refused_witness :
  In VNull [jsonMessage "user" (VStr "hello"); VNull] /\
  exists fields s',
    POST samplePrompts nullMessageEnv initial
    = (Ret {| reply_response := Response_json fields 400; reply_stream := None |}, s') /\
    assoc "code" fields = VStr "TYPE_ERROR" /\
    calls_made s' = calls_made initial /\
    persisted s' = persisted initial.
Proof.
  assert (Hin : In VNull [jsonMessage "user" (VStr "hello"); VNull]) by (right; now left).
  split; [exact Hin|].
  refine (X9_null_message_refused samplePrompts nullMessageEnv initial
            (sampleUser (VStr "Student")) _ _ _ eq_refl (or_introl eq_refl) eq_refl Hin).
  split; reflexivity.
Defined.

(** ** Calls to the model *)

Lemma streamTextOptions_maxSteps (P : PromptTable) (cleanMessages : list Message)
    (userRole : value) (language : Language) (teachingMode : bool)
    (options : StreamTextOptions) :
  streamTextOptions P cleanMessages userRole language teachingMode = Ret options ->
  opt_maxSteps options = 5%Z /\ opt_messages options = cleanMessages.
Proof.
  unfold streamTextOptions.
  destruct (if teachingMode then _ else _) as [system|e]; [|discriminate].
  intros [= <-]. split; reflexivity.
Qed.

Lemma startStream_at_most_one_call (P : PromptTable) (env : Env) (user : User)
    (threadId : option string) (language : Language) (teachingMode : bool)
    (messages : list value) (s : State) :
  let s' := snd (try_catch (startStream P env user threadId language teachingMode messages)
                   (outerCatch env) s) in
  calls_made s' = calls_made s \/
  exists cleanMessages options,
    map_res cleanMessage messages = Ret cleanMessages /\
    calls_made s' = calls_made s ++ [options] /\
    opt_maxSteps options = 5%Z /\
    opt_messages options = cleanMessages.
Proof.
  intros s'. subst s'.
  destruct (map_res cleanMessage messages) as [clean|e] eqn:Hclean.
  - destruct (streamTextOptions P clean (user_role user) language teachingMode)
      as [options|e] eqn:Hoptions.
    + right. exists clean, options. split; [reflexivity|].
      split; [now apply (startStream_calls_model P env user threadId language teachingMode
                          messages clean options s)|].
      eapply streamTextOptions_maxSteps; eauto.
    + left. unfold startStream, try_catch, bind, lift, set_streamFinished, set_streamError.
      rewrite Hclean. cbn [chat_messages tool_outputs trace db_calls uuids].
      rewrite Hoptions. now rewrite outerCatch_calls.
  - left. unfold startStream, try_catch, bind, lift. rewrite Hclean.
    now rewrite outerCatch_calls.
Qed.

(** X10. A request makes at most one call to the model, whatever happens:
    [POST] either calls [streamText] once, with a step budget of 5 and the
    copy of the request's messages, or does not call it at all. *)
Theorem X10_at_most_one_model_call (P : PromptTable) (env : Env) (s : State) :
  calls_made (snd (POST P env s)) = calls_made s \/
  exists request items cleanMessages options,
    request_json env = Ret request /\
    body_messages request = VArr items /\
    map_res cleanMessage items = Ret cleanMessages /\
    calls_made (snd (POST P env s)) = calls_made s ++ [options] /\
    opt_maxSteps options = 5%Z /\
    opt_messages options = cleanMessages.
Proof.
  destruct (auth_error (getUser env)) as [msg|] eqn:Herr.
  { left. unfold POST, try_catch. now rewrite Herr. }
  destruct (auth_user (getUser env)) as [user|] eqn:Huser.
  2:{ left. unfold POST, try_catch. now rewrite Herr, Huser. }
  destruct (request_json env) as [request|e] eqn:Hreq.
  2:{ left. unfold POST, try_catch, bind, lift. rewrite Herr, Huser, Hreq.
      now rewrite outerCatch_calls. }
  destruct (POST_enters P env s user request (conj Herr Huser) Hreq) as [s0 [Hc [_ ->]]].
  match goal with
  | |- context [try_catch ?m ?h s0] => remember (try_catch m h s0) as run eqn:Hrun
  end.
  unfold try_catch in Hrun. unfold bind at 1 in Hrun.
  pose proof (verifyThread_calls (E := JsError) env user (body_id request) s0) as Hk.
  destruct (verifyThread env user (body_id request) s0) as [[[r|]|e] s1]; cbn [snd] in Hk;
    subst run.
  - left. cbn. congruence.
  - assert (Hother : forall m : M JsError Reply,
              m = respond (Response_json [("error", VStr "Invalid messages array")] 400) ->
              calls_made (snd (let (r, s') := m s1 in
                               match r with
                               | Ret a => (Ret a, s')
                               | Throw e => outerCatch env e s'
                               end)) = calls_made s).
    { intros m ->. cbn. congruence. }
    destruct (body_messages request) as [| | | | |[|m ms]|] eqn:Hm;
      try (left; now apply Hother).
    destruct (startStream_at_most_one_call P env user (body_id request)
                (match body_language request with Some l => l | None => english end)
                (match body_teachingMode request with Some b => b | None => false end)
                (m :: ms) s1) as [H|[clean [options [H1 [H2 [H3 H4]]]]]].
    + left. etransitivity; [exact H | congruence].
    + right. exists request, (m :: ms), clean, options.
      split; [reflexivity|]. split; [exact Hm|]. split; [exact H1|].
      split; [|split; assumption].
      etransitivity; [exact H2 | congruence].
  - left. rewrite outerCatch_calls. congruence.
Qed.

(** ** What a run of the callbacks writes *)

Lemma withResult_result (toolResults : option (list ToolResult)) (call : ToolCall) :
  let result := twr_result (withResult toolResults call) in
  result = VUndefined \/
  truthy result = true /\
  exists results r,
    toolResults = Some results /\ In r results /\
    tr_toolCallId r = tc_toolCallId call /\ tr_result r = result.
Proof.
  unfold withResult, findResult. cbn [twr_result].
  destruct toolResults as [results|]; [|now left].
  destruct (find _ results) as [r|] eqn:Hfind; [|now left].
  apply find_some in Hfind as [Hin Heq]. apply String.eqb_eq in Heq.
  unfold or_val. destruct (truthy (tr_result r)) eqn:Ht; [|now left].
  right. split; [exact Ht|]. now exists results, r.
Qed.

Lemma stepOutputs_rows (env : Env) (step : Step) (s : State) (calls : list ToolCall) :
  step_toolCalls step = Some calls ->
  Forall (row_of_call [step]) (stepOutputs env step s calls) /\
  Forall (fun row => to_message_id row = randomUUID env (uuids s))
         (stepOutputs env step s calls) /\
  map to_tool_call_id (stepOutputs env step s calls) = map tc_toolCallId calls.
Proof.
  intros Hstep. unfold stepOutputs. rewrite map_map. split; [|split].
  - apply Forall_forall. intros row Hin. apply in_map_iff in Hin as [call [<- Hcall]].
    exists step, calls, call. split; [now left|]. split; [exact Hstep|].
    split; [exact Hcall|]. split; [reflexivity|]. split; [reflexivity|].
    split; [reflexivity|]. apply (withResult_result (step_toolResults step) call).
  - apply Forall_forall. intros row Hin. apply in_map_iff in Hin as [call [<- _]].
    reflexivity.
  - rewrite map_map. reflexivity.
Qed.

(** What one invocation of the step callback adds to the two tables. *)
Lemma onStepFinish_writes {E} (env : Env) (threadId : option string) (step : Step)
    (s : State) :
  exists s' new_msgs new_rows,
    onStepFinish (E := E) env threadId step s = (Ret tt, s') /\
    chat_messages s' = chat_messages s ++ new_msgs /\
    tool_outputs s' = tool_outputs s ++ new_rows /\
    Forall (message_of_step threadId [step]) new_msgs /\
    length new_msgs <= (if has_toolCalls step then 1 else 0) /\
    Forall (fun row => exists m, In m new_msgs /\ cm_id m = to_message_id row) new_rows /\
    Forall (row_of_call [step]) new_rows /\
    map to_tool_call_id new_rows
    = (if accepted (insert_reply env (db_calls s))
          && accepted (insert_reply env (S (db_calls s)))
       then map tc_toolCallId (step_calls step) else []).
Proof.
  destruct (has_toolCalls step) eqn:Hcalls.
  2:{ exists s, [], []. rewrite onStepFinish_no_calls by exact Hcalls.
      rewrite !app_nil_r. repeat split; try constructor.
      unfold has_toolCalls in Hcalls. unfold step_calls.
      destruct (step_toolCalls step) as [[|c cs]|]; try discriminate;
        now destruct (_ && _). }
  pose proof Hcalls as Hhas. unfold has_toolCalls in Hcalls.
  destruct (step_toolCalls step) as [[|call calls]|] eqn:Hstep; try discriminate.
  destruct (onStepFinish_calls (E := E) env threadId step s call calls Hstep)
    as [s' [logs [Hrun [_ [_ [_ Hcase]]]]]].
  destruct (stepOutputs_rows env step s (call :: calls) Hstep) as [Hrows [Hids Hmap]].
  assert (Hmsg : message_of_step threadId [step] (stepMessage env threadId step s)).
  { split; [reflexivity|]. split; [reflexivity|]. exists step.
    split; [now left|]. split; [exact Hhas | reflexivity]. }
  unfold step_calls. rewrite Hstep.
  destruct (insert_reply env (db_calls s)) eqn:Hreply.
  - destruct Hcase as [Hmsgs [_ Htools]].
    destruct (insert_reply env (S (db_calls s))) eqn:Hreply'; destruct Htools as [Htools _].
    + exists s', [stepMessage env threadId step s], (stepOutputs env step s (call :: calls)).
      split; [exact Hrun|]. split; [exact Hmsgs|]. split; [exact Htools|].
      split; [now constructor|]. split; [simpl; lia|].
      split; [|split; [exact Hrows | exact Hmap]].
      eapply Forall_impl; [|exact Hids]. intros row Hrow.
      exists (stepMessage env threadId step s). split; [now left | now rewrite Hrow].
    + exists s', [stepMessage env threadId step s], [].
      rewrite app_nil_r. split; [exact Hrun|]. split; [exact Hmsgs|]. split; [exact Htools|].
      split; [now constructor|]. split; [simpl; lia|]. repeat split; constructor.
    + exists s', [stepMessage env threadId step s], [].
      rewrite app_nil_r. split; [exact Hrun|]. split; [exact Hmsgs|]. split; [exact Htools|].
      split; [now constructor|]. split; [simpl; lia|]. repeat split; constructor.
  - destruct Hcase as [Hmsgs [Htools _]].
    exists s', [], []. rewrite !app_nil_r.
    split; [exact Hrun|]. split; [exact Hmsgs|]. split; [exact Htools|].
    split; [constructor|]. split; [simpl; lia|]. repeat split; constructor.
  - destruct Hcase as [Hmsgs [Htools _]].
    exists s', [], []. rewrite !app_nil_r.
    split; [exact Hrun|]. split; [exact Hmsgs|]. split; [exact Htools|].
    split; [constructor|]. split; [simpl; lia|]. repeat split; constructor.
Qed.

Lemma message_of_step_incl (threadId : option string) (steps steps' : list Step)
    (m : ChatMessageRow) :
  incl steps steps' -> message_of_step threadId steps m -> message_of_step threadId steps' m.
Proof.
  intros Hincl [Hr [Ht [step [Hin H]]]]. split; [exact Hr|]. split; [exact Ht|].
  exists step. split; [now apply Hincl | exact H].
Qed.

Lemma row_of_call_incl (steps steps' : list Step) (row : ToolOutputRow) :
  incl steps steps' -> row_of_call steps row -> row_of_call steps' row.
Proof.
  intros Hincl [step [calls [call [Hin H]]]].
  exists step, calls, call. split; [now apply Hincl | exact H].
Qed.

(** What a run over all the steps adds to the two tables. *)
Lemma run_steps_writes {E} (env : Env) (threadId : option string) (steps : list Step)
    (s : State) :
  exists s' new_msgs new_rows,
    run_steps (E := E) env threadId steps s = (Ret tt, s') /\
    chat_messages s' = chat_messages s ++ new_msgs /\
    tool_outputs s' = tool_outputs s ++ new_rows /\
    Forall (message_of_step threadId steps) new_msgs /\
    length new_msgs <= length (filter has_toolCalls steps) /\
    Forall (fun row => exists m, In m new_msgs /\ cm_id m = to_message_id row) new_rows /\
    Forall (row_of_call steps) new_rows.
Proof.
  revert s. induction steps as [|step rest IH]; intros s.
  - exists s, [], []. rewrite !app_nil_r. repeat split; try constructor.
  - destruct (onStepFinish_writes (E := E) env threadId step s)
      as [s1 [m1 [r1 [Hrun1 [Hm1 [Hr1 [Hmsg1 [Hlen1 [Href1 [Hrow1 _]]]]]]]]]].
    destruct (IH s1) as [s2 [m2 [r2 [Hrun2 [Hm2 [Hr2 [Hmsg2 [Hlen2 [Href2 Hrow2]]]]]]]]].
    exists s2, (m1 ++ m2), (r1 ++ r2). simpl run_steps. unfold bind. rewrite Hrun1, Hrun2.
    split; [reflexivity|].
    split; [now rewrite Hm2, Hm1, app_assoc|].
    split; [now rewrite Hr2, Hr1, app_assoc|].
    assert (H1 : incl [step] (step :: rest)) by (intros x [<-|[]]; now left).
    assert (H2 : incl rest (step :: rest)) by (intros x Hx; now right).
    split; [|split; [|split]].
    + apply Forall_app. split.
      * eapply Forall_impl; [|exact Hmsg1]. intros m. now apply message_of_step_incl.
      * eapply Forall_impl; [|exact Hmsg2]. intros m. now apply message_of_step_incl.
    + rewrite length_app. simpl filter. destruct (has_toolCalls step); simpl; lia.
    + apply Forall_app. split.
      * eapply Forall_impl; [|exact Href1]. intros row [m [Hin Hid]].
        exists m. split; [apply in_or_app; now left | exact Hid].
      * eapply Forall_impl; [|exact Href2]. intros row [m [Hin Hid]].
        exists m. split; [apply in_or_app; now right | exact Hid].
    + apply Forall_app. split.
      * eapply Forall_impl; [|exact Hrow1]. intros row. now apply row_of_call_incl.
      * eapply Forall_impl; [|exact Hrow2]. intros row. now apply row_of_call_incl.
Qed.

(** The same for the whole run, finish callback included. *)
Lemma run_callbacks_writes {E} (env : Env) (user : User) (threadId : option string)
    (h : StreamHandler) (s : State) :
  exists s' new_msgs new_rows,
    run_callbacks (E := E) env user threadId h s = (Ret tt, s') /\
    chat_messages s' = chat_messages s ++ new_msgs /\
    tool_outputs s' = tool_outputs s ++ new_rows /\
    Forall (message_of_step threadId (handler_steps h)) new_msgs /\
    length new_msgs <= length (filter has_toolCalls (handler_steps h)) /\
    Forall (fun row => exists m, In m new_msgs /\ cm_id m = to_message_id row) new_rows /\
    Forall (row_of_call (handler_steps h)) new_rows.
Proof.
  destruct (run_steps_writes (E := E) env threadId (handler_steps h) s)
    as [s1 [ms [rs [Hrun [Hm [Hr H]]]]]].
  destruct (onFinish_returns (E := E) env user (handler_finish h) s1)
    as [s2 [Hfin [_ Hp]]].
  exists s2, ms, rs. unfold run_callbacks, bind. rewrite Hrun, Hfin.
  unfold persisted in Hp. injection Hp as Hp1 Hp2 _.
  split; [reflexivity|]. split; [congruence|]. split; [congruence | exact H].
Qed.

(** X11. The callbacks keep the references of the store sound: when every
    tool output in the store refers to a message that is in the store, this
    still holds at the end of a stream, whatever the steps are and whatever
    the store answers to the inserts. *)
Theorem X11_references_kept (E : Type) (env : Env) (user : User)
    (threadId : option string) (h : StreamHandler) (s : State) :
  references_ok s ->
  references_ok (snd (run_callbacks (E := E) env user threadId h s)).
Proof.
  intros Hok.
  destruct (run_callbacks_writes (E := E) env user threadId h s)
    as [s' [ms [rs [Hrun [Hm [Hr [_ [_ [Href _]]]]]]]]].
  rewrite Hrun. cbn [snd]. intros row Hin. rewrite Hr in Hin. rewrite Hm.
  apply in_app_or in Hin as [Hin|Hin].
  - destruct (Hok row Hin) as [m [Hm' Hid]]. exists m. split; [|exact Hid].
    apply in_or_app. now left.
  - rewrite Forall_forall in Href. destruct (Href row Hin) as [m [Hm' Hid]].
    exists m. split; [|exact Hid]. apply in_or_app. now right.
Qed.

Lemma X11_references_kept_witness :
  references_ok earlierState /\
  references_ok
    (snd (run_callbacks (E := JsError) toolCallEnv (sampleUser (VStr "Student")) None
            toolHandler earlierState)).
Proof.
  assert (H : references_ok earlierState).
  { intros row [<-|[]]. eexists. split; [now left | reflexivity]. }
  split; [exact H|].
  exact (X11_references_kept JsError toolCallEnv (sampleUser (VStr "Student")) None
           toolHandler earlierState H).
Defined.

(** X12. The callbacks only ever append to the two tables, and what they
    append to chat_messages are assistant messages: at the end of a stream
    the rows that were in the store are still there, in place; every new
    message has the role 'assistant', the thread id of the request and the
    text of a step that calls tools; and there is at most one new message
    per such step. *)
Theorem X12_store_append_only (E : Type) (env : Env) (user : User)
    (threadId : option string) (h : StreamHandler) (s : State) :
  exists s' new_msgs new_rows,
    run_callbacks (E := E) env user threadId h s = (Ret tt, s') /\
    chat_messages s' = chat_messages s ++ new_msgs /\
    tool_outputs s' = tool_outputs s ++ new_rows /\
    Forall (message_of_step threadId (handler_steps h)) new_msgs /\
    length new_msgs <= length (filter has_toolCalls (handler_steps h)).
Proof.
  destruct (run_callbacks_writes (E := E) env user threadId h s)
    as [s' [ms [rs [Hrun [Hm [Hr [Hmsg [Hlen _]]]]]]]].
  now exists s', ms, rs.
Qed.

(** X13. Every tool output written during a stream records a tool call of
    one of its steps, with the id, the tool name and the arguments of that
    call.  Its result is never a falsy value: it is a truthy value that
    the step reports for the call, or undefined, which is also what a
    reported result of 0, false, null or the empty string is stored as. *)
Theorem X13_rows_mirror_calls (E : Type) (env : Env) (user : User)
    (threadId : option string) (h : StreamHandler) (s : State) :
  exists new_rows,
    tool_outputs (snd (run_callbacks (E := E) env user threadId h s))
    = tool_outputs s ++ new_rows /\
    Forall (row_of_call (handler_steps h)) new_rows /\
    Forall (fun row => truthy (to_result row) = false -> to_result row = VUndefined) new_rows.
Proof.
  destruct (run_callbacks_writes (E := E) env user threadId h s)
    as [s' [ms [rs [Hrun [_ [Hr [_ [_ [_ Hrows]]]]]]]]].
  exists rs. rewrite Hrun. split; [exact Hr|]. split; [exact Hrows|].
  eapply Forall_impl; [|exact Hrows].
  intros row [step [calls [call [_ [_ [_ [_ [_ [_ [Hu|[Ht _]]]]]]]]]]] Hf;
    [exact Hu | congruence].
Qed.

(** X14. The tool outputs of a step are written all or none, in the order
    of the calls: one invocation of the step callback adds one row per tool
    call of the step, in order, exactly when the store accepts both the
    message insert and the tool-output insert, and no row at all
    otherwise. *)
Theorem X14_tool_rows_all_or_none (E : Type) (env : Env) (threadId : option string)
    (step : Step) (s : State) :
  exists new_rows,
    tool_outputs (snd (onStepFinish (E := E) env threadId step s))
    = tool_outputs s ++ new_rows /\
    map to_tool_call_id new_rows
    = (if accepted (insert_reply env (db_calls s))
          && accepted (insert_reply env (S (db_calls s)))
       then map tc_toolCallId (step_calls step) else []).
Proof.
  destruct (onStepFinish_writes (E := E) env threadId step s)
    as [s' [ms [rs [Hrun [_ [Hr [_ [_ [_ [_ Hmap]]]]]]]]]].
  exists rs. rewrite Hrun. split; [exact Hr | exact Hmap].
Qed.

(** ** A request served from its arrival to the end of its stream *)

Lemma verifyThread_owns {E} (env : Env) (user : User) (threadId : option string)
    (s s' : State) :
  verifyThread (E := E) env user threadId s = (Ret None, s') -> owns env user threadId.
Proof.
  unfold verifyThread. destruct threadId as [[|c id]|].
  - intros _ id [= <-] H. congruence.
  - unfold selectThread, bind, console, emit, ret. cbn [fst snd].
    destruct (filter _ (chat_threads env)) as [|thread [|other rest]] eqn:Hf;
      cbn [single]; try discriminate.
    destruct (thread_user_id thread =? user_id user) eqn:Heq; cbn [negb]; [|discriminate].
    intros _ id' [= <-] _. exists thread.
    assert (Hin : In thread (filter (fun row => thread_id row =? String c id)
                               (chat_threads env))) by (rewrite Hf; now left).
    apply filter_In in Hin as [Hin Hid].
    split; [exact Hin|]. split; [now apply String.eqb_eq | now apply String.eqb_eq].
  - intros _ id C. discriminate.
Qed.

Lemma outerCatch_no_stream (env : Env) (err : JsError) (s : State) (reply : Reply)
    (s' : State) :
  outerCatch env err s = (Ret reply, s') -> reply_stream reply = None.
Proof.
  unfold outerCatch, bind, respond, ret.
  destruct (classifyError env err s) as [[r|e] s1]; [|discriminate].
  now intros [= <- _].
Qed.

(** When [POST] answers with a stream behind its reply, the request came
    from an authenticated caller, the thread it names is the caller's, and
    the callbacks of the stream are handed that thread and that caller. *)
Lemma POST_streaming (P : PromptTable) (env : Env) (s : State) (reply : Reply)
    (s' : State) (st : Started) :
  POST P env s = (Ret reply, s') ->
  reply_stream reply = Some st ->
  exists request source,
    authenticated env (started_user st) /\
    request_json env = Ret request /\
    started_threadId st = body_id request /\
    owns env (started_user st) (body_id request) /\
    headers (reply_response reply) = streamHeaders /\
    body (reply_response reply) = BodyStream source.
Proof.
  intros Hrun Hst.
  destruct (auth_error (getUser env)) as [msg|] eqn:Herr.
  { unfold POST, try_catch in Hrun. rewrite Herr in Hrun. cbn in Hrun.
    injection Hrun as <- _. discriminate. }
  destruct (auth_user (getUser env)) as [user|] eqn:Huser.
  2:{ unfold POST, try_catch in Hrun. rewrite Herr, Huser in Hrun. cbn in Hrun.
      injection Hrun as <- _. discriminate. }
  destruct (request_json env) as [request|e] eqn:Hreq.
  2:{ unfold POST, try_catch, bind, lift in Hrun. rewrite Herr, Huser, Hreq in Hrun.
      apply outerCatch_no_stream in Hrun. congruence. }
  destruct (POST_enters P env s user request (conj Herr Huser) Hreq) as [s0 [_ [_ HP]]].
  rewrite HP in Hrun. clear HP.
  unfold try_catch in Hrun. unfold bind at 1 in Hrun.
  destruct (verifyThread env user (body_id request) s0) as [[[r|]|e] s1] eqn:Hv.
  - cbn in Hrun. injection Hrun as <- _. discriminate.
  - apply verifyThread_owns in Hv.
    assert (Hstart : returning
              (fun reply => forall st, reply_stream reply = Some st ->
                 started_user st = user /\ started_threadId st = body_id request /\
                 headers (reply_response reply) = streamHeaders /\
                 exists source, body (reply_response reply) = BodyStream source)
              (match body_messages request with
               | VArr (m :: ms) =>
                   startStream P env user (body_id request)
                     (match body_language request with Some l => l | None => english end)
                     (match body_teachingMode request with Some b => b | None => false end)
                     (m :: ms)
               | _ => respond (Response_json [("error", VStr "Invalid messages array")] 400)
               end)).
    { assert (H400 : forall r,
                returning
                  (fun reply => forall st, reply_stream reply = Some st ->
                     started_user st = user /\ started_threadId st = body_id request /\
                     headers (reply_response reply) = streamHeaders /\
                     exists source, body (reply_response reply) = BodyStream source)
                  (respond (E := JsError) r)).
      { intros r. unfold respond. apply returning_ret. discriminate. }
      destruct (body_messages request) as [| | | | |[|m ms]|]; try apply H400.
      apply startStream_reply.
      - intros h response source status _ st0 [= <-]. cbn. repeat split. now exists source.
      - intros streamErr sa r sb _ _ _ st0 C. discriminate. }
    match type of Hrun with
    | context [match ?x with _ => _ end] => destruct x as [[reply0|e] s2] eqn:Hm
    end.
    + injection Hrun as <- _.
      destruct (Hstart s1 reply0 s2 Hm st Hst) as [Hu [Ht [Hh [source Hb]]]].
      exists request, source. rewrite Hu. unfold authenticated. auto 10.
    + apply outerCatch_no_stream in Hrun. congruence.
  - apply outerCatch_no_stream in Hrun. congruence.
Qed.

(** What serving a request writes to the store. *)
Lemma serve_writes (P : PromptTable) (env : Env) (s : State) :
  let s' := snd (serve P env s) in
  exists new_msgs new_rows,
    chat_messages s' = chat_messages s ++ new_msgs /\
    tool_outputs s' = tool_outputs s ++ new_rows /\
    (new_msgs = [] /\ new_rows = [] \/
     exists user request,
       authenticated env user /\
       request_json env = Ret request /\
       owns env user (body_id request) /\
       Forall (fun m => cm_thread_id m = body_id request /\ cm_role m = "assistant")
              new_msgs /\
       Forall (fun row => exists m, In m new_msgs /\ cm_id m = to_message_id row) new_rows).
Proof.
  intros s'. subst s'.
  assert (Hnone : forall s0 : State,
            persisted s0 = persisted s ->
            exists new_msgs new_rows,
              chat_messages s0 = chat_messages s ++ new_msgs /\
              tool_outputs s0 = tool_outputs s ++ new_rows /\
              (new_msgs = [] /\ new_rows = [] \/
               exists user request,
                 authenticated env user /\
                 request_json env = Ret request /\
                 owns env user (body_id request) /\
                 Forall (fun m => cm_thread_id m = body_id request /\
                                  cm_role m = "assistant") new_msgs /\
                 Forall (fun row => exists m, In m new_msgs /\ cm_id m = to_message_id row)
                        new_rows)).
  { intros s0 Hp. unfold persisted in Hp. injection Hp as Hp1 Hp2 _.
    exists [], []. rewrite !app_nil_r. auto. }
  pose proof (POST_persisted P env s) as Hkeep.
  unfold serve, bind.
  destruct (POST P env s) as [[reply|e] s0] eqn:HP; cbn [snd] in *; [|now apply Hnone].
  destruct (reply_stream reply) as [st|] eqn:Hst; [|now apply Hnone].
  destruct (body (reply_response reply)) as [fields|source] eqn:Hb; [now apply Hnone|].
  destruct (run_callbacks_writes (E := JsError) env (started_user st)
              (started_threadId st) (started_handler st) s0)
    as [s1 [ms [rs [Hcb [Hm [Hr [Hmsg [_ [Href _]]]]]]]]].
  pose proof (pipe_persisted source fresh s1) as Hpipe.
  unfold pipeThrough. rewrite Hcb.
  destruct (POST_streaming P env s reply s0 st HP Hst)
    as [request [source' [Hauth [Hreq [Hthread [Hown _]]]]]].
  assert (Hfinal : forall s2 : State,
            persisted s2 = persisted s1 ->
            exists new_msgs new_rows,
              chat_messages s2 = chat_messages s ++ new_msgs /\
              tool_outputs s2 = tool_outputs s ++ new_rows /\
              (new_msgs = [] /\ new_rows = [] \/
               exists user request,
                 authenticated env user /\
                 request_json env = Ret request /\
                 owns env user (body_id request) /\
                 Forall (fun m => cm_thread_id m = body_id request /\
                                  cm_role m = "assistant") new_msgs /\
                 Forall (fun row => exists m, In m new_msgs /\ cm_id m = to_message_id row)
                        new_rows)).
  { intros s2 Hp2. unfold persisted in Hkeep, Hp2.
    injection Hkeep as Hk1 Hk2 _. injection Hp2 as Hq1 Hq2 _.
    exists ms, rs.
    split; [now rewrite Hq1, Hm, Hk1|]. split; [now rewrite Hq2, Hr, Hk2|].
    right. exists (started_user st), request.
    split; [exact Hauth|]. split; [exact Hreq|]. split; [exact Hown|].
    split; [|exact Href].
    eapply Forall_impl; [|exact Hmsg]. intros m [Hrole [Ht _]].
    split; [congruence | exact Hrole]. }
  destruct (pipe source fresh s1) as [[delivered|e] s2]; cbn [snd] in *;
    now apply Hfinal.
Qed.

(** X16. Serving a request never writes into a thread of another user.
    Whatever the outcome, what is written while a request is served is
    appended to the two tables; and when anything is written, the caller is
    authenticated, the thread named by the request, if it names one, is a
    row of chat_threads that belongs to the caller, every new message is an
    assistant message filed under that thread id, and every new tool output
    refers to one of the new messages. *)
Theorem X16_writes_only_to_own_thread (P : PromptTable) (env : Env) (s : State) :
  let s' := snd (serve P env s) in
  exists new_msgs new_rows,
    chat_messages s' = chat_messages s ++ new_msgs /\
    tool_outputs s' = tool_outputs s ++ new_rows /\
    (new_msgs = [] /\ new_rows = [] \/
     exists user request,
       authenticated env user /\
       request_json env = Ret request /\
       owns env user (body_id request) /\
       Forall (fun m => cm_thread_id m = body_id request /\ cm_role m = "assistant")
              new_msgs /\
       Forall (fun row => exists m, In m new_msgs /\ cm_id m = to_message_id row) new_rows).
Proof. exact (serve_writes P env s). Qed.

(** ** Histories without a user message *)

Lemma find_none_user (messages : list Message) :
  Forall (fun m => is_str (role m) "user" = false) messages ->
  find (fun m => is_str (role m) "user") (rev messages) = None.
Proof.
  intros Hall. apply Forall_rev in Hall. induction Hall as [|m ms Hm _ IH]; simpl.
  - reflexivity.
  - now rewrite Hm.
Qed.

(** X18. A history in which no message has the role 'user' (the empty
    history included) selects the generic prompt: detection yields
    [generic] without raising, whatever the contents of the messages are,
    and a request outside teaching mode from anyone but a Teacher gets
    GENERIC_TEACHER_PROMPT in English and GENERIC_TEACHER_PROMPT_HINDI in
    Hindi, each followed by the tools paragraph of its language. *)
Theorem X18_no_user_message_generic (P : PromptTable) (messages : list Message) :
  Forall (fun m => is_str (role m) "user" = false) messages ->
  selects P messages generic (GENERIC_TEACHER_PROMPT P) (GENERIC_TEACHER_PROMPT_HINDI P).
Proof.
  intros Hall. apply (detected_selects P messages generic).
  unfold detectSubject, lastUserMessage. now rewrite (find_none_user messages Hall).
Qed.

Lemma X18_no_user_message_generic_witness :
  selects samplePrompts
    [assistant_says "Shall we do some math?";
     {| role := VStr "User"; content := VNull;
        name := None; toolCalls := None; toolCallId := None |}]
    generic "You are a teacher." "generic (hindi)".
Proof.
  apply (X18_no_user_message_generic samplePrompts).
  repeat constructor.
Defined.
